(** * linkedin-dl: the retrying transport, the manifest resolver, the
      fragment catalog and the timeline stitcher of [linkedin/download.py]

    The development is a shallow embedding of the module.

    - Python integers are [Z]; Python floats (durations, times, the time
      limit) are abstracted to exact rationals [Q], so rounding, infinities
      and NaN are out of sight; text is [string], one 8-bit character per
      code point.
    - Everything the module does to the outside world (HTTP requests,
      sleeping, logging, temporary files, decoded clips, the accumulated
      wave file) is threaded through an explicit [World] by a
      state-and-exception monad; the world keeps a trace of the effects in
      the order in which they happen.
    - The network and the library functions whose inner working does not
      matter here ([float], [bytes.decode], the media decoder, the JSON
      walk, ...) are the fields of a record [Externals] over which the
      model is parametric.
    - [trying_get] may loop forever; its model takes a bound [fuel] on the
      number of iterations and answers [Unfinished] when the bound is used
      up.  [get_manifest] is recursive; its model takes the depth of
      recursion that the interpreter allows.
    - [download] hands [_make_frame] to the video library, which calls it
      back at times of its own choosing; the model takes those times as
      parameters.

    The first part of the file is the model, the second part ("Properties")
    states and proves what the specification claims about it, and the
    third part ("More properties of the code") what else the code shows. *)

From Stdlib Require Import ZArith QArith Qminmax List String Ascii Bool Lia Lqa.
From Stdlib Require Import DecimalString DecimalZ Sorted Permutation.
Import ListNotations.

Local Open Scope string_scope.
Local Open Scope Z_scope.

(** ** Module constants (download.py, lines 23-25) *)

Definition MAX_ATTEMPTS : Z := 10.
Definition WAIT : Z := 10.
Definition DEF_QUALITY : Z := 3200000.

(** ** Exceptions and results *)

(** The exception objects the module raises or lets through.  The payload
    of the two connection errors identifies the individual exception
    object, so that "the same error" can be told from "an error of the
    same class". *)
Inductive exception : Type :=
| ConnectionError (detail : string)
| MaxRetryError (detail : string)
| ArgumentError (msg : string)
| IndexError
| ValueError
| AttributeError
| RecursionError
| OtherError (class detail : string).

(** [except (requests.exceptions.ConnectionError, MaxRetryError)] *)
Definition retryable (e : exception) : bool :=
  match e with
  | ConnectionError _ | MaxRetryError _ => true
  | _ => false
  end.

(** The result of running a piece of the program: it returns, it raises,
    or the iteration bound given to the model was used up before it did
    either ([Unfinished]; Python would still be running). *)
Inductive Res (A : Type) : Type :=
| Return (a : A)
| Raise (e : exception)
| Unfinished.

Arguments Return {A} a.
Arguments Raise {A} e.
Arguments Unfinished {A}.

(** ** HTTP data *)

Record Cookie : Type := mkCookie { cookie_name : string; cookie_value : string }.

Record Response : Type := mkResponse {
    resp_url : string;
    resp_text : string;
    resp_content : string;
    resp_cookies : list Cookie
}.

(** The keyword arguments forwarded to [requests.get]. *)
Inductive kwargs : Type :=
| NoKwargs
| HeadersCookies (headers : list (string * string)) (cookies : list Cookie).

(** What one call of [requests.get] does: it hands back a response or it
    raises. *)
Inductive reply : Type :=
| Responds (r : Response)
| Fails (e : exception).

(** ** Media data *)

(** Parameters of a wave stream: channels, sample width, frame rate. *)
Definition wave_params : Type := (Z * Z * Z)%type.

(** What the external decoder makes of the bytes of one fragment. *)
Record Media : Type := mkMedia {
    media_duration : Q;
    media_fps : Q;
    media_audio : option (wave_params * string)
}.

(** A temporary file name: the serial number handed out by [mktemp] and
    the requested suffix. *)
Definition Filename : Type := (nat * string)%type.

(** A [VideoFileClip]: the file it reads and what was decoded from it. *)
Record VideoFileClip : Type := mkClip {
    filename : Filename;
    media : Media
}.

Definition clip_duration (c : VideoFileClip) : Q := media_duration (media c).

(** A frame is identified by the clip that produced it and the local time
    at which it was taken. *)
Record Frame : Type := mkFrame {
    frame_clip : VideoFileClip;
    frame_time : Q
}.

Definition get_frame (c : VideoFileClip) (t : Q) : Frame := mkFrame c t.

(** ** The world *)

Inductive event : Type :=
| EvGet (url : string) (kw : kwargs)
| EvWarning (url : string) (attempt max_attempts wait : Z)
| EvSleep (seconds : Z)
| EvCreateFile (f : Filename)
| EvWriteFile (f : Filename) (content : string)
| EvWriteAudio (f : Filename) (frames : string)
| EvOpenClip (f : Filename)
| EvCloseClip (f : Filename)
| EvRemove (f : Filename)
| EvOpenWave (f : Filename)
| EvAudioFrames (frames : string).

Record World : Type := mkWorld {
    gets : nat;                          (* requests issued so far *)
    temps : nat;                         (* temporary names handed out so far *)
    audio_params : option wave_params;   (* header of the accumulated wave file *)
    trace : list event                   (* effects, oldest first *)
}.

Definition world0 : World := mkWorld 0 0 None [].

(** ** The state-and-exception monad *)

Definition M (S A : Type) : Type := S -> Res A * S.

Definition ret {S A} (a : A) : M S A := fun s => (Return a, s).

Definition raise {S A} (e : exception) : M S A := fun s => (Raise e, s).

Definition unfinished {S A} : M S A := fun s => (Unfinished, s).

Definition bind {S A B} (m : M S A) (k : A -> M S B) : M S B :=
  fun s =>
    match m s with
    | (Return a, s') => k a s'
    | (Raise e, s') => (Raise e, s')
    | (Unfinished, s') => (Unfinished, s')
    end.

Declare Scope monad_scope.
Delimit Scope monad_scope with monad.
Notation "x <- m ;; k" := (bind m (fun x => k))
  (at level 61, m at next level, right associativity) : monad_scope.
Notation "m ;; k" := (bind m (fun _ => k))
  (at level 61, right associativity) : monad_scope.
Local Open Scope monad_scope.

Definition lift_res {S A} (r : Res A) : M S A := fun s => (r, s).

Definition emit (e : event) : M World unit :=
  fun w => (Return tt, mkWorld (gets w) (temps w) (audio_params w) (trace w ++ [e])).

(** [time.sleep] refuses a negative length. *)
Definition sleep (seconds : Z) : M World unit :=
  if seconds <? 0 then raise ValueError else emit (EvSleep seconds).

(** [tempfile.mktemp]: a name nobody was given before; no file is created. *)
Definition mktemp (suffix : string) : M World Filename :=
  fun w => (Return (temps w, suffix),
            mkWorld (gets w) (S (temps w)) (audio_params w) (trace w)).

(** ** Text *)

Definition newline : ascii := "010"%char.
Definition carriage_return : ascii := "013"%char.
Definition backslash : ascii := "092"%char.

(** [s.startswith(p)] *)
Definition startswith (s p : string) : bool := String.prefix p s.

(** [sub in s] *)
Fixpoint contains (sub s : string) : bool :=
  match s with
  | EmptyString => String.prefix sub EmptyString
  | String _ r => String.prefix sub s || contains sub r
  end.

Fixpoint has_char (c : ascii) (s : string) : bool :=
  match s with
  | EmptyString => false
  | String a r => Ascii.eqb a c || has_char c r
  end.

(** [s.replace(c, '')] for a one-character [c] *)
Fixpoint remove_char (c : ascii) (s : string) : string :=
  match s with
  | EmptyString => EmptyString
  | String a r => if Ascii.eqb a c then remove_char c r else String a (remove_char c r)
  end.

(** [s.split(sep)] for a one-character separator: never empty. *)
Fixpoint str_split (sep : ascii) (s : string) : list string :=
  match s with
  | EmptyString => [EmptyString]
  | String a r =>
      if Ascii.eqb a sep then EmptyString :: str_split sep r
      else
        match str_split sep r with
        | h :: t => String a h :: t
        | [] => [String a EmptyString]
        end
  end.

(** [sep.join(l)] *)
Fixpoint str_join (sep : string) (l : list string) : string :=
  match l with
  | [] => EmptyString
  | [x] => x
  | x :: rest => x ++ sep ++ str_join sep rest
  end.

(** *** Integers as text *)

(** [str(n)] for an [int]. *)
Definition py_str (n : Z) : string := NilZero.string_of_int (Z.to_int n).

(** The characters below 256 that [int] skips around a literal: tab to
    carriage return, the space, and the two Latin-1 spaces. *)
Definition is_space (c : ascii) : bool :=
  let n := nat_of_ascii c in
  ((9 <=? n) && (n <=? 13) || (n =? 32) || (n =? 133) || (n =? 160))%nat.

Definition is_digit (c : ascii) : bool :=
  let n := nat_of_ascii c in ((48 <=? n) && (n <=? 57))%nat.

Fixpoint lstrip (s : string) : string :=
  match s with
  | EmptyString => EmptyString
  | String c r => if is_space c then lstrip r else s
  end.

Fixpoint rstrip (s : string) : string :=
  match s with
  | EmptyString => EmptyString
  | String c r =>
      match rstrip r with
      | EmptyString => if is_space c then EmptyString else String c EmptyString
      | r' => String c r'
      end
  end.

Definition strip (s : string) : string := rstrip (lstrip s).

(** The digits of an integer literal: underscores are allowed, one at a
    time, between two digits; at least one digit is required. *)
Fixpoint literal_digits (after_digit : bool) (s : string) : option string :=
  match s with
  | EmptyString => if after_digit then Some EmptyString else None
  | String c r =>
      if is_digit c then option_map (String c) (literal_digits true r)
      else if Ascii.eqb c "_" && after_digit then literal_digits false r
      else None
  end.

Definition unsigned_literal (s : string) : option Z :=
  match literal_digits false s with
  | Some ds => option_map Z.of_uint (NilEmpty.uint_of_string ds)
  | None => None
  end.

(** [int(s)] for a string: [None] stands for [ValueError]. *)
Definition py_int (s : string) : option Z :=
  match strip s with
  | EmptyString => None
  | String c r =>
      if Ascii.eqb c "-" then option_map Z.opp (unsigned_literal r)
      else if Ascii.eqb c "+" then unsigned_literal r
      else unsigned_literal (String c r)
  end.

(** *** The regular-expression rewrites *)

(** [re.sub('Manifest.*', '', s)]: from every occurrence of [Manifest] to
    the end of its line ([.] does not match a newline). *)
Fixpoint re_sub_manifest_from (dropping : bool) (s : string) : string :=
  match s with
  | EmptyString => EmptyString
  | String c r =>
      if dropping then
        if Ascii.eqb c newline then String c (re_sub_manifest_from false r)
        else re_sub_manifest_from true r
      else if String.prefix "Manifest" s then re_sub_manifest_from true r
      else String c (re_sub_manifest_from false r)
  end.

Definition re_sub_manifest (s : string) : string := re_sub_manifest_from false s.

(** [re.sub(r'QualityLevels\(|\).*$', '', line)] on one line of text (no
    newline in it): every [QualityLevels(] goes, and so does everything
    from the first other [)] on.  [skip] counts the characters of a match
    of the first alternative that are still to be dropped. *)
Fixpoint re_sub_quality_from (skip : nat) (s : string) : string :=
  match s with
  | EmptyString => EmptyString
  | String c r =>
      match skip with
      | S k => re_sub_quality_from k r
      | O =>
          if String.prefix "QualityLevels(" s then re_sub_quality_from 13 r
          else if Ascii.eqb c ")" then EmptyString
          else String c (re_sub_quality_from 0 r)
      end
  end.

Definition re_sub_quality (line : string) : string := re_sub_quality_from 0 line.

(** Where ['/[^/]+$'] matches: [Some (base, seg)] when the text is
    [base ++ "/" ++ seg] with [seg] not empty and free of ["/"]. *)
Fixpoint last_segment (s : string) : option (string * string) :=
  match s with
  | EmptyString => None
  | String c r =>
      match last_segment r with
      | Some (base, seg) => Some (String c base, seg)
      | None =>
          if Ascii.eqb c "/" && negb (has_char "/" r) && negb (String.eqb r EmptyString)
          then Some (EmptyString, r)
          else None
      end
  end.

(** *** Sorting, as [list.sort] does on integers *)

Fixpoint insert (x : Z) (l : list Z) : list Z :=
  match l with
  | [] => [x]
  | y :: r => if x <=? y then x :: l else y :: insert x r
  end.

Fixpoint list_sort (l : list Z) : list Z :=
  match l with
  | [] => []
  | x :: r => insert x (list_sort r)
  end.

(** *** Floats *)

Definition Qlt_bool (a b : Q) : bool := negb (Qle_bool b a).

(** [sum(l)] *)
Definition py_sum (l : list Q) : Q := fold_left Qplus l 0%Q.

(** [min(a, b)]: the first argument unless the second is smaller. *)
Definition py_min (a b : Q) : Q := if Qlt_bool b a then b else a.

(** ** What the module takes from its libraries and from the network *)

Record Externals : Type := mkExternals {
    (** the reply to the [n]-th request the program issues *)
    network : nat -> string -> kwargs -> reply;
    (** [bytes.decode('utf-8')] *)
    decode_utf8 : string -> Res string;
    (** [float(s)]; [None] stands for [ValueError] *)
    py_float : string -> option Q;
    (** the expansion of a replacement template that has a backslash in it:
        compiling the template may fail; the compiled template maps the
        matched text to its replacement *)
    re_template : string -> Res (string -> string);
    (** the decoder behind [VideoFileClip(file)], on the bytes of the file *)
    decode : string -> Res Media;
    (** [Downloader.get_video_id] (lines 258-268): two regular-expression
        rewrites of the response; nothing below depends on which identifier
        comes out, so any function of the response will do *)
    get_video_id : Response -> Res string;
    (** lines 234-236: [json.loads] of the API response and the walk down to
        the URL of the first master playlist *)
    master_playlist_url : string -> Res string
}.

(** ** The retrying transport *)

Section Model.

Variable E : Externals.

Definition requests_get (url : string) (kw : kwargs) : M World reply :=
  fun w =>
    (Return (network E (gets w) url kw),
     mkWorld (S (gets w)) (temps w) (audio_params w) (trace w ++ [EvGet url kw])).

(** The [while attempts:] loop of [trying_get] (lines 99-108).  [fuel]
    bounds the number of iterations the model follows.  Falling out of
    the loop returns [None]. *)
Fixpoint trying_get_loop (fuel : nat) (url : string) (max_attempts wait : Z)
         (kw : kwargs) (attempts : Z) : M World (option Response) :=
  if attempts =? 0 then ret None
  else
    match fuel with
    | O => unfinished
    | S fuel' =>
        r <- requests_get url kw ;;
        match r with
        | Responds resp => ret (Some resp)
        | Fails e =>
            if retryable e then
              let attempts := attempts - 1 in
              emit (EvWarning url (max_attempts - attempts) max_attempts wait) ;;
              if attempts =? 0 then raise e
              else
                sleep wait ;;
                trying_get_loop fuel' url max_attempts wait kw attempts
            else raise e
        end
    end.

Definition trying_get (fuel : nat) (url : string) (max_attempts wait : Z)
           (kw : kwargs) : M World (option Response) :=
  trying_get_loop fuel url max_attempts wait kw max_attempts.

(** Reading an attribute of what [trying_get] returned: [None] has none. *)
Definition attr {S A} (r : option Response) (field : Response -> A) : M S A :=
  match r with
  | Some resp => ret (field resp)
  | None => raise AttributeError
  end.

End Model.

(** ** The downloader *)

Module Downloader.

(** The attributes of a [Downloader] object.  The wave writer
    [audio_file] lives in the world; [audio_fps] is never used. *)
Record Self : Type := mkSelf {
  _max_attempts : Z;
  _wait : Z;
  paths : list string;
  times : list Q;
  duration : Q;
  pos : Q;
  clip : nat;
  wav_file : Filename;
  current_clip : VideoFileClip
}.

(** The stitcher runs on the object and the world together. *)
Definition Machine : Type := (Self * World)%type.

Definition in_world {A} (m : M World A) : M Machine A :=
  fun s => let (r, w) := m (snd s) in (r, (fst s, w)).

Definition get_self : M Machine Self := fun s => (Return (fst s), s).

Definition set_self (self : Self) : M Machine unit :=
  fun s => (Return tt, (self, snd s)).

Definition set_pos (p : Q) (self : Self) : Self :=
  mkSelf (_max_attempts self) (_wait self) (paths self) (times self)
         (duration self) p (clip self) (wav_file self) (current_clip self).

Definition set_clip (n : nat) (self : Self) : Self :=
  mkSelf (_max_attempts self) (_wait self) (paths self) (times self)
         (duration self) (pos self) n (wav_file self) (current_clip self).

Definition set_current_clip (c : VideoFileClip) (self : Self) : Self :=
  mkSelf (_max_attempts self) (_wait self) (paths self) (times self)
         (duration self) (pos self) (clip self) (wav_file self) c.

(** [l[i]] for an index that is never negative. *)
Definition subscript {S A} (l : list A) (i : nat) : M S A :=
  match nth_error l i with
  | Some x => ret x
  | None => raise IndexError
  end.

Definition dquote : ascii := "034"%char.

Definition quality_message (available_qualities : list Z) : string :=
  "Incorrect quality level. The available quality levels are:"
    ++ String newline "  "
    ++ str_join (String newline "  ") (map py_str (list_sort available_qualities)).

(** Lines 126-131: what the constructor reads off the manifest. *)
Definition fragment_paths (download_url : string) (lines : list string) : list string :=
  map (fun line => download_url ++ line)
      (filter (fun line => startswith line "Fragments") lines).

Section Methods.

Variable E : Externals.

(** A replacement template without a backslash stands for itself. *)
Definition compile_repl (repl : string) : Res (string -> string) :=
  if has_char backslash repl then re_template E repl
  else Return (fun _ => repl).

(** [re.sub('/[^/]+$', repl, url)] *)
Definition re_sub_last_segment (repl url : string) : Res string :=
  match compile_repl repl with
  | Return expand =>
      match last_segment url with
      | Some (base, seg) => Return (base ++ expand ("/" ++ seg))
      | None => Return url
      end
  | Raise e => Raise e
  | Unfinished => Unfinished
  end.

(** The [for line in lines] loop of [get_quality] and what follows it
    (lines 248-256). *)
Fixpoint get_quality_loop (url : string) (quality : Z) (lines : list string)
         (available_qualities : list Z) : Res string :=
  match lines with
  | [] => Raise (ArgumentError (quality_message available_qualities))
  | line :: rest =>
      if startswith line "QualityLevels" then
        match py_int (re_sub_quality line) with
        | None => Raise ValueError
        | Some q =>
            let available_qualities := (available_qualities ++ [q])%list in
            if startswith line ("QualityLevels(" ++ py_str quality ++ ")/Manifest")
            then re_sub_last_segment ("/" ++ line) url
            else get_quality_loop url quality rest available_qualities
        end
      else get_quality_loop url quality rest available_qualities
  end.

(** [get_quality] (lines 239-256); the two leading arguments are
    [self._max_attempts] and [self._wait]. *)
Definition get_quality (fuel : nat) (self_max_attempts self_wait : Z)
           (url : string) (quality : Z) : M World string :=
  r <- trying_get E fuel url self_max_attempts self_wait NoKwargs ;;
  content <- attr r resp_content ;;
  text <- lift_res (decode_utf8 E content) ;;
  let lines := str_split newline (remove_char carriage_return text) in
  lift_res (get_quality_loop url quality lines []).

Definition api_url (id : string) : string :=
  "https://www.linkedin.com/voyager/api/video/liveUpdates/urn%3Ali%3AugcPost%3A" ++ id.

Definition api_headers (cookie : Cookie) : list (string * string) :=
  [ ("Accept-Encoding", "gzip, deflate, br");
    ("csrf-token", cookie_value cookie);
    ("Cookie", cookie_name cookie ++ "=" ++ String dquote (cookie_value cookie)
                 ++ String dquote "") ].

(** [get_manifest] (lines 211-237).  [depth] is the room left on the
    interpreter's stack for the recursive call. *)
Fixpoint get_manifest (depth fuel : nat) (self_max_attempts self_wait : Z)
         (url : string) (quality max_attempts wait : Z) : M World string :=
  match depth with
  | O => raise RecursionError
  | S depth' =>
      if contains "/Manifest" url then ret url
      else if contains "/manifest" url
      then get_quality fuel self_max_attempts self_wait url quality
      else
        r <- trying_get E fuel url MAX_ATTEMPTS WAIT NoKwargs ;;
        match r with
        | None => raise AttributeError
        | Some r =>
            cookie <- subscript
                        (filter (fun c => String.eqb (cookie_name c) "JSESSIONID")
                                (resp_cookies r)) 0 ;;
            id <- lift_res (get_video_id E r) ;;
            r <- trying_get E fuel (api_url id) max_attempts wait
                            (HeadersCookies (api_headers cookie) (resp_cookies r)) ;;
            content <- attr r resp_content ;;
            url <- lift_res (master_playlist_url E content) ;;
            get_manifest depth' fuel self_max_attempts self_wait url quality
                         max_attempts wait
        end
  end.

(** The durations of line 130, without the leading [0.]. *)
Fixpoint extinf_durations (lines : list string) : Res (list Q) :=
  match lines with
  | [] => Return []
  | line :: rest =>
      if startswith line "#EXTINF:" then
        match nth_error (str_split ":" line) 1 with
        | None => Raise IndexError
        | Some field =>
            match py_float E (nth 0 (str_split "," field) EmptyString) with
            | None => Raise ValueError
            | Some d =>
                match extinf_durations rest with
                | Return ds => Return (d :: ds)
                | other => other
                end
            end
        end
      else extinf_durations rest
  end.

(** Line 131. *)
Definition total_duration (times : list Q) (limit : Q) : Q :=
  if negb (Qeq_bool limit 0) then py_min (py_sum times) limit else py_sum times.

(** [wave.Wave_write.setparams], called when [getparams] raised. *)
Definition set_audio_params (p : wave_params) : M World unit :=
  fun w =>
    (Return tt,
     mkWorld (gets w) (temps w)
             (match audio_params w with Some p0 => Some p0 | None => Some p end)
             (trace w)).

(** [_get_next_clip] (lines 161-180). *)
Definition _get_next_clip (fuel : nat) (self_max_attempts self_wait : Z)
           (url : string) : M World VideoFileClip :=
  video_tmp_file <- mktemp ".mp4" ;;
  r <- trying_get E fuel url self_max_attempts self_wait NoKwargs ;;
  emit (EvCreateFile video_tmp_file) ;;
  content <- attr r resp_content ;;
  emit (EvWriteFile video_tmp_file content) ;;
  m <- lift_res (decode E content) ;;
  emit (EvOpenClip video_tmp_file) ;;
  let clip := mkClip video_tmp_file m in
  audio_tmp_file <- mktemp ".wav" ;;
  match media_audio m with
  | None => raise AttributeError
  | Some (params, frames) =>
      emit (EvWriteAudio audio_tmp_file frames) ;;
      set_audio_params params ;;
      emit (EvAudioFrames frames) ;;
      emit (EvRemove audio_tmp_file) ;;
      ret clip
  end.

(** [__init__] (lines 113-137). *)
Definition __init__ (depth fuel : nat) (url : string) (max_attempts wait : Z)
           (limit : Q) (quality : Z) : M World Self :=
  url <- get_manifest depth fuel max_attempts wait url quality max_attempts wait ;;
  r <- trying_get E fuel url max_attempts wait NoKwargs ;;
  text <- attr r resp_text ;;
  let raw_text := remove_char carriage_return text in
  let lines := str_split newline raw_text in
  let download_url := re_sub_manifest url in
  let paths := fragment_paths download_url lines in
  durations <- lift_res (extinf_durations lines) ;;
  let times := 0%Q :: durations in
  let duration := total_duration times limit in
  wav_file <- mktemp ".wav" ;;
  emit (EvOpenWave wav_file) ;;
  first <- subscript paths 0 ;;
  current_clip <- _get_next_clip fuel max_attempts wait first ;;
  ret (mkSelf max_attempts wait paths times duration 0%Q 0%nat wav_file current_clip).

(** [_make_frame] (lines 146-159). *)
Definition _make_frame (fuel : nat) (t : Q) : M Machine Frame :=
  self <- get_self ;;
  (if Qlt_bool (clip_duration (current_clip self)) (t - pos self)
   then
     set_self (set_pos (pos self + clip_duration (current_clip self)) self) ;;
     self <- get_self ;;
     set_self (set_clip (clip self + 1) self) ;;
     self <- get_self ;;
     in_world (emit (EvCloseClip (filename (current_clip self)))) ;;
     in_world (emit (EvRemove (filename (current_clip self)))) ;;
     url <- subscript (paths self) (clip self) ;;
     next <- in_world (_get_next_clip fuel (_max_attempts self) (_wait self) url) ;;
     self <- get_self ;;
     set_self (set_current_clip next self)
   else ret tt) ;;
  self <- get_self ;;
  ret (get_frame (current_clip self) (t - pos self)).

(** The encoder asks for the frames of a list of times, one call of
    [_make_frame] after the other; an exception ends the encoding. *)
Fixpoint frame_requests (fuel : nat) (ts : list Q) : M Machine (list Frame) :=
  match ts with
  | [] => ret []
  | t :: rest =>
      f <- _make_frame fuel t ;;
      fs <- frame_requests fuel rest ;;
      ret (f :: fs)
  end.

End Methods.

End Downloader.

(** ** What the traces of the transport look like *)

(** The effects of the [i]-th failed attempt (counting from 0) out of
    [n]: the request, the warning, and the pause unless it was the last
    attempt allowed. *)
Definition failed_attempt (url : string) (kw : kwargs) (max_attempts wait : Z)
           (n i : nat) : list event :=
  [EvGet url kw; EvWarning url (Z.of_nat (i + 1)) max_attempts wait]
    ++ (if (i + 1 <? n)%nat then [EvSleep wait] else []).

Definition failed_attempts (url : string) (kw : kwargs) (max_attempts wait : Z)
           (n first count : nat) : list event :=
  List.concat (map (failed_attempt url kw max_attempts wait n) (seq first count)).

Definition is_get (e : event) : bool :=
  match e with EvGet _ _ => true | _ => false end.

Definition is_sleep (e : event) : bool :=
  match e with EvSleep _ => true | _ => false end.

Definition count_gets (tr : list event) : nat := List.length (filter is_get tr).
Definition count_sleeps (tr : list event) : nat := List.length (filter is_sleep tr).

(** ** Sample surroundings, to run the model on *)

Module Sample.

(** A network that answers by URL. *)
Definition site (pages : list (string * Response)) (missing : reply)
  : nat -> string -> kwargs -> reply :=
  fun _ url _ =>
    match find (fun p => String.eqb (fst p) url) pages with
    | Some p => Responds (snd p)
    | None => missing
    end.

Definition page (url body : string) : Response := mkResponse url body body [].

Definition refusal (n : nat) : exception :=
  ConnectionError ("refused #" ++ py_str (Z.of_nat n)).

Definition refused (n : nat) : reply := Fails (refusal n).

(** A network that is down, and one that comes back after [k] refused
    connections. *)
Definition down : nat -> string -> kwargs -> reply := fun n _ _ => refused n.

Definition flaky (k : nat) (r : Response) : nat -> string -> kwargs -> reply :=
  fun n _ _ => if (n <? k)%nat then refused n else Responds r.

(** A network that refuses every request but the listed ones, which are
    given by their serial numbers. *)
Definition outage (answers : list (nat * Response)) : nat -> string -> kwargs -> reply :=
  fun n _ _ =>
    match find (fun p => Nat.eqb (fst p) n) answers with
    | Some p => Responds (snd p)
    | None => refused n
    end.

(** Plain decimal numerals: digits, optionally followed by a point and
    more digits. *)
Definition decimal (s : string) : option Q :=
  match str_split "." s with
  | [whole] => option_map inject_Z (py_int whole)
  | [whole; frac] =>
      match py_int whole, unsigned_literal frac with
      | Some a, Some b =>
          Some (inject_Z a + (b # Pos.pow 10 (Pos.of_nat (String.length frac))))%Q
      | _, _ => None
      end
  | _ => None
  end.

(** A decoder for toy fragments: a fragment plays half a second for each
    of its bytes, and its sound track is its bytes. *)
Definition toy_decode (content : string) : Res Media :=
  Return (mkMedia (Z.of_nat (String.length content) # 2) 25
                  (Some ((2, 2, 44100), content))).

Definition externals (net : nat -> string -> kwargs -> reply) : Externals :=
  mkExternals net
              (fun bytes => Return bytes)
              decimal
              (fun _ => Raise (OtherError "re.error" "bad escape"))
              toy_decode
              (fun _ => Return "7000000000000000000")
              (fun content => Return content).

End Sample.

(** A small stream to run the downloader on: a landing page, the API
    answer, a quality-listing manifest, the manifest of one quality and
    its three fragments. *)
Module Stream.

Definition text (lines : list string) : string :=
  str_join (String newline EmptyString) lines.

Definition landing_url : string := "https://www.linkedin.com/posts/someone_talk-activity".

Definition landing : Response :=
  mkResponse landing_url "<html>...</html>" "<html>...</html>"
             [mkCookie "lang" "v=2"; mkCookie "JSESSIONID" "ajax:0123456789"].

Definition master_url : string := "https://streams.example/video/manifest(format=m3u8-aapl)".

Definition api : Response :=
  Sample.page (Downloader.api_url "7000000000000000000") master_url.

Definition master : Response :=
  Sample.page master_url
    (text ["#EXTM3U";
           "#EXT-X-STREAM-INF:BANDWIDTH=1200000";
           "QualityLevels(1200000)/Manifest(video,format=m3u8-aapl)";
           "#EXT-X-STREAM-INF:BANDWIDTH=5000000";
           "QualityLevels(5000000)/Manifest(video,format=m3u8-aapl)";
           "#EXT-X-STREAM-INF:BANDWIDTH=3200000";
           "QualityLevels(3200000)/Manifest(video,format=m3u8-aapl)"]).

Definition manifest_url : string :=
  "https://streams.example/video/QualityLevels(3200000)/Manifest(video,format=m3u8-aapl)".

Definition manifest : Response :=
  Sample.page manifest_url
    (text ["#EXTM3U";
           "#EXTINF:2.0,no-desc";
           "Fragments(video=0,format=m3u8-aapl)";
           "#EXTINF:3.5,no-desc";
           "Fragments(video=20000000,format=m3u8-aapl)";
           "#EXTINF:1.5,no-desc";
           "Fragments(video=55000000,format=m3u8-aapl)"]).

Definition fragment_url (start : string) : string :=
  "https://streams.example/video/QualityLevels(3200000)/Fragments(video=" ++ start
    ++ ",format=m3u8-aapl)".

Definition pages : list (string * Response) :=
  [ (landing_url, landing);
    (Downloader.api_url "7000000000000000000", api);
    (master_url, master);
    (manifest_url, manifest);
    (fragment_url "0", Sample.page (fragment_url "0") "AAAA");
    (fragment_url "20000000", Sample.page (fragment_url "20000000") "BBBBBBB");
    (fragment_url "55000000", Sample.page (fragment_url "55000000") "CCC") ].

Definition externals : Externals :=
  Sample.externals (Sample.site pages (Fails (OtherError "HTTPError" "404"))).

End Stream.

(** ** Vocabulary of the statements *)

(** The sum of a list of durations. *)
Definition total (ds : list Q) : Q := fold_right Qplus 0%Q ds.

Definition with_duration (d : Q) (self : Downloader.Self) : Downloader.Self :=
  Downloader.mkSelf (Downloader._max_attempts self) (Downloader._wait self)
                    (Downloader.paths self) (Downloader.times self) d
                    (Downloader.pos self) (Downloader.clip self)
                    (Downloader.wav_file self) (Downloader.current_clip self).

(** The lines of the manifest, as the constructor splits them. *)
Definition manifest_lines (manifest : Response) : list string :=
  str_split newline (remove_char carriage_return (resp_text manifest)).

(** The world once the constructor has opened its wave file. *)
Definition wave_opened (w : World) : World :=
  mkWorld (gets w) (S (temps w)) (audio_params w)
          (trace w ++ [EvOpenWave (temps w, ".wav")]).

(** Where fragment [i] starts on the time line: the sum of the durations
    of the fragments before it. *)
Definition starts (ds : list Q) (i : nat) : Q := total (firstn i ds).

(** Every reply to a request for the [i]-th fragment decodes to a clip of
    duration [ds_i]. *)
Definition fragment_durations (E : Externals) (paths : list string) (ds : list Q) : Prop :=
  List.length ds = List.length paths
  /\ forall (g i : nat) (url : string) (r : Response) (m : Media),
       nth_error paths i = Some url ->
       network E g url NoKwargs = Responds r ->
       decode E (resp_content r) = Return m ->
       (media_duration m == nth i ds 0)%Q.

(** The cursor of a downloader sits at the start of its current fragment. *)
Definition cursor_ok (ds : list Q) (self : Downloader.Self) : Prop :=
  (Downloader.pos self == starts ds (Downloader.clip self))%Q.

(** The state of a downloader after the cursor has moved on by one
    fragment (lines 153-154). *)
Definition advanced (self : Downloader.Self) : Downloader.Self :=
  Downloader.set_clip (Downloader.clip self + 1)
    (Downloader.set_pos
       (Downloader.pos self + clip_duration (Downloader.current_clip self))%Q self).

(** The world after the resident clip has been closed and its file
    removed (lines 155-156). *)
Definition released (self : Downloader.Self) (w : World) : World :=
  mkWorld (gets w) (temps w) (audio_params w)
          (trace w ++ [EvCloseClip (filename (Downloader.current_clip self));
                       EvRemove (filename (Downloader.current_clip self))]).

(** The effects of the transport: requests, warnings and pauses. *)
Definition quiet (e : event) : bool :=
  match e with
  | EvGet _ _ | EvWarning _ _ _ _ | EvSleep _ => true
  | _ => false
  end.

(** The clip [c] was decoded from a reply to a request for [url]. *)
Definition fetched_from (E : Externals) (url : string) (c : VideoFileClip) : Prop :=
  exists (g : nat) (r : Response),
    network E g url NoKwargs = Responds r
    /\ decode E (resp_content r) = Return (media c).

(** What holds of a downloader between two frame requests: its paths are
    those of the catalog, its cursor sits at the start of the current
    fragment, and the resident clip was decoded from that fragment. *)
Definition stitching (E : Externals) (paths : list string) (ds : list Q)
           (self : Downloader.Self) : Prop :=
  Downloader.paths self = paths
  /\ cursor_ok ds self
  /\ exists url,
       nth_error paths (Downloader.clip self) = Some url
       /\ fetched_from E url (Downloader.current_clip self).

(** The sample stream once more: its fragment paths, the decoded
    durations of its fragments, and a downloader on its last fragment. *)
Module StreamState.

Definition paths : list string :=
  [Stream.fragment_url "0"; Stream.fragment_url "20000000"; Stream.fragment_url "55000000"].

Definition decoded : list Media :=
  [mkMedia (4 # 2) 25 (Some ((2, 2, 44100), "AAAA"));
   mkMedia (7 # 2) 25 (Some ((2, 2, 44100), "BBBBBBB"));
   mkMedia (3 # 2) 25 (Some ((2, 2, 44100), "CCC"))].

Definition durations : list Q := map media_duration decoded.

Definition on_last_fragment : Downloader.Self :=
  Downloader.mkSelf 3 10 paths [0; 2.0; 3.5; 1.5]%Q 7 (11 # 2) 2 (0%nat, ".wav")
                    (mkClip (5%nat, ".mp4") (mkMedia (3 # 2) 25 (Some ((2, 2, 44100), "CCC")))).

End StreamState.








(** ** Resources held along a trace *)

Definition name_eqb (f g : Filename) : bool :=
  Nat.eqb (fst f) (fst g) && String.eqb (snd f) (snd g).

Definition with_name (f : Filename) (l : list Filename) : list Filename :=
  if existsb (name_eqb f) l then l else f :: l.

Definition without (f : Filename) (l : list Filename) : list Filename :=
  filter (fun g => negb (name_eqb f g)) l.

(** The decoded clips that are open and the fragment files on disk. *)
Definition Holdings : Type := (list Filename * list Filename)%type.

Definition hold (h : Holdings) (e : event) : Holdings :=
  match e with
  | EvOpenClip f => (with_name f (fst h), snd h)
  | EvCloseClip f => (without f (fst h), snd h)
  | EvCreateFile f => (fst h, with_name f (snd h))
  | EvWriteFile f _ => (fst h, with_name f (snd h))
  | EvRemove f => (fst h, without f (snd h))
  | _ => h
  end.

Definition holdings (tr : list event) : Holdings := fold_left hold tr ([], []).

(** At most one clip is open, at most one fragment file exists, and they
    belong to the same fragment. *)
Definition one_fragment (h : Holdings) : Prop :=
  (List.length (fst h) <= 1)%nat
  /\ (List.length (snd h) <= 1)%nat
  /\ forall f g, In f (fst h) -> In g (snd h) -> f = g.

(** At every point of the trace the resources of at most one fragment are
    held, and nothing is held at the moment a request goes out. *)
Definition single_residency (tr : list event) : Prop :=
  forall p q,
    tr = (p ++ q)%list ->
    one_fragment (holdings p)
    /\ forall url kw q', q = EvGet url kw :: q' -> holdings p = ([], []).

(** The events that leave the holdings alone. *)
Definition neutral (e : event) : bool :=
  match e with
  | EvOpenClip _ | EvCloseClip _ | EvCreateFile _ | EvWriteFile _ _ | EvRemove _ => false
  | _ => true
  end.

(** The resident clip is all that is held. *)
Definition resident_only (m : Downloader.Machine) : Prop :=
  single_residency (trace (snd m))
  /\ holdings (trace (snd m))
     = ([filename (Downloader.current_clip (fst m))],
        [filename (Downloader.current_clip (fst m))]).

(** The world after [trying_get] got its answer at the [k]-th retry. *)
Definition answered (url : string) (kw : kwargs) (m wt : Z) (k : nat) (w : World) : World :=
  mkWorld (gets w + k + 1) (temps w) (audio_params w)
          (trace w ++ failed_attempts url kw m wt (Z.to_nat m) 0 k ++ [EvGet url kw]).

(** The world after [trying_get] gave up: every attempt was refused. *)
Definition gave_up (url : string) (kw : kwargs) (m wt : Z) (w : World) : World :=
  mkWorld (gets w + Z.to_nat m) (temps w) (audio_params w)
          (trace w ++ failed_attempts url kw m wt (Z.to_nat m) 0 (Z.to_nat m)).

(** The attempts [first, first + count) of the network on [url] are all
    refused, with the errors [errs]. *)
Definition refuses (E : Externals) (url : string) (kw : kwargs) (first count : nat)
           (errs : nat -> exception) : Prop :=
  forall i, (i < count)%nat ->
            network E (first + i) url kw = Fails (errs i) /\ retryable (errs i) = true.

(** [[cookie for cookie in r.cookies if cookie.name == 'JSESSIONID'][0]] *)
Definition session_cookie (r : Response) : option Cookie :=
  nth_error (filter (fun c => String.eqb (cookie_name c) "JSESSIONID") (resp_cookies r)) 0.

(** The keyword arguments of the API call. *)
Definition api_kwargs (cookie : Cookie) (r : Response) : kwargs :=
  HeadersCookies (Downloader.api_headers cookie) (resp_cookies r).

(** ** Quality-listing manifests *)

(** Every character of the string passes the test. *)
Fixpoint all_chars (test : ascii -> bool) (s : string) : bool :=
  match s with
  | EmptyString => true
  | String c r => test c && all_chars test r
  end.

(** A line of a quality-listing manifest: an entry that announces a
    bitrate and refers to the manifest of that quality, or anything
    else. *)
Inductive manifest_line : Type :=
| Entry (bitrate : Z) (rest : string)
| Other (line : string).

Definition quality_entry (bitrate : Z) (rest : string) : string :=
  "QualityLevels(" ++ py_str bitrate ++ ")/Manifest" ++ rest.

Definition render (l : manifest_line) : string :=
  match l with
  | Entry bitrate rest => quality_entry bitrate rest
  | Other line => line
  end.

(** The reference of an entry is free of backslashes; the other lines are
    no quality lines. *)
Definition proper (l : manifest_line) : Prop :=
  match l with
  | Entry _ rest => has_char backslash rest = false
  | Other line => startswith line "QualityLevels" = false
  end.

(** The bitrates on offer, in the order of the manifest. *)
Fixpoint bitrates (items : list manifest_line) : list Z :=
  match items with
  | [] => []
  | Entry bitrate _ :: rest => bitrate :: bitrates rest
  | Other _ :: rest => bitrates rest
  end.

(** The reference of the first entry for the bitrate [quality]. *)
Fixpoint find_entry (quality : Z) (items : list manifest_line) : option string :=
  match items with
  | [] => None
  | Entry bitrate rest :: more =>
      if bitrate =? quality then Some rest else find_entry quality more
  | Other _ :: more => find_entry quality more
  end.

(** The URL with its last path segment replaced. *)
Definition with_last_segment (url segment : string) : string :=
  match last_segment url with
  | Some (base, _) => base ++ "/" ++ segment
  | None => url
  end.

(** The lines of a response body, as [get_quality] splits them. *)
Definition content_lines (text : string) : list string :=
  str_split newline (remove_char carriage_return text).

(** The characters of the decimal form of an integer. *)
Definition numeral_char (c : ascii) : bool := is_digit c || Ascii.eqb c "-".


(** ** The identifier of a post (download.py, lines 258-268) *)

(** [s[n:]] *)
Fixpoint skip (n : nat) (s : string) : string :=
  match n, s with
  | O, _ => s
  | S _, EmptyString => EmptyString
  | S k, String _ r => skip k r
  end.

(** Where [.*marker] ends when it is tried at the start of [s]: what is
    left of [s] after the last occurrence of [marker] that no newline
    separates from the start of [s] ([.] does not match a newline, and
    [.*] takes as much as it can). *)
Fixpoint after_last (marker s : string) : option string :=
  match s with
  | EmptyString => None
  | String c r =>
      match (if Ascii.eqb c newline then None else after_last marker r) with
      | Some rest => Some rest
      | None =>
          if String.prefix marker s then Some (skip (String.length marker) s) else None
      end
  end.

(** The text up to the first [c]. *)
Fixpoint before_char (c : ascii) (s : string) : string :=
  match s with
  | EmptyString => EmptyString
  | String a r => if Ascii.eqb a c then EmptyString else String a (before_char c r)
  end.

(** The rewrite of line 268 on one line of text (no newline in it): the
    pattern is [.*urn:li:ugcPost:] or else a double quote followed by
    [.*], and the replacement is empty.  Everything up to the last
    [urn:li:ugcPost:] goes, and so does everything from the first double
    quote after it on. *)
Definition re_sub_post_line (line : string) : string :=
  before_char Downloader.dquote
              (match after_last "urn:li:ugcPost:" line with
               | Some rest => rest
               | None => line
               end).

(** Whether [.*$] matches all of [s] but a last newline: [$] stands at
    the end of the text or before a newline that ends the text.  The
    answer is what the match leaves of [s]. *)
Fixpoint to_end (s : string) : option string :=
  match s with
  | EmptyString => Some EmptyString
  | String c r =>
      if Ascii.eqb c newline
      then match r with EmptyString => Some s | String _ _ => None end
      else to_end r
  end.

(** [re.sub(r'/.*$', '', s)] *)
Fixpoint cut_slash (s : string) : string :=
  match s with
  | EmptyString => EmptyString
  | String c r =>
      if Ascii.eqb c "/" then
        match to_end r with
        | Some tail => tail
        | None => String c (cut_slash r)
        end
      else String c (cut_slash r)
  end.

(** [re.sub(r'^.*/urn:li:ugcPost:|/.*$', '', url)]: the first alternative
    can only match at the start of the text. *)
Definition re_sub_post_url (url : string) : string :=
  cut_slash (match after_last "/urn:li:ugcPost:" url with
             | Some rest => rest
             | None => url
             end).

Module Page.

Definition text_to_find : string :=
  "main-feed-activity-card-with-comments" ++ String Downloader.dquote " data-activity-urn="
    ++ String Downloader.dquote "urn:li:activity:".

(** [get_video_id] (lines 258-268) *)
Definition get_video_id (r : Response) : Res string :=
  if contains "/urn:li:ugcPost:" (resp_url r) then Return (re_sub_post_url (resp_url r))
  else
    match filter (fun line => contains text_to_find line) (str_split newline (resp_text r)) with
    | line :: _ => Return (re_sub_post_line line)
    | [] => Raise IndexError
    end.

End Page.

(** ** Fragment manifests *)

(** A line of the manifest of one quality: the announcement of a
    duration, the reference of a fragment, or anything else. *)
Inductive playlist_line : Type :=
| Extinf (number title : string)
| Fragment (reference : string)
| Remark (line : string).

Definition render_playlist (l : playlist_line) : string :=
  match l with
  | Extinf number title => "#EXTINF:" ++ number ++ "," ++ title
  | Fragment reference => "Fragments" ++ reference
  | Remark line => line
  end.

(** The number of an announcement holds neither a colon nor a comma (its
    title may); the other lines are no announcements and no references. *)
Definition playlist_proper (l : playlist_line) : Prop :=
  match l with
  | Extinf number _ => has_char ":" number = false /\ has_char "," number = false
  | Fragment _ => True
  | Remark line => startswith line "Fragments" = false /\ startswith line "#EXTINF:" = false
  end.

(** The announced numbers and the references, in the order of the manifest. *)
Fixpoint numbers (items : list playlist_line) : list string :=
  match items with
  | [] => []
  | Extinf number _ :: rest => number :: numbers rest
  | _ :: rest => numbers rest
  end.

Fixpoint references (items : list playlist_line) : list string :=
  match items with
  | [] => []
  | Fragment reference :: rest => reference :: references rest
  | _ :: rest => references rest
  end.

(** The manifest of the sample stream, line by line. *)
Definition sample_playlist : list playlist_line :=
  [Remark "#EXTM3U";
   Extinf "2.0" "no-desc";
   Fragment "(video=0,format=m3u8-aapl)";
   Extinf "3.5" "no-desc";
   Fragment "(video=20000000,format=m3u8-aapl)";
   Extinf "1.5" "no-desc";
   Fragment "(video=55000000,format=m3u8-aapl)"].

(** ** The accumulated sound track *)

(** The frames appended to the accumulated wave file, oldest first. *)
Definition audio_track (tr : list event) : list string :=
  flat_map (fun e => match e with EvAudioFrames frames => [frames] | _ => [] end) tr.

(** Every reply to a request for the [i]-th fragment that decodes to a
    clip with a sound track has the sound track [tracks_i]. *)
Definition fragment_audio (E : Externals) (paths tracks : list string) : Prop :=
  List.length tracks = List.length paths
  /\ forall (g i : nat) (url : string) (r : Response) (m : Media)
            (params : wave_params) (frames : string),
       nth_error paths i = Some url ->
       network E g url NoKwargs = Responds r ->
       decode E (resp_content r) = Return m ->
       media_audio m = Some (params, frames) ->
       frames = nth i tracks EmptyString.

(** What holds of the sound track between two frame requests: the frames
    of the fragments up to the current one have been appended, once each
    and in the order of the catalog. *)
Definition track_ok (ps tracks : list string) (m : Downloader.Machine) : Prop :=
  Downloader.paths (fst m) = ps
  /\ (Downloader.clip (fst m) < List.length ps)%nat
  /\ audio_track (trace (snd m)) = firstn (S (Downloader.clip (fst m))) tracks.

(** ** The requests of the stitcher *)


(** ** From the command line to the output file (download.py, lines
       182-209 and 271-281) *)

Module Job.

(** What [download], [close] and [main] do to the world besides the
    effects above: the library calls that write, open and close the
    output, and the message on the standard error stream. *)
Inductive step : Type :=
| Encoded (target : Filename) (fps : Q) (frames : list Frame)
| WaveClosed (f : Filename)
| AudioOpened (f : Filename)
| Written (file : string) (video audio : Filename)
| AudioClosed (f : Filename)
| Printed (text : string).

(** The downloader, the world and the steps taken so far. *)
Definition Session : Type := (Downloader.Machine * list step)%type.

Definition in_machine {A} (m : M Downloader.Machine A) : M Session A :=
  fun s => let (r, m') := m (fst s) in (r, (m', snd s)).

Definition effect (e : event) : M Session unit :=
  in_machine (Downloader.in_world (emit e)).

Definition note (x : step) : M Session unit :=
  fun s => (Return tt, (fst s, (snd s ++ [x])%list)).

(** The command-line arguments, as [LinkedinArgParser] hands them out. *)
Record Args : Type := mkArgs {
  url : string;
  file : string;
  max_attempts : Z;
  wait : Z;
  limit : Q;
  quality : Z
}.

(** The attribute [fps] (lines 139-144). *)
Definition fps (self : Downloader.Self) : Q :=
  media_fps (media (Downloader.current_clip self)).

Section Methods.

Variable E : Externals.

(** [download] (lines 182-198).  The library calls back into
    [_make_frame]: at the times [probe] while it builds the clip (line
    188) and at the times [ts] while it encodes it (line 189); the
    temporary video exists once the encoding is through.  Closing the
    clip that was built from [_make_frame] (line 190) releases nothing.
    The library calls of lines 190-197 are taken to succeed. *)
Definition download (fuel : nat) (file : string) (probe ts : list Q) : M Session unit :=
  tmp <- in_machine (Downloader.in_world (mktemp ".mp4")) ;;
  in_machine (Downloader.frame_requests E fuel probe) ;;
  self <- in_machine Downloader.get_self ;;
  let rate := fps self in
  frames <- in_machine (Downloader.frame_requests E fuel ts) ;;
  effect (EvCreateFile tmp) ;;
  note (Encoded tmp rate frames) ;;
  self <- in_machine Downloader.get_self ;;
  note (WaveClosed (Downloader.wav_file self)) ;;
  effect (EvOpenClip tmp) ;;
  note (AudioOpened (Downloader.wav_file self)) ;;
  note (Written file tmp (Downloader.wav_file self)) ;;
  note (AudioClosed (Downloader.wav_file self)) ;;
  effect (EvCloseClip tmp) ;;
  effect (EvRemove tmp) ;;
  effect (EvRemove (Downloader.wav_file self)).

(** [close] (lines 200-203) *)
Definition close : M Session unit :=
  self <- in_machine Downloader.get_self ;;
  effect (EvCloseClip (filename (Downloader.current_clip self))) ;;
  note (WaveClosed (Downloader.wav_file self)).

(** [__enter__] and [__exit__] (lines 205-209); [__exit__] returns
    [None], so an exception of the block is raised again. *)
Definition __enter__ (self : Downloader.Self) : Downloader.Self := self.

Definition __exit__ : M Session unit := close.

(** The handler of line 280. *)
Definition handled (r : Res unit) (w : World) (steps : list step)
  : Res unit * (World * list step) :=
  match r with
  | Raise (ArgumentError msg) =>
      (Return tt, (w, (steps ++ [Printed ("Argument -q QUALITY error: " ++ msg)])%list))
  | _ => (r, (w, steps))
  end.

(** [main] (lines 271-281), from the parsed arguments on: the
    constructor runs before the block is entered, so that [__exit__]
    runs only when the constructor has returned. *)
Definition main (depth fuel : nat) (args : Args) (probe ts : list Q)
  : M (World * list step) unit :=
  fun s =>
    match Downloader.__init__ E depth fuel (url args) (max_attempts args) (wait args)
                              (limit args) (quality args) (fst s) with
    | (Return self, w0) =>
        match download fuel (file args) probe ts ((__enter__ self, w0), snd s) with
        | (Unfinished, s1) => (Unfinished, (snd (fst s1), snd s1))
        | (r, s1) =>
            match __exit__ s1 with
            | (Return _, s2) => handled r (snd (fst s2)) (snd s2)
            | (Raise e, s2) => handled (Raise e) (snd (fst s2)) (snd s2)
            | (Unfinished, s2) => (Unfinished, (snd (fst s2), snd s2))
            end
        end
    | (Raise e, w0) => handled (Raise e) w0 (snd s)
    | (Unfinished, w0) => (Unfinished, (w0, snd s))
    end.

End Methods.

End Job.

(** The resident clip sits in an [.mp4] file that is not numbered
    [serial], the wave file is a [.wav] file, and the number [serial] has
    been handed out. *)
Definition tidy (serial : nat) (m : Downloader.Machine) : Prop :=
  fst (filename (Downloader.current_clip (fst m))) <> serial
  /\ snd (filename (Downloader.current_clip (fst m))) = ".mp4"
  /\ snd (Downloader.wav_file (fst m)) = ".wav"
  /\ (serial < temps (snd m))%nat.

(** ** More sample surroundings *)

(** A post that is reached by the URL of its [ugcPost], and the page of
    an activity whose card names the post. *)
Module PostPage.

Definition post_url : string :=
  "https://www.linkedin.com/feed/update/urn:li:ugcPost:7000000000000000000/".

Definition post : Response :=
  mkResponse post_url "<html>...</html>" "<html>...</html>"
             [mkCookie "JSESSIONID" "ajax:0123456789"].

(** The card of an activity; [urn] is what it features. *)
Definition card (urn : string) : string :=
  "<article class=" ++ String Downloader.dquote "main-feed-activity-card-with-comments"
    ++ String Downloader.dquote " data-activity-urn="
    ++ String Downloader.dquote "urn:li:activity:7000000000000000001"
    ++ String Downloader.dquote " data-featured-activity-urn="
    ++ String Downloader.dquote urn ++ String Downloader.dquote ">".

Definition activity_url : string :=
  "https://www.linkedin.com/posts/someone_talk-activity-7000000000000000001".

Definition activity (urn : string) : Response :=
  Sample.page activity_url (Stream.text ["<html>"; card urn; "</html>"]).

(** Surroundings in which the identifier of the video is found as the
    source finds it. *)
Definition externals (net : nat -> string -> kwargs -> reply) : Externals :=
  mkExternals net
              (fun bytes => Return bytes)
              Sample.decimal
              (fun _ => Raise (OtherError "re.error" "bad escape"))
              Sample.toy_decode
              Page.get_video_id
              (fun content => Return content).

End PostPage.

(** A site whose API sends the resolver back to the landing page, a
    quality listing with a line that announces no number, and a manifest
    without fragments. *)
Module Oddities.

Definition circular : Externals :=
  Sample.externals
    (Sample.site [ (Stream.landing_url, Stream.landing);
                   (Downloader.api_url "7000000000000000000",
                    Sample.page (Downloader.api_url "7000000000000000000")
                                Stream.landing_url) ]
                 (Fails (OtherError "HTTPError" "404"))).

Definition listing_url : string := "https://streams.example/odd/manifest(format=m3u8-aapl)".

Definition listing : Response :=
  Sample.page listing_url
    (Stream.text ["#EXTM3U";
                  "QualityLevels(1200000)/Manifest(video,format=m3u8-aapl)";
                  "QualityLevels(high)/Manifest(video,format=m3u8-aapl)";
                  "QualityLevels(3200000)/Manifest(video,format=m3u8-aapl)"]).

Definition empty_url : string :=
  "https://streams.example/odd/QualityLevels(3200000)/Manifest(video,format=m3u8-aapl)".

Definition empty : Response :=
  Sample.page empty_url (Stream.text ["#EXTM3U"; "#EXTINF:2.0,no-desc"]).

Definition externals : Externals :=
  Sample.externals
    (Sample.site [ (listing_url, listing); (empty_url, empty) ]
                 (Fails (OtherError "HTTPError" "404"))).

End Oddities.

(** * Properties *)

Local Open Scope list_scope.

(** ** The text functions on small inputs *)

Example py_int_plain : py_int "3200000" = Some 3200000.
Proof. reflexivity. Qed.

Example py_int_spaces_underscore : py_int " 12_3 " = Some 123.
Proof. reflexivity. Qed.

Example py_int_signs : py_int "+5" = Some 5 /\ py_int "-0" = Some 0 /\ py_int "- 5" = None.
Proof. repeat split. Qed.

Example py_int_rejects :
  py_int "" = None /\ py_int "1__2" = None /\ py_int "_1" = None /\ py_int "1_" = None
  /\ py_int "abc" = None.
Proof. repeat split. Qed.

Example py_int_leading_zeros : py_int "03200000" = Some 3200000.
Proof. reflexivity. Qed.

Example py_str_negative : py_str (-3200000) = "-3200000".
Proof. reflexivity. Qed.

Example str_split_commas : str_split "," "a,,b," = ["a"; ""; "b"; ""].
Proof. reflexivity. Qed.

Example str_split_empty : str_split "," "" = [""].
Proof. reflexivity. Qed.

Example extinf_field :
  option_map (fun field => nth 0 (str_split "," field) "")
             (nth_error (str_split ":" "#EXTINF:2.0,no-desc") 1)
  = Some "2.0".
Proof. reflexivity. Qed.

Example re_sub_quality_entry_line :
  re_sub_quality "QualityLevels(3200000)/Manifest(video,format=m3u8-aapl)" = "3200000".
Proof. reflexivity. Qed.

Example re_sub_quality_nested :
  re_sub_quality "xQualityLevels(QualityLevels(12)3)4" = "x12".
Proof. reflexivity. Qed.

Example re_sub_manifest_url :
  re_sub_manifest "https://h/v/QualityLevels(3200000)/Manifest(video)"
  = "https://h/v/QualityLevels(3200000)/".
Proof. reflexivity. Qed.

Example re_sub_manifest_lines :
  re_sub_manifest ("a/Manifest(x)" ++ String newline "b/Manifest" ++ String newline "c")
  = ("a/" ++ String newline "b/" ++ String newline "c")%string.
Proof. reflexivity. Qed.

Example last_segment_url :
  last_segment "https://h/v/manifest(f)" = Some ("https://h/v", "manifest(f)").
Proof. reflexivity. Qed.

Example last_segment_trailing_slash : last_segment "https://h/v/" = None.
Proof. reflexivity. Qed.

Example contains_is_case_sensitive :
  contains "/Manifest" "https://h/v/manifest(f)" = false
  /\ contains "/manifest" "https://h/v/manifest(f)" = true.
Proof. split; reflexivity. Qed.

Example list_sort_bitrates : list_sort [3200000; 1200000; 5000000] = [1200000; 3200000; 5000000].
Proof. reflexivity. Qed.

Example total_duration_sample :
  (Downloader.total_duration [0; 2.0; 3.5; 1.5] 5 == 5)%Q
  /\ (Downloader.total_duration [0; 2.0; 3.5; 1.5] 0 == 7)%Q.
Proof. split; vm_compute; reflexivity. Qed.

(** ** The retrying transport *)

Section TransportFacts.

Variable E : Externals.

Lemma trying_get_loop_zero fuel url m wt kw w :
  trying_get_loop E fuel url m wt kw 0 w = (Return None, w).
Proof. destruct fuel; reflexivity. Qed.

Lemma sleep_nonneg wt w :
  0 <= wt ->
  sleep wt w
  = (Return tt, mkWorld (gets w) (temps w) (audio_params w) (trace w ++ [EvSleep wt])).
Proof.
  intros H. unfold sleep. destruct (Z.ltb_spec wt 0); [lia | reflexivity].
Qed.

Lemma failed_attempts_S url kw m wt n first count :
  failed_attempts url kw m wt n first (S count) =
  failed_attempt url kw m wt n first ++ failed_attempts url kw m wt n (S first) count.
Proof. reflexivity. Qed.

Lemma failed_attempt_pause url kw m wt n i :
  (i + 1 < n)%nat ->
  failed_attempt url kw m wt n i =
  [EvGet url kw; EvWarning url (Z.of_nat (i + 1)) m wt; EvSleep wt].
Proof.
  intros H. unfold failed_attempt.
  destruct (Nat.ltb_spec (i + 1) n); [reflexivity | lia].
Qed.

Lemma failed_attempt_last url kw m wt n i :
  (n <= i + 1)%nat ->
  failed_attempt url kw m wt n i =
  [EvGet url kw; EvWarning url (Z.of_nat (i + 1)) m wt].
Proof.
  intros H. unfold failed_attempt.
  destruct (Nat.ltb_spec (i + 1) n); [lia | reflexivity].
Qed.

Lemma trying_get_loop_exhaust url kw m wt n (errs : nat -> exception) :
  m = Z.of_nat n -> 0 <= wt ->
  forall k fuel w,
    (1 <= k)%nat -> (k <= fuel)%nat -> (k <= n)%nat ->
    (forall i, (i < k)%nat ->
               network E (gets w + i) url kw = Fails (errs (gets w + i)%nat)
               /\ retryable (errs (gets w + i)%nat) = true) ->
    trying_get_loop E fuel url m wt kw (Z.of_nat k) w =
      (Raise (errs (gets w + k - 1)%nat),
       mkWorld (gets w + k) (temps w) (audio_params w)
               (trace w ++ failed_attempts url kw m wt n (n - k) k)).
Proof.
  intros Hm Hwt. induction k as [|k IH]; intros fuel w Hk Hfuel Hn Hnet; [lia|].
  destruct fuel as [|fuel]; [lia|].
  cbn [trying_get_loop].
  destruct (Z.eqb_spec (Z.of_nat (S k)) 0) as [Hz|_]; [lia|].
  unfold bind at 1. unfold requests_get at 1.
  destruct (Hnet 0%nat ltac:(lia)) as [Hrep Hretry].
  rewrite Nat.add_0_r in Hrep, Hretry. rewrite Hrep, Hretry.
  unfold bind at 1. unfold emit at 1. 
  replace (Z.of_nat (S k) - 1) with (Z.of_nat k) by lia.
  destruct k as [|k].
  - cbn [Z.of_nat Z.eqb]. unfold raise. f_equal.
    + do 2 f_equal. lia.
    + cbn [gets temps audio_params trace]. f_equal; [lia|]. rewrite <- app_assoc. f_equal.
      rewrite failed_attempts_S, failed_attempt_last by lia.
      unfold failed_attempts. cbn [seq map List.concat app]. do 3 f_equal. lia.
  - destruct (Z.eqb_spec (Z.of_nat (S k)) 0) as [Hz|_]; [lia|].
    unfold bind at 1. rewrite sleep_nonneg by assumption. cbn [gets temps audio_params trace].
    rewrite IH; cbn [gets temps audio_params trace]; try lia.
    + f_equal.
      * do 2 f_equal. lia.
      * f_equal; [lia|]. rewrite <- !app_assoc. f_equal.
        rewrite (failed_attempts_S _ _ _ _ _ (n - S (S k))), failed_attempt_pause by lia.
        replace (S (n - S (S k))) with (n - S k)%nat by lia.
        cbn [app]. do 3 f_equal. lia.
    + intros i Hi. specialize (Hnet (S i) ltac:(lia)).
      replace (S (gets w) + i)%nat with (gets w + S i)%nat by lia. exact Hnet.
Qed.
Lemma trying_get_loop_recover url kw m wt n (errs : nat -> exception) r :
  m = Z.of_nat n -> 0 <= wt ->
  forall k a fuel w,
    (k < a)%nat -> (a <= n)%nat -> (k < fuel)%nat ->
    (forall i, (i < k)%nat ->
               network E (gets w + i) url kw = Fails (errs (gets w + i)%nat)
               /\ retryable (errs (gets w + i)%nat) = true) ->
    network E (gets w + k) url kw = Responds r ->
    trying_get_loop E fuel url m wt kw (Z.of_nat a) w =
      (Return (Some r),
       mkWorld (gets w + k + 1) (temps w) (audio_params w)
               (trace w ++ failed_attempts url kw m wt n (n - a) k ++ [EvGet url kw])).
Proof.
  intros Hm Hwt. induction k as [|k IH]; intros a fuel w Hka Han Hfuel Hnet Hok.
  - destruct fuel as [|fuel]; [lia|]. cbn [trying_get_loop].
    destruct (Z.eqb_spec (Z.of_nat a) 0) as [Hz|_]; [lia|].
    unfold bind at 1, requests_get at 1. rewrite Nat.add_0_r in Hok. rewrite Hok.
    unfold ret. f_equal. f_equal. lia.
  - destruct fuel as [|fuel]; [lia|]. cbn [trying_get_loop].
    destruct (Z.eqb_spec (Z.of_nat a) 0) as [Hz|_]; [lia|].
    unfold bind at 1, requests_get at 1.
    destruct (Hnet 0%nat ltac:(lia)) as [Hrep Hretry].
    rewrite Nat.add_0_r in Hrep, Hretry. rewrite Hrep, Hretry.
    unfold bind at 1, emit at 1.
    destruct a as [|a]; [lia|].
    replace (Z.of_nat (S a) - 1) with (Z.of_nat a) by lia.
    destruct (Z.eqb_spec (Z.of_nat a) 0) as [Hz|_]; [lia|].
    unfold bind at 1. rewrite sleep_nonneg by assumption. cbn [gets temps audio_params trace].
    rewrite (IH a); cbn [gets temps audio_params trace]; try lia.
    + f_equal. f_equal; [lia|]. rewrite <- !app_assoc. f_equal.
      rewrite failed_attempts_S, failed_attempt_pause by lia.
      replace (S (n - S a)) with (n - a)%nat by lia.
      cbn [app]. do 3 f_equal. lia.
    + intros i Hi. specialize (Hnet (S i) ltac:(lia)).
      replace (S (gets w) + i)%nat with (gets w + S i)%nat by lia. exact Hnet.
    + replace (S (gets w) + k)%nat with (gets w + S k)%nat by lia. exact Hok.
Qed.

End TransportFacts.

Section TransportTheorems.

Variable E : Externals.

Lemma count_gets_failed_attempts url kw m wt n first count :
  count_gets (failed_attempts url kw m wt n first count) = count.
Proof.
  revert first. induction count as [|count IH]; intros first; [reflexivity|].
  rewrite failed_attempts_S. unfold count_gets in *.
  rewrite filter_app, length_app, IH.
  unfold failed_attempt. destruct (first + 1 <? n)%nat; reflexivity.
Qed.

Lemma sleeps_failed_attempts url kw m wt n :
  forall count first,
    (first + count <= n)%nat ->
    filter is_sleep (failed_attempts url kw m wt n first count)
    = repeat (EvSleep wt) (if (first + count =? n)%nat then count - 1 else count).
Proof.
  induction count as [|count IH]; intros first Hle.
  - destruct (first + 0 =? n)%nat; reflexivity.
  - rewrite failed_attempts_S, filter_app, IH by lia.
    replace (S first + count =? n)%nat with (first + S count =? n)%nat
      by (f_equal; lia).
    destruct (Nat.eqb_spec (first + S count) n) as [Heq|Hne].
    + destruct count as [|count].
      * rewrite failed_attempt_last by lia. reflexivity.
      * rewrite failed_attempt_pause by lia. cbn [filter is_sleep app].
        replace (S (S count) - 1)%nat with (S (S count - 1)) by lia. reflexivity.
    + rewrite failed_attempt_pause by lia. reflexivity.
Qed.

(** C3: when every one of the [max_attempts >= 1] attempts fails with a
    connection error, [trying_get] issues exactly [max_attempts]
    requests, pauses [wait] seconds after each of them but the last
    (so [max_attempts - 1] pauses), and raises the very exception of the
    last attempt. *)
Theorem trying_get_exhausted :
  forall (fuel : nat) (url : string) (kw : kwargs) (max_attempts wait : Z)
         (w : World) (errs : nat -> exception),
    1 <= max_attempts ->
    0 <= wait ->
    (Z.to_nat max_attempts <= fuel)%nat ->
    (forall i, (i < Z.to_nat max_attempts)%nat ->
               network E (gets w + i) url kw = Fails (errs i)
               /\ retryable (errs i) = true) ->
    let n := Z.to_nat max_attempts in
    let effects := failed_attempts url kw max_attempts wait n 0 n in
    trying_get E fuel url max_attempts wait kw w
    = (Raise (errs (n - 1)%nat),
       mkWorld (gets w + n) (temps w) (audio_params w) (trace w ++ effects))
    /\ count_gets effects = n
    /\ count_sleeps effects = (n - 1)%nat
    /\ filter is_sleep effects = repeat (EvSleep wait) (n - 1)
    /\ (exists before,
           effects = before ++ [EvGet url kw; EvWarning url max_attempts max_attempts wait]).
Proof.
  intros fuel url kw m wt w errs Hm Hwt Hfuel Hnet n effects.
  assert (Hmn : m = Z.of_nat n) by (unfold n; lia).
  assert (Hn : (1 <= n)%nat) by (unfold n; lia).
  assert (Hsleeps : filter is_sleep effects = repeat (EvSleep wt) (n - 1)).
  { unfold effects. rewrite sleeps_failed_attempts by lia.
    cbn [Nat.add]. rewrite Nat.eqb_refl. reflexivity. }
  split; [|split; [|split; [|split]]].
  - unfold trying_get. rewrite Hmn at 2.
    rewrite (trying_get_loop_exhaust E url kw m wt n (fun g => errs (g - gets w)%nat));
      try assumption; try lia.
    + unfold effects. rewrite Nat.sub_diag.
      replace (gets w + n - 1 - gets w)%nat with (n - 1)%nat by lia. reflexivity.
    + intros i Hi. replace (gets w + i - gets w)%nat with i by lia. apply Hnet. exact Hi.
  - apply count_gets_failed_attempts.
  - unfold count_sleeps. rewrite Hsleeps. apply repeat_length.
  - exact Hsleeps.
  - unfold effects, failed_attempts.
    assert (Hseq : seq 0 n = seq 0 (n - 1) ++ [(n - 1)%nat]).
    { replace n with (n - 1 + 1)%nat at 1 by lia. rewrite seq_app. reflexivity. }
    rewrite Hseq, map_app, concat_app. cbn [seq map List.concat].
    rewrite failed_attempt_last by lia. rewrite app_nil_r.
    eexists. f_equal. replace (Z.of_nat (n - 1 + 1)) with m by lia. reflexivity.
Qed.

(** C7: when the first [k < max_attempts] attempts fail with a connection
    error and the next one succeeds, [trying_get] returns that response
    and raises nothing. *)
Theorem trying_get_recovers :
  forall (fuel : nat) (url : string) (kw : kwargs) (max_attempts wait : Z)
         (w : World) (errs : nat -> exception) (k : nat) (r : Response),
    1 <= max_attempts ->
    Z.of_nat k < max_attempts ->
    0 <= wait ->
    (k < fuel)%nat ->
    (forall i, (i < k)%nat ->
               network E (gets w + i) url kw = Fails (errs i)
               /\ retryable (errs i) = true) ->
    network E (gets w + k) url kw = Responds r ->
    trying_get E fuel url max_attempts wait kw w
    = (Return (Some r),
       mkWorld (gets w + k + 1) (temps w) (audio_params w)
               (trace w
                ++ failed_attempts url kw max_attempts wait (Z.to_nat max_attempts) 0 k
                ++ [EvGet url kw])).
Proof.
  intros fuel url kw m wt w errs k r Hm Hk Hwt Hfuel Hnet Hok.
  set (n := Z.to_nat m).
  assert (Hmn : m = Z.of_nat n) by (unfold n; lia).
  unfold trying_get. rewrite Hmn at 2.
  rewrite (trying_get_loop_recover E url kw m wt n (fun g => errs (g - gets w)%nat) r
             Hmn Hwt k n); try lia.
  - rewrite Nat.sub_diag. reflexivity.
  - intros i Hi. replace (gets w + i - gets w)%nat with i by lia. apply Hnet. exact Hi.
  - exact Hok.
Qed.

(** C9, for [max_attempts = 0]: the loop body never runs:
    no request is issued, nothing is raised, and [None] comes back. *)
Theorem trying_get_zero_attempts :
  forall (fuel : nat) (url : string) (kw : kwargs) (wait : Z) (w : World),
    trying_get E fuel url 0 wait kw w = (Return None, w).
Proof.
  intros. unfold trying_get. apply trying_get_loop_zero.
Qed.

Lemma trying_get_loop_negative url kw m wt :
  0 <= wt ->
  (forall g, exists e, network E g url kw = Fails e /\ retryable e = true) ->
  forall fuel a w, a < 0 ->
    fst (trying_get_loop E fuel url m wt kw a w) = Unfinished.
Proof.
  intros Hwt Hnet. induction fuel as [|fuel IH]; intros a w Ha.
  - cbn [trying_get_loop]. destruct (Z.eqb_spec a 0); [lia | reflexivity].
  - cbn [trying_get_loop]. destruct (Z.eqb_spec a 0); [lia|].
    unfold bind at 1, requests_get at 1.
    destruct (Hnet (gets w)) as [e [-> ->]].
    unfold bind at 1, emit at 1.
    destruct (Z.eqb_spec (a - 1) 0); [lia|].
    unfold bind at 1. rewrite sleep_nonneg by assumption.
    apply IH. lia.
Qed.

End TransportTheorems.

Lemma trying_get_exhausted_witness :
  trying_get (Sample.externals Sample.down) 3 "https://www.linkedin.com/posts/a" 3 10
             NoKwargs world0
  = (Raise (Sample.refusal 2),
     mkWorld 3 0 None
             (failed_attempts "https://www.linkedin.com/posts/a" NoKwargs 3 10 3 0 3)).
Proof.
  apply (proj1 (trying_get_exhausted (Sample.externals Sample.down) 3
                  "https://www.linkedin.com/posts/a" NoKwargs 3 10 world0 Sample.refusal
                  ltac:(lia) ltac:(lia) ltac:(simpl; lia)
                  (fun i _ => conj eq_refl eq_refl))).
Defined.

Lemma trying_get_recovers_witness :
  trying_get (Sample.externals (Sample.flaky 2 (Sample.page "https://host/a" "hello")))
             3 "https://host/a" 3 10 NoKwargs world0
  = (Return (Some (Sample.page "https://host/a" "hello")),
     mkWorld 3 0 None
             (failed_attempts "https://host/a" NoKwargs 3 10 3 0 2
              ++ [EvGet "https://host/a" NoKwargs])).
Proof.
  apply (trying_get_recovers
           (Sample.externals (Sample.flaky 2 (Sample.page "https://host/a" "hello")))
           3 "https://host/a" NoKwargs 3 10 world0 Sample.refusal 2
           (Sample.page "https://host/a" "hello")
           ltac:(lia) ltac:(lia) ltac:(lia) ltac:(lia)).
  - intros i Hi. simpl. destruct i as [|[|i]]; [split; reflexivity | split; reflexivity | lia].
  - reflexivity.
Defined.

(** With [max_attempts = -1] the loop is entered: a request goes out, and
    when it is answered the response is returned. *)
Lemma trying_get_negative_attempts :
  -1 <= 0
  /\ trying_get (Sample.externals (Sample.flaky 0 (Sample.page "https://host/a" "hello")))
                1 "https://host/a" (-1) 10 NoKwargs world0
     = (Return (Some (Sample.page "https://host/a" "hello")),
        mkWorld 1 0 None [EvGet "https://host/a" NoKwargs]).
Proof. split; [lia | reflexivity]. Qed.

(** ** The fragment catalog *)

Import Downloader.

Section CatalogFacts.

Variable E : Externals.

Lemma fold_left_Qplus (l : list Q) (a : Q) :
  (fold_left Qplus l a == a + total l)%Q.
Proof.
  revert a. induction l as [|x l IH]; intros a; cbn [fold_left total fold_right].
  - lra.
  - rewrite IH. fold (total l). lra.
Qed.

Lemma py_sum_times (ds : list Q) : (py_sum (0 :: ds) == total ds)%Q.
Proof.
  unfold py_sum. cbn [fold_left]. rewrite fold_left_Qplus. lra.
Qed.

Lemma Qlt_bool_true a b : Qlt_bool a b = true <-> (a < b)%Q.
Proof.
  unfold Qlt_bool. rewrite negb_true_iff. split; intros H.
  - apply Qnot_le_lt. intros Hle. apply Qle_bool_iff in Hle. congruence.
  - destruct (Qle_bool b a) eqn:Hb; [|reflexivity].
    apply Qle_bool_iff in Hb. lra.
Qed.

Lemma Qlt_bool_false a b : Qlt_bool a b = false <-> (b <= a)%Q.
Proof.
  unfold Qlt_bool. rewrite negb_false_iff. apply Qle_bool_iff.
Qed.

Lemma py_min_Qmin a b : (py_min a b == Qmin a b)%Q.
Proof.
  unfold py_min. destruct (Qlt_bool b a) eqn:Hlt.
  - apply Qlt_bool_true in Hlt. rewrite Q.min_r; lra.
  - apply Qlt_bool_false in Hlt. rewrite Q.min_l; lra.
Qed.

Lemma total_duration_unlimited ds limit :
  (limit == 0)%Q -> (total_duration (0 :: ds) limit == total ds)%Q.
Proof.
  intros H. unfold total_duration.
  apply Qeq_bool_iff in H. rewrite H. cbn [negb]. apply py_sum_times.
Qed.

Lemma total_duration_limited ds limit :
  (0 < limit)%Q -> (total_duration (0 :: ds) limit == Qmin (total ds) limit)%Q.
Proof.
  intros H. unfold total_duration.
  destruct (Qeq_bool limit 0) eqn:Hz.
  - apply Qeq_bool_iff in Hz. lra.
  - cbn [negb]. rewrite py_min_Qmin. rewrite py_sum_times. reflexivity.
Qed.

Lemma init_inv depth fuel url m wt limit q w self w' :
  __init__ E depth fuel url m wt limit q w = (Return self, w') ->
  exists manifest_url w1 manifest w2 ds first c,
    get_manifest E depth fuel m wt url q m wt w = (Return manifest_url, w1)
    /\ trying_get E fuel manifest_url m wt NoKwargs w1 = (Return (Some manifest), w2)
    /\ extinf_durations E (manifest_lines manifest) = Return ds
    /\ nth_error (fragment_paths (re_sub_manifest manifest_url) (manifest_lines manifest)) 0
       = Some first
    /\ _get_next_clip E fuel m wt first (wave_opened w2) = (Return c, w')
    /\ self = mkSelf m wt
                     (fragment_paths (re_sub_manifest manifest_url) (manifest_lines manifest))
                     (0%Q :: ds) (total_duration (0%Q :: ds) limit) 0%Q 0%nat
                     (temps w2, ".wav") c.
Proof.
  unfold __init__. intros H.
  unfold bind at 1 in H.
  destruct (get_manifest E depth fuel m wt url q m wt w) as [[manifest_url|e|] w1] eqn:Hman;
    try discriminate.
  unfold bind at 1 in H.
  destruct (trying_get E fuel manifest_url m wt NoKwargs w1) as [[[manifest|]|e|] w2] eqn:Hget;
    try discriminate.
  cbn [attr] in H. unfold bind at 1, ret at 1 in H.
  fold (manifest_lines manifest) in H.
  unfold bind at 1, lift_res at 1 in H.
  destruct (extinf_durations E (manifest_lines manifest)) as [ds|e|] eqn:Hds; try discriminate.
  unfold bind at 1, mktemp at 1 in H. unfold bind at 1, emit at 1 in H.
  cbn [gets temps audio_params trace] in H.
  unfold bind at 1, subscript at 1 in H.
  destruct (nth_error (fragment_paths (re_sub_manifest manifest_url) (manifest_lines manifest)) 0)
    as [first|] eqn:Hfirst; try discriminate.
  unfold ret at 1 in H. unfold bind at 1 in H.
  fold (wave_opened w2) in H.
  destruct (_get_next_clip E fuel m wt first (wave_opened w2)) as [[c|e|] w3] eqn:Hclip;
    try discriminate.
  unfold ret in H. injection H as <- <-.
  exists manifest_url, w1, manifest, w2, ds, first, c.
  repeat split; assumption.
Qed.

Lemma init_intro depth fuel url m wt limit q w manifest_url w1 manifest w2 ds first c w' :
  get_manifest E depth fuel m wt url q m wt w = (Return manifest_url, w1) ->
  trying_get E fuel manifest_url m wt NoKwargs w1 = (Return (Some manifest), w2) ->
  extinf_durations E (manifest_lines manifest) = Return ds ->
  nth_error (fragment_paths (re_sub_manifest manifest_url) (manifest_lines manifest)) 0
  = Some first ->
  _get_next_clip E fuel m wt first (wave_opened w2) = (Return c, w') ->
  __init__ E depth fuel url m wt limit q w
  = (Return (mkSelf m wt
                    (fragment_paths (re_sub_manifest manifest_url) (manifest_lines manifest))
                    (0%Q :: ds) (total_duration (0%Q :: ds) limit) 0%Q 0%nat
                    (temps w2, ".wav") c),
     w').
Proof.
  intros Hman Hget Hds Hfirst Hclip.
  unfold __init__.
  unfold bind at 1. rewrite Hman.
  unfold bind at 1. rewrite Hget.
  cbn [attr]. unfold bind at 1, ret at 1.
  fold (manifest_lines manifest).
  unfold bind at 1, lift_res at 1. rewrite Hds.
  unfold bind at 1, mktemp at 1. unfold bind at 1, emit at 1.
  cbn [gets temps audio_params trace].
  unfold bind at 1, subscript at 1. rewrite Hfirst.
  unfold ret at 1. unfold bind at 1.
  fold (wave_opened w2). rewrite Hclip. reflexivity.
Qed.

(** C4: the catalog that the constructor builds from the terminal
    manifest starts its list of times with an implicit 0 followed by the
    #EXTINF values; its total duration is the sum of those values when the
    limit is 0 and the smaller of that sum and the limit when the limit is
    positive; and another limit changes nothing but the total duration
    (the fragment paths in particular are the same). *)
Theorem init_total_duration :
  forall (depth fuel : nat) (url : string) (max_attempts wait : Z) (limit : Q)
         (quality : Z) (w w' : World) (self : Self),
    __init__ E depth fuel url max_attempts wait limit quality w = (Return self, w') ->
    exists (manifest_url : string) (w1 w2 : World) (manifest : Response) (ds : list Q),
      get_manifest E depth fuel max_attempts wait url quality max_attempts wait w
      = (Return manifest_url, w1)
      /\ trying_get E fuel manifest_url max_attempts wait NoKwargs w1
         = (Return (Some manifest), w2)
      /\ extinf_durations E (manifest_lines manifest) = Return ds
      /\ times self = 0%Q :: ds
      /\ ((limit == 0)%Q -> (duration self == total ds)%Q)
      /\ ((0 < limit)%Q -> (duration self == Qmin (total ds) limit)%Q)
      /\ paths self
         = fragment_paths (re_sub_manifest manifest_url) (manifest_lines manifest)
      /\ (forall limit' : Q,
             __init__ E depth fuel url max_attempts wait limit' quality w
             = (Return (with_duration (total_duration (times self) limit') self), w')).
Proof.
  intros depth fuel url m wt limit q w w' self H.
  destruct (init_inv _ _ _ _ _ _ _ _ _ _ H)
    as (manifest_url & w1 & manifest & w2 & ds & first & c
        & Hman & Hget & Hds & Hfirst & Hclip & ->).
  exists manifest_url, w1, w2, manifest, ds.
  cbn [times duration paths].
  repeat split; try assumption.
  - apply total_duration_unlimited.
  - apply total_duration_limited.
  - intros limit'.
    rewrite (init_intro _ _ _ _ _ limit' _ _ _ _ _ _ _ _ _ _ Hman Hget Hds Hfirst Hclip).
    reflexivity.
Qed.

End CatalogFacts.


(** The stream of three fragments announced as 2.0, 3.5 and 1.5 seconds,
    with a limit of 5 seconds and without a limit. *)
Lemma init_total_duration_witness :
  exists (self : Self) (w' : World),
    __init__ Stream.externals 3 3 Stream.landing_url 3 10 5 3200000 world0
    = (Return self, w')
    /\ times self = [0; 2.0; 3.5; 1.5]%Q
    /\ (duration self == 5)%Q
    /\ exists self0 : Self,
         __init__ Stream.externals 3 3 Stream.landing_url 3 10 0 3200000 world0
         = (Return self0, w')
         /\ (duration self0 == 7)%Q
         /\ paths self0 = paths self.
Proof.
  assert (H : exists self w',
             __init__ Stream.externals 3 3 Stream.landing_url 3 10 5 3200000 world0
             = (Return self, w')) by (vm_compute; eauto).
  destruct H as (self & w' & H). exists self, w'. split; [exact H|].
  destruct (init_total_duration Stream.externals _ _ _ _ _ _ _ _ _ _ H)
    as (mu & w1 & w2 & mf & ds & Hman & Hget & Hds & Htimes & _ & Hlimited & _ & Hother).
  vm_compute in Hman. injection Hman as <- <-.
  vm_compute in Hget. injection Hget as <- <-.
  vm_compute in Hds. injection Hds as <-.
  split; [exact Htimes|]. split.
  - rewrite Hlimited by reflexivity. vm_compute. reflexivity.
  - eexists. split; [apply Hother|]. split; [|reflexivity].
    rewrite Htimes. vm_compute. reflexivity.
Defined.

(** ** The stitcher *)

Section StitcherFacts.

Variable E : Externals.

Lemma make_frame_stay fuel t self w :
  Qlt_bool (clip_duration (current_clip self)) (t - pos self) = false ->
  _make_frame E fuel t (self, w)
  = (Return (get_frame (current_clip self) (t - pos self)), (self, w)).
Proof.
  intros H. unfold _make_frame.
  unfold bind at 1, get_self at 1. cbn [fst snd]. rewrite H.
  reflexivity.
Qed.

Lemma make_frame_advance fuel t self w :
  Qlt_bool (clip_duration (current_clip self)) (t - pos self) = true ->
  _make_frame E fuel t (self, w)
  = match nth_error (paths self) (clip self + 1) with
    | None => (Raise IndexError, (advanced self, released self w))
    | Some url =>
        match _get_next_clip E fuel (_max_attempts self) (_wait self) url (released self w) with
        | (Return c, w') =>
            (Return (get_frame c (t - pos (advanced self))),
             (set_current_clip c (advanced self), w'))
        | (Raise e, w') => (Raise e, (advanced self, w'))
        | (Unfinished, w') => (Unfinished, (advanced self, w'))
        end
    end.
Proof.
  intros H. unfold _make_frame.
  unfold bind at 1, get_self at 1. cbn [fst snd]. rewrite H.
  unfold bind at 1. unfold bind at 1, set_self at 1. cbn [fst snd].
  unfold bind at 1, get_self at 1. cbn [fst snd].
  unfold bind at 1, set_self at 1. cbn [fst snd].
  unfold bind at 1, get_self at 1. cbn [fst snd].
  unfold bind at 1, in_world at 1, emit at 1. cbn [fst snd gets temps audio_params trace].
  unfold bind at 1, in_world at 1, emit at 1. cbn [fst snd gets temps audio_params trace].
  rewrite <- app_assoc. cbn [app].
  fold (advanced self). 
  change (set_clip (clip (set_pos (pos self + clip_duration (current_clip self)) self) + 1)
           (set_pos (pos self + clip_duration (current_clip self)) self)) with (advanced self).
  change (current_clip (advanced self)) with (current_clip self).
  fold (released self w).
  unfold bind at 1, subscript at 1.
  change (paths (advanced self)) with (paths self).
  change (clip (advanced self)) with (clip self + 1)%nat.
  destruct (nth_error (paths self) (clip self + 1)) as [url|]; [|reflexivity].
  unfold ret at 1. unfold bind at 1, in_world at 1. cbn [fst snd].
  change (_max_attempts (advanced self)) with (_max_attempts self).
  change (_wait (advanced self)) with (_wait self).
  destruct (_get_next_clip E fuel (_max_attempts self) (_wait self) url (released self w))
    as [[c|e|] w']; reflexivity.
Qed.

(** C10: while the last fragment of the catalog is resident, a request
    for a time that lies more than its duration past the cursor moves the
    cursor on, releases the clip and then fails with [IndexError] on
    [self.paths[self.clip]]; no frame is returned. *)
Theorem make_frame_past_last_fragment :
  forall (fuel : nat) (t : Q) (self : Self) (w : World),
    S (clip self) = List.length (paths self) ->
    (clip_duration (current_clip self) < t - pos self)%Q ->
    _make_frame E fuel t (self, w)
    = (Raise IndexError, (advanced self, released self w)).
Proof.
  intros fuel t self w Hlast Hlt.
  rewrite make_frame_advance by (apply Qlt_bool_true; exact Hlt).
  replace (nth_error (paths self) (clip self + 1)) with (@None string); [reflexivity|].
  symmetry. apply nth_error_None. lia.
Qed.

Lemma trying_get_loop_effect url m wt kw :
  forall fuel a w res w',
    trying_get_loop E fuel url m wt kw a w = (res, w') ->
    temps w' = temps w
    /\ audio_params w' = audio_params w
    /\ (exists evs, trace w' = trace w ++ evs /\ Forall (fun e => quiet e = true) evs)
    /\ (forall r, res = Return (Some r) -> exists g, network E g url kw = Responds r).
Proof.
  induction fuel as [|fuel IH]; intros a w res w' H; cbn [trying_get_loop] in H.
  - destruct (a =? 0); unfold ret, unfinished in H; injection H as <- <-;
      (repeat split; [exists []; rewrite app_nil_r; split; [reflexivity | constructor]
                     | intros r Hr; discriminate]).
  - destruct (a =? 0).
    + unfold ret in H; injection H as <- <-.
      repeat split; [exists []; rewrite app_nil_r; split; [reflexivity | constructor]
                    | intros r Hr; discriminate].
    + unfold bind at 1, requests_get at 1 in H.
      destruct (network E (gets w) url kw) as [resp|e] eqn:Hnet.
      * unfold ret in H. injection H as <- <-. cbn [temps audio_params trace].
        repeat split.
        -- exists [EvGet url kw]. split; [reflexivity | repeat constructor].
        -- intros r [= <-]. exists (gets w). exact Hnet.
      * destruct (retryable e).
        -- unfold bind at 1, emit at 1 in H. cbn [gets temps audio_params trace] in H.
           destruct (a - 1 =? 0).
           ++ unfold raise in H. injection H as <- <-. cbn [temps audio_params trace].
              repeat split.
              ** exists [EvGet url kw; EvWarning url (m - (a - 1)) m wt].
                 rewrite <- app_assoc. split; [reflexivity | repeat constructor].
              ** intros r Hr; discriminate.
           ++ unfold bind at 1, sleep at 1 in H.
              destruct (wt <? 0).
              ** unfold raise in H. injection H as <- <-. cbn [temps audio_params trace].
                 repeat split.
                 --- exists [EvGet url kw; EvWarning url (m - (a - 1)) m wt].
                     rewrite <- app_assoc. split; [reflexivity | repeat constructor].
                 --- intros r Hr; discriminate.
              ** unfold emit at 1 in H. cbn [gets temps audio_params trace] in H.
                 apply IH in H. cbn [gets temps audio_params trace] in H.
                 destruct H as (Ht & Ha & (evs & Htr & Hq) & Hr).
                 repeat split; try assumption.
                 exists ([EvGet url kw; EvWarning url (m - (a - 1)) m wt; EvSleep wt] ++ evs).
                 split.
                 --- rewrite Htr. rewrite <- !app_assoc. reflexivity.
                 --- repeat constructor. exact Hq.
        -- unfold raise in H. injection H as <- <-. cbn [temps audio_params trace].
           repeat split.
           ++ exists [EvGet url kw]. split; [reflexivity | repeat constructor].
           ++ intros r Hr; discriminate.
Qed.

Lemma get_next_clip_inv fuel m wt url w res w' :
  _get_next_clip E fuel m wt url w = (res, w') ->
  exists evs,
    Forall (fun e => quiet e = true) evs
    /\ ((exists c content params frames,
            res = Return c
            /\ filename c = (temps w, ".mp4")
            /\ fetched_from E url c
            /\ media_audio (media c) = Some (params, frames)
            /\ trace w' = trace w ++ evs
                          ++ [EvCreateFile (temps w, ".mp4");
                              EvWriteFile (temps w, ".mp4") content;
                              EvOpenClip (temps w, ".mp4");
                              EvWriteAudio (S (temps w), ".wav") frames;
                              EvAudioFrames frames;
                              EvRemove (S (temps w), ".wav")])
        \/ ((forall c, res <> Return c)
            /\ (trace w' = trace w ++ evs
                \/ trace w' = trace w ++ evs ++ [EvCreateFile (temps w, ".mp4")]
                \/ (exists content,
                       trace w' = trace w ++ evs
                                   ++ [EvCreateFile (temps w, ".mp4");
                                       EvWriteFile (temps w, ".mp4") content])
                \/ (exists content,
                       trace w' = trace w ++ evs
                                   ++ [EvCreateFile (temps w, ".mp4");
                                       EvWriteFile (temps w, ".mp4") content;
                                       EvOpenClip (temps w, ".mp4")])))).
Proof.
  unfold _get_next_clip. intros H.
  unfold bind at 1, mktemp at 1 in H.
  unfold bind at 1 in H. unfold trying_get in H.
  match type of H with
  | context [trying_get_loop E fuel url m wt NoKwargs m ?w0] =>
      destruct (trying_get_loop E fuel url m wt NoKwargs m w0) as [r0 w1] eqn:Hget
  end.
  apply trying_get_loop_effect in Hget. cbn [gets temps audio_params trace] in Hget.
  destruct Hget as (Ht & Ha & (evs & Htr & Hq) & Hr).
  exists evs. split; [exact Hq|].
  destruct r0 as [r0|e|].
  2,3: injection H as <- <-; right; (split; [intros c Hc; discriminate|]); left; exact Htr.
  unfold bind at 1, emit at 1 in H. cbn [gets temps audio_params trace] in H.
  destruct r0 as [r|].
  - cbn [attr] in H. unfold bind at 1, ret at 1 in H.
    unfold bind at 1, emit at 1 in H.
    unfold bind at 1, lift_res at 1 in H.
    destruct (decode E (resp_content r)) as [md|e|] eqn:Hdec.
    + unfold bind at 1, emit at 1 in H. cbn [gets temps audio_params trace] in H.
      unfold bind at 1, mktemp at 1 in H. cbn [gets temps audio_params trace] in H.
      destruct (media_audio md) as [[params frames]|] eqn:Haudio.
      * unfold bind at 1, emit at 1 in H. cbn [gets temps audio_params trace] in H.
        unfold bind at 1, set_audio_params at 1 in H.
        cbn [gets temps audio_params trace] in H.
        unfold bind at 1, emit at 1 in H. cbn [gets temps audio_params trace] in H.
        unfold bind at 1, emit at 1 in H. cbn [gets temps audio_params trace] in H.
        unfold ret in H. injection H as <- <-. cbn [trace].
        left. exists (mkClip (temps w, ".mp4") md), (resp_content r), params, frames.
        rewrite Ht. cbn [filename media].
        repeat split; try assumption.
        -- destruct (Hr r eq_refl) as [g Hg]. exists g, r. split; assumption.
        -- rewrite Htr. rewrite <- !app_assoc. reflexivity.
      * unfold raise in H. injection H as <- <-. cbn [trace].
        right. split; [intros c Hc; discriminate|].
        right; right; right. exists (resp_content r).
        rewrite Htr. rewrite <- !app_assoc. reflexivity.
    + injection H as <- <-. cbn [trace].
      right. split; [intros c Hc; discriminate|].
      right; right; left. exists (resp_content r).
      rewrite Htr. rewrite <- !app_assoc. reflexivity.
    + injection H as <- <-. cbn [trace].
      right. split; [intros c Hc; discriminate|].
      right; right; left. exists (resp_content r).
      rewrite Htr. rewrite <- !app_assoc. reflexivity.
  - cbn [attr] in H. unfold bind at 1, raise at 1 in H. injection H as <- <-. cbn [trace].
    right. split; [intros c Hc; discriminate|]. right; left.
    rewrite Htr. rewrite <- app_assoc. reflexivity.
Qed.

Lemma total_app (a b : list Q) : (total (a ++ b) == total a + total b)%Q.
Proof.
  induction a as [|x a IH]; cbn [app total fold_right].
  - fold (total b). lra.
  - fold (total (a ++ b)) (total a). rewrite IH. lra.
Qed.

Lemma firstn_S_nth {A} (l : list A) (i : nat) (d : A) :
  (i < List.length l)%nat -> firstn (S i) l = firstn i l ++ [nth i l d].
Proof.
  revert i. induction l as [|x l IH]; intros i Hi; cbn [List.length] in Hi; [lia|].
  destruct i as [|i]; [reflexivity|].
  cbn [firstn nth app]. f_equal. apply IH. lia.
Qed.

Lemma starts_S (ds : list Q) (i : nat) :
  (i < List.length ds)%nat -> (starts ds (S i) == starts ds i + nth i ds 0)%Q.
Proof.
  intros Hi. unfold starts. rewrite (firstn_S_nth ds i 0%Q Hi), total_app.
  cbn [total fold_right]. lra.
Qed.

Lemma stitching_duration ps ds self :
  fragment_durations E ps ds ->
  stitching E ps ds self ->
  (clip self < List.length ds)%nat
  /\ (clip_duration (current_clip self) == nth (clip self) ds 0)%Q.
Proof.
  intros [Hlen Hdur] (Hpaths & Hcur & url & Hurl & g & r & Hnet & Hdec).
  split.
  - rewrite Hlen. apply nth_error_Some. congruence.
  - exact (Hdur g (clip self) url r _ Hurl Hnet Hdec).
Qed.

Lemma make_frame_step ps ds fuel t self w res self' w' :
  fragment_durations E ps ds ->
  stitching E ps ds self ->
  _make_frame E fuel t (self, w) = (res, (self', w')) ->
  (clip self <= clip self')%nat
  /\ ps = Downloader.paths self'
  /\ cursor_ok ds self'
  /\ (forall f, res = Return f -> stitching E ps ds self').
Proof.
  intros Hfd Hst H.
  destruct (stitching_duration _ _ _ Hfd Hst) as [Hlt Hd].
  destruct Hst as (Hpaths & Hcur & url & Hurl & Hfrom).
  destruct (Qlt_bool (clip_duration (current_clip self)) (t - pos self)) eqn:Hcmp.
  - rewrite make_frame_advance in H by exact Hcmp.
    assert (Hadv : cursor_ok ds (advanced self)).
    { unfold cursor_ok, advanced. cbn [pos clip set_clip set_pos].
      replace (clip self + 1)%nat with (S (clip self)) by lia.
      rewrite starts_S by exact Hlt. rewrite Hd. unfold cursor_ok in Hcur. rewrite Hcur.
      reflexivity. }
    destruct (nth_error (Downloader.paths self) (clip self + 1)) as [next|] eqn:Hnext.
    + destruct (_get_next_clip E fuel (_max_attempts self) (_wait self) next (released self w))
        as [[c|e|] w2] eqn:Hclip; injection H as <- <- <-.
      * cbn [clip Downloader.paths set_current_clip advanced set_clip set_pos].
        split; [lia | split; [congruence | split; [exact Hadv |]]].
        intros f _. split; [exact Hpaths | split; [exact Hadv |]].
        exists next. split; [rewrite <- Hpaths; exact Hnext|].
        cbn [current_clip].
        destruct (get_next_clip_inv _ _ _ _ _ _ _ Hclip) as (evs & _ & Hcases).
        destruct Hcases as [(c' & content & params & frames & Hc & _ & Hf & _) | [Hno _]].
        -- injection Hc as <-. exact Hf.
        -- exfalso. apply (Hno c). reflexivity.
      * cbn [clip Downloader.paths advanced set_clip set_pos].
        split; [lia | split; [congruence | split; [exact Hadv | intros f Hf; discriminate]]].
      * cbn [clip Downloader.paths advanced set_clip set_pos].
        split; [lia | split; [congruence | split; [exact Hadv | intros f Hf; discriminate]]].
    + injection H as <- <- <-. cbn [clip Downloader.paths advanced set_clip set_pos].
      split; [lia | split; [congruence | split; [exact Hadv | intros f Hf; discriminate]]].
  - rewrite make_frame_stay in H by exact Hcmp. injection H as <- <- <-.
    split; [lia | split; [congruence | split; [exact Hcur |]]].
    intros f _. split; [exact Hpaths | split; [exact Hcur |]].
    exists url. split; assumption.
Qed.

Lemma frame_requests_stitching ps ds fuel :
  fragment_durations E ps ds ->
  forall ts self w fs m1,
    stitching E ps ds self ->
    frame_requests E fuel ts (self, w) = (Return fs, m1) ->
    (clip self <= clip (fst m1))%nat /\ stitching E ps ds (fst m1).
Proof.
  intros Hfd. induction ts as [|t ts IH]; intros self w fs m1 Hst H.
  - cbn [frame_requests] in H. unfold ret in H. injection H as <- <-.
    split; [cbn [fst]; lia | exact Hst].
  - cbn [frame_requests] in H. unfold bind at 1 in H.
    destruct (_make_frame E fuel t (self, w)) as [[f|e|] [self' w']] eqn:Hstep;
      try discriminate.
    destruct (make_frame_step _ _ _ _ _ _ _ _ _ Hfd Hst Hstep) as (Hle & _ & _ & Hst').
    unfold bind at 1 in H.
    destruct (frame_requests E fuel ts (self', w')) as [[fs'|e|] m'] eqn:Hrest;
      try discriminate.
    unfold ret in H. injection H as <- <-.
    destruct (IH _ _ _ _ (Hst' f eq_refl) Hrest) as [Hle' Hst1].
    split; [lia | exact Hst1].
Qed.

Lemma init_stitching depth fuel url m wt limit q w self w' ds :
  __init__ E depth fuel url m wt limit q w = (Return self, w') ->
  stitching E (paths self) ds self /\ clip self = 0%nat /\ pos self = 0%Q.
Proof.
  intros H.
  destruct (init_inv _ _ _ _ _ _ _ _ _ _ _ H)
    as (manifest_url & w1 & manifest & w2 & durations & first & c
        & _ & _ & _ & Hfirst & Hclip & ->).
  cbn [paths clip pos]. split; [|split; reflexivity].
  split; [reflexivity|]. split.
  - unfold cursor_ok, starts. cbn [pos clip firstn total fold_right]. reflexivity.
  - exists first. cbn [clip current_clip]. split; [exact Hfirst|].
    destruct (get_next_clip_inv _ _ _ _ _ _ _ Hclip) as (evs & _ & Hcases).
    destruct Hcases as [(c' & content & params & frames & Hc & _ & Hf & _) | [Hno _]].
    + injection Hc as <-. exact Hf.
    + exfalso. apply (Hno c). reflexivity.
Qed.

(** C5: from the constructor on and across any list of frame requests
    (their times need not even be ordered), the fragment index never
    decreases, and the start-time accumulator [pos] equals the sum of the
    durations of the fragments before the current one.  [m1] is the state
    after any number of answered requests, [m2] the state after one more
    request, whatever its outcome. *)
Theorem cursor_invariant :
  forall (depth fuel fuel' : nat) (url : string) (max_attempts wait : Z) (limit : Q)
         (quality : Z) (w w0 : World) (self0 : Self) (ds : list Q)
         (ts : list Q) (fs : list Frame) (m1 m2 : Machine) (t : Q) (res : Res Frame),
    __init__ E depth fuel url max_attempts wait limit quality w = (Return self0, w0) ->
    fragment_durations E (paths self0) ds ->
    frame_requests E fuel' ts (self0, w0) = (Return fs, m1) ->
    _make_frame E fuel' t m1 = (res, m2) ->
    (clip self0 <= clip (fst m1) <= clip (fst m2))%nat
    /\ (pos self0 == starts ds (clip self0))%Q
    /\ (pos (fst m1) == starts ds (clip (fst m1)))%Q
    /\ (pos (fst m2) == starts ds (clip (fst m2)))%Q.
Proof.
  intros depth fuel fuel' url m wt limit q w w0 self0 ds ts fs m1 m2 t res
         Hinit Hfd Hrun Hstep.
  destruct (init_stitching _ _ _ _ _ _ _ _ _ _ ds Hinit) as (Hst0 & _ & _).
  destruct (frame_requests_stitching _ _ _ Hfd _ _ _ _ _ Hst0 Hrun) as [Hle1 Hst1].
  destruct m1 as [self1 w1], m2 as [self2 w2]. cbn [fst] in *.
  destruct (make_frame_step _ _ _ _ _ _ _ _ _ Hfd Hst1 Hstep) as (Hle2 & _ & Hcur2 & _).
  split; [lia|]. split; [apply Hst0|]. split; [apply Hst1 | exact Hcur2].
Qed.

End StitcherFacts.

Lemma make_frame_past_last_fragment_witness :
  _make_frame Stream.externals 3 8 (StreamState.on_last_fragment, world0)
  = (Raise IndexError,
     (advanced StreamState.on_last_fragment, released StreamState.on_last_fragment world0)).
Proof.
  apply (make_frame_past_last_fragment Stream.externals 3 8 StreamState.on_last_fragment world0).
  - reflexivity.
  - vm_compute. reflexivity.
Defined.

Lemma stream_fragment_durations :
  fragment_durations Stream.externals StreamState.paths StreamState.durations.
Proof.
  split; [reflexivity|].
  intros g i url r m Hurl Hnet Hdec.
  destruct i as [|[|[|i]]]; cbn in Hurl.
  4: destruct i; discriminate.
  all: injection Hurl as <-; vm_compute in Hnet; injection Hnet as <-;
    vm_compute in Hdec; injection Hdec as <-; reflexivity.
Qed.

(** The sample stream: the constructor, then frames at 0, 1, 1.5 and 2.5
    seconds, then one at 3 seconds. *)
Lemma cursor_invariant_witness :
  exists (self0 : Self) (w0 : World) (fs : list Frame) (m1 m2 : Machine) (res : Res Frame),
    __init__ Stream.externals 3 3 Stream.landing_url 3 10 0 3200000 world0
    = (Return self0, w0)
    /\ frame_requests Stream.externals 3 [0; 1; 1.5; 2.5]%Q (self0, w0) = (Return fs, m1)
    /\ _make_frame Stream.externals 3 3 m1 = (res, m2)
    /\ (clip self0 <= clip (fst m1) <= clip (fst m2))%nat
    /\ (pos self0 == starts StreamState.durations (clip self0))%Q
    /\ (pos (fst m1) == starts StreamState.durations (clip (fst m1)))%Q
    /\ (pos (fst m2) == starts StreamState.durations (clip (fst m2)))%Q.
Proof.
  do 6 eexists.
  split; [vm_compute; reflexivity|].
  split; [vm_compute; reflexivity|].
  split; [vm_compute; reflexivity|].
  eapply (cursor_invariant Stream.externals 3 3 3 Stream.landing_url 3 10 0 3200000 world0)
    with (ts := [0; 1; 1.5; 2.5]%Q) (t := 3%Q).
  - vm_compute; reflexivity.
  - exact stream_fragment_durations.
  - vm_compute; reflexivity.
  - vm_compute; reflexivity.
Defined.

(** ** Which fragment supplies a frame *)

Section FrameSource.

Variable E : Externals.



Lemma trying_get_first_reply fuel url m wt kw w r :
  fuel <> 0%nat -> m <> 0 ->
  network E (gets w) url kw = Responds r ->
  trying_get E fuel url m wt kw w
  = (Return (Some r),
     mkWorld (S (gets w)) (temps w) (audio_params w) (trace w ++ [EvGet url kw])).
Proof.
  intros Hfuel Hm Hnet. unfold trying_get.
  destruct fuel as [|fuel]; [contradiction|]. cbn [trying_get_loop].
  destruct (Z.eqb_spec m 0) as [Hz|_]; [contradiction|].
  unfold bind at 1, requests_get at 1. rewrite Hnet. reflexivity.
Qed.








End FrameSource.





(** ** One resident fragment *)

Section Residency.

Variable E : Externals.

Lemma holdings_app (a b : list event) :
  holdings (a ++ b) = fold_left hold b (holdings a).
Proof. unfold holdings. apply fold_left_app. Qed.

Lemma holdings_snoc (tr : list event) (e : event) :
  holdings (tr ++ [e]) = hold (holdings tr) e.
Proof. rewrite holdings_app. reflexivity. Qed.

Lemma single_residency_nil : single_residency [].
Proof.
  intros p q H. symmetry in H. apply app_eq_nil in H. destruct H as [-> ->].
  split.
  - split; [cbn; lia | split; [cbn; lia | intros f g []]].
  - intros url kw q' Hq. discriminate.
Qed.

Lemma single_residency_snoc (tr : list event) (e : event) :
  single_residency tr ->
  one_fragment (hold (holdings tr) e) ->
  (is_get e = true -> holdings tr = ([], [])) ->
  single_residency (tr ++ [e]).
Proof.
  intros Htr Hone Hget p q Hpq.
  induction q as [|e' q0 _] using rev_ind.
  - rewrite app_nil_r in Hpq. subst p. rewrite holdings_snoc.
    split; [exact Hone | intros url kw q' Hq; discriminate].
  - rewrite app_assoc in Hpq. apply app_inj_tail in Hpq. destruct Hpq as [Htr' <-].
    destruct (Htr p q0 Htr') as [Hp Hq0]. split; [exact Hp|].
    intros url kw q' Hq. destruct q0 as [|e0 q0].
    + cbn in Hq. injection Hq as -> _. rewrite app_nil_r in Htr'. subst p.
      apply Hget. reflexivity.
    + cbn in Hq. injection Hq as -> _. eapply Hq0. reflexivity.
Qed.

Lemma single_residency_step (tr : list event) (e : event) (h h' : Holdings) :
  single_residency tr ->
  holdings tr = h ->
  hold h e = h' ->
  one_fragment h' ->
  (is_get e = true -> h = ([], [])) ->
  single_residency (tr ++ [e]) /\ holdings (tr ++ [e]) = h'.
Proof.
  intros Htr Hh Hhold Hone Hget. subst h. split.
  - apply single_residency_snoc; [exact Htr | rewrite Hhold; exact Hone | exact Hget].
  - rewrite holdings_snoc. exact Hhold.
Qed.

Lemma one_fragment_empty : one_fragment ([], []).
Proof. split; [cbn; lia | split; [cbn; lia | intros f g []]]. Qed.

Lemma one_fragment_file (f : Filename) : one_fragment ([], [f]).
Proof. split; [cbn; lia | split; [cbn; lia | intros f' g []]]. Qed.

Lemma one_fragment_resident (f : Filename) : one_fragment ([f], [f]).
Proof.
  split; [cbn; lia | split; [cbn; lia |]].
  intros f' g [<-|[]] [<-|[]]. reflexivity.
Qed.

Lemma hold_neutral (h : Holdings) (e : event) : neutral e = true -> hold h e = h.
Proof. destruct e; cbn; intros H; try discriminate; reflexivity. Qed.

Lemma quiet_neutral (e : event) : quiet e = true -> neutral e = true.
Proof. destruct e; cbn; intros H; try discriminate; reflexivity. Qed.

Lemma single_residency_neutral :
  forall (evs tr : list event),
    single_residency tr ->
    holdings tr = ([], []) ->
    Forall (fun e => neutral e = true) evs ->
    single_residency (tr ++ evs) /\ holdings (tr ++ evs) = ([], []).
Proof.
  induction evs as [|e evs IH]; intros tr Htr Hh Hevs.
  - rewrite app_nil_r. split; assumption.
  - inversion Hevs as [|? ? He Hrest]; subst.
    replace (tr ++ e :: evs) with ((tr ++ [e]) ++ evs) by (rewrite <- app_assoc; reflexivity).
    destruct (single_residency_step tr e ([], []) ([], []) Htr Hh
                (hold_neutral _ _ He) one_fragment_empty (fun _ => eq_refl)) as [Htr' Hh'].
    apply IH; assumption.
Qed.

Lemma Forall_quiet_neutral (evs : list event) :
  Forall (fun e => quiet e = true) evs -> Forall (fun e => neutral e = true) evs.
Proof. apply Forall_impl. exact quiet_neutral. Qed.

Lemma name_eqb_refl (f : Filename) : name_eqb f f = true.
Proof. unfold name_eqb. rewrite Nat.eqb_refl, String.eqb_refl. reflexivity. Qed.

Lemma get_next_clip_residency fuel m wt url w res w' :
  single_residency (trace w) ->
  holdings (trace w) = ([], []) ->
  _get_next_clip E fuel m wt url w = (res, w') ->
  single_residency (trace w')
  /\ (forall c, res = Return c ->
                holdings (trace w') = ([filename c], [filename c])).
Proof.
  intros Htr Hh H.
  destruct (get_next_clip_inv E _ _ _ _ _ _ _ H) as (evs & Hq & Hcases).
  destruct (single_residency_neutral evs (trace w) Htr Hh (Forall_quiet_neutral _ Hq))
    as [Htr1 Hh1].
  set (f := (temps w, ".mp4")) in *.
  destruct (single_residency_step _ (EvCreateFile f) ([], []) ([], [f]) Htr1 Hh1 eq_refl
              (one_fragment_file f) (fun Hg => ltac:(discriminate))) as [Htr2 Hh2].
  assert (Hwrite : forall content,
             single_residency (((trace w ++ evs) ++ [EvCreateFile f])
                                 ++ [EvWriteFile f content])
             /\ holdings (((trace w ++ evs) ++ [EvCreateFile f]) ++ [EvWriteFile f content])
                = ([], [f])).
  { intros content.
    apply (single_residency_step _ (EvWriteFile f content) ([], [f]) ([], [f]) Htr2 Hh2).
    - unfold hold, with_name. cbn [fst snd existsb]. rewrite name_eqb_refl. reflexivity.
    - apply one_fragment_file.
    - intros Hg; discriminate. }
  assert (Hopen : forall content,
             single_residency ((((trace w ++ evs) ++ [EvCreateFile f])
                                  ++ [EvWriteFile f content]) ++ [EvOpenClip f])
             /\ holdings ((((trace w ++ evs) ++ [EvCreateFile f])
                             ++ [EvWriteFile f content]) ++ [EvOpenClip f])
                = ([f], [f])).
  { intros content. destruct (Hwrite content) as [Htr3 Hh3].
    apply (single_residency_step _ (EvOpenClip f) ([], [f]) ([f], [f]) Htr3 Hh3 eq_refl
             (one_fragment_resident f)).
    intros Hg; discriminate. }
  destruct Hcases as [(c & content & params & frames & -> & Hname & _ & _ & Htrace)
                     | (Hno & [Htrace | [Htrace | [[content Htrace] | [content Htrace]]]])].
  - destruct (Hopen content) as [Htr4 Hh4].
    set (a := (S (temps w), ".wav")) in *.
    destruct (single_residency_step _ (EvWriteAudio a frames) _ _ Htr4 Hh4 eq_refl
                (one_fragment_resident f) (fun Hg => ltac:(discriminate))) as [Htr5 Hh5].
    destruct (single_residency_step _ (EvAudioFrames frames) _ _ Htr5 Hh5 eq_refl
                (one_fragment_resident f) (fun Hg => ltac:(discriminate))) as [Htr6 Hh6].
    assert (Hrem : hold ([f], [f]) (EvRemove a) = ([f], [f])).
    { cbn [hold fst snd without filter]. unfold name_eqb, a, f. cbn [fst snd].
      replace (S (temps w) =? temps w)%nat with false
        by (symmetry; apply Nat.eqb_neq; lia).
      reflexivity. }
    destruct (single_residency_step _ (EvRemove a) _ _ Htr6 Hh6 Hrem
                (one_fragment_resident f) (fun Hg => ltac:(discriminate))) as [Htr7 Hh7].
    assert (Heq : trace w'
                  = ((((((trace w ++ evs) ++ [EvCreateFile f]) ++ [EvWriteFile f content])
                        ++ [EvOpenClip f]) ++ [EvWriteAudio a frames])
                      ++ [EvAudioFrames frames]) ++ [EvRemove a]).
    { rewrite Htrace. rewrite <- !app_assoc. reflexivity. }
    rewrite Heq. split; [exact Htr7|].
    intros c' [= <-]. rewrite Hname. exact Hh7.
  - rewrite Htrace. split; [exact Htr1|]. intros c Hc. exfalso. exact (Hno c Hc).
  - rewrite Htrace, app_assoc. split; [exact Htr2|].
    intros c Hc. exfalso. exact (Hno c Hc).
  - replace (trace w') with (((trace w ++ evs) ++ [EvCreateFile f]) ++ [EvWriteFile f content])
      by (rewrite Htrace; rewrite <- !app_assoc; reflexivity).
    split; [apply Hwrite|]. intros c Hc. exfalso. exact (Hno c Hc).
  - replace (trace w')
      with ((((trace w ++ evs) ++ [EvCreateFile f]) ++ [EvWriteFile f content])
              ++ [EvOpenClip f])
      by (rewrite Htrace; rewrite <- !app_assoc; reflexivity).
    split; [apply Hopen|]. intros c Hc. exfalso. exact (Hno c Hc).
Qed.

Lemma trying_get_quiet fuel url m wt kw w res w' :
  trying_get E fuel url m wt kw w = (res, w') ->
  exists evs, trace w' = trace w ++ evs /\ Forall (fun e => quiet e = true) evs.
Proof.
  unfold trying_get. intros H.
  apply (trying_get_loop_effect E) in H. apply H.
Qed.

Lemma get_quality_quiet fuel sm sw url q w res w' :
  get_quality E fuel sm sw url q w = (res, w') ->
  exists evs, trace w' = trace w ++ evs /\ Forall (fun e => quiet e = true) evs.
Proof.
  unfold get_quality. intros H. unfold bind at 1 in H.
  destruct (trying_get E fuel url sm sw NoKwargs w) as [r w1] eqn:Hget.
  apply trying_get_quiet in Hget.
  destruct r as [[r|]|e|].
  - cbn [attr] in H. unfold bind at 1, ret at 1 in H.
    unfold bind at 1, lift_res at 1 in H.
    destruct (decode_utf8 E (resp_content r)) as [text|e|];
      unfold lift_res in H; injection H as _ <-; exact Hget.
  - cbn [attr] in H. unfold bind at 1, raise at 1 in H. injection H as _ <-. exact Hget.
  - injection H as _ <-. exact Hget.
  - injection H as _ <-. exact Hget.
Qed.

Lemma quiet_trans (tr tr1 tr2 : list event) :
  (exists evs, tr1 = tr ++ evs /\ Forall (fun e => quiet e = true) evs) ->
  (exists evs, tr2 = tr1 ++ evs /\ Forall (fun e => quiet e = true) evs) ->
  exists evs, tr2 = tr ++ evs /\ Forall (fun e => quiet e = true) evs.
Proof.
  intros (a & -> & Ha) (b & -> & Hb). exists (a ++ b).
  split; [rewrite app_assoc; reflexivity | apply Forall_app; split; assumption].
Qed.

Lemma get_manifest_quiet sm sw q m wt fuel :
  forall depth url w res w',
    get_manifest E depth fuel sm sw url q m wt w = (res, w') ->
    exists evs, trace w' = trace w ++ evs /\ Forall (fun e => quiet e = true) evs.
Proof.
  induction depth as [|depth IH]; intros url w res w' H; cbn [get_manifest] in H.
  - unfold raise in H. injection H as _ <-. exists []. rewrite app_nil_r.
    split; [reflexivity | constructor].
  - destruct (contains "/Manifest" url).
    { unfold ret in H. injection H as _ <-. exists []. rewrite app_nil_r.
      split; [reflexivity | constructor]. }
    destruct (contains "/manifest" url).
    { apply get_quality_quiet in H. exact H. }
    unfold bind at 1 in H.
    destruct (trying_get E fuel url MAX_ATTEMPTS WAIT NoKwargs w) as [r w1] eqn:Hget.
    apply trying_get_quiet in Hget.
    destruct r as [[r|]|e|]; try (unfold raise in H; injection H as _ <-; exact Hget).
    unfold bind at 1, subscript at 1 in H.
    destruct (nth_error _ 0) as [cookie|];
      [|unfold raise in H; injection H as _ <-; exact Hget].
    unfold ret at 1 in H. unfold bind at 1, lift_res at 1 in H.
    destruct (get_video_id E r) as [id|e|]; try (injection H as _ <-; exact Hget).
    unfold bind at 1 in H.
    match type of H with
    | context [trying_get E fuel ?u m wt ?kw w1] =>
        destruct (trying_get E fuel u m wt kw w1) as [r2 w2] eqn:Hget2
    end.
    apply trying_get_quiet in Hget2.
    pose proof (quiet_trans _ _ _ Hget Hget2) as Hboth.
    destruct r2 as [[r2|]|e|]; try (injection H as _ <-; exact Hboth).
    cbn [attr] in H. unfold bind at 1, ret at 1 in H.
    unfold bind at 1, lift_res at 1 in H.
    destruct (master_playlist_url E (resp_content r2)) as [url'|e|];
      try (injection H as _ <-; exact Hboth).
    apply IH in H. exact (quiet_trans _ _ _ Hboth H).
Qed.

Lemma init_residency depth fuel url m wt limit q w self w' :
  trace w = [] ->
  __init__ E depth fuel url m wt limit q w = (Return self, w') ->
  resident_only (self, w').
Proof.
  intros Hw H.
  destruct (init_inv E _ _ _ _ _ _ _ _ _ _ H)
    as (manifest_url & w1 & manifest & w2 & ds & first & c
        & Hman & Hget & _ & _ & Hclip & ->).
  apply get_manifest_quiet in Hman. apply trying_get_quiet in Hget.
  destruct (quiet_trans _ _ _ Hman Hget) as (evs & Htr & Hq).
  rewrite Hw in Htr. cbn [app] in Htr.
  assert (Hopened : single_residency (trace (wave_opened w2))
                    /\ holdings (trace (wave_opened w2)) = ([], [])).
  { unfold wave_opened. cbn [trace]. rewrite Htr.
    apply (single_residency_neutral (evs ++ [EvOpenWave (temps w2, ".wav")]) []
             single_residency_nil eq_refl).
    apply Forall_app. split; [exact (Forall_quiet_neutral _ Hq) | repeat constructor]. }
  destruct Hopened as [Htr0 Hh0].
  destruct (get_next_clip_residency _ _ _ _ _ _ _ Htr0 Hh0 Hclip) as [Htr1 Hh1].
  split; cbn [fst snd current_clip]; [exact Htr1 | exact (Hh1 c eq_refl)].
Qed.

Lemma make_frame_residency fuel t self w res self' w' :
  resident_only (self, w) ->
  _make_frame E fuel t (self, w) = (res, (self', w')) ->
  single_residency (trace w')
  /\ (forall f, res = Return f -> resident_only (self', w')).
Proof.
  intros [Htr Hh] H. cbn [fst snd] in Htr, Hh.
  destruct (Qlt_bool (clip_duration (current_clip self)) (t - pos self)) eqn:Hcmp.
  - rewrite (make_frame_advance E) in H by exact Hcmp.
    set (f := filename (current_clip self)) in *.
    assert (Hclose : hold ([f], [f]) (EvCloseClip f) = ([], [f])).
    { cbn [hold fst snd without filter]. rewrite name_eqb_refl. reflexivity. }
    assert (Hremove : hold ([], [f]) (EvRemove f) = ([], [])).
    { cbn [hold fst snd without filter]. rewrite name_eqb_refl. reflexivity. }
    destruct (single_residency_step _ (EvCloseClip f) _ _ Htr Hh Hclose
                (one_fragment_file f) (fun Hg => ltac:(discriminate))) as [Htr1 Hh1].
    destruct (single_residency_step _ (EvRemove f) _ _ Htr1 Hh1 Hremove
                one_fragment_empty (fun Hg => ltac:(discriminate))) as [Htr2 Hh2].
    assert (Hrel : trace (released self w) = (trace w ++ [EvCloseClip f]) ++ [EvRemove f]).
    { unfold released. cbn [trace]. rewrite <- app_assoc. reflexivity. }
    rewrite <- Hrel in Htr2, Hh2.
    destruct (nth_error (paths self) (clip self + 1)) as [url|].
    + destruct (_get_next_clip E fuel (_max_attempts self) (_wait self) url (released self w))
        as [r w2] eqn:Hclip.
      destruct (get_next_clip_residency _ _ _ _ _ _ _ Htr2 Hh2 Hclip) as [Htr3 Hh3].
      destruct r as [c|e|]; injection H as <- <- <-.
      * split; [exact Htr3|]. intros fr _. split; cbn [fst snd]; [exact Htr3|].
        cbn [current_clip set_current_clip]. exact (Hh3 c eq_refl).
      * split; [exact Htr3 | intros fr Hfr; discriminate].
      * split; [exact Htr3 | intros fr Hfr; discriminate].
    + injection H as <- <- <-. split; [exact Htr2 | intros fr Hfr; discriminate].
  - rewrite (make_frame_stay E) in H by exact Hcmp. injection H as <- <- <-.
    split; [exact Htr|]. intros fr _. split; assumption.
Qed.

Lemma frame_requests_residency fuel :
  forall ts self w res m1,
    resident_only (self, w) ->
    frame_requests E fuel ts (self, w) = (res, m1) ->
    single_residency (trace (snd m1)).
Proof.
  induction ts as [|t ts IH]; intros self w res m1 Hres H; cbn [frame_requests] in H.
  - unfold ret in H. injection H as _ <-. apply Hres.
  - unfold bind at 1 in H.
    destruct (_make_frame E fuel t (self, w)) as [r [self' w']] eqn:Hstep.
    destruct (make_frame_residency _ _ _ _ _ _ _ Hres Hstep) as [Htr Hnext].
    destruct r as [f|e|].
    + unfold bind at 1 in H.
      destruct (frame_requests E fuel ts (self', w')) as [r' m'] eqn:Hrest.
      pose proof (IH _ _ _ _ (Hnext f eq_refl) Hrest) as Hfinal.
      destruct r' as [fs|e|]; unfold ret in H; injection H as _ <-; exact Hfinal.
    + injection H as _ <-. exact Htr.
    + injection H as _ <-. exact Htr.
Qed.

(** C6: from the constructor on and across any list of frame requests,
    however they end, at every point of the run at most one decoded clip
    is open and at most one fragment file is on disk (the file of that
    clip), and whenever a request goes out to the network nothing is
    held: the resident clip has been closed and its file removed before
    the next fragment is fetched. *)
Theorem one_resident_fragment :
  forall (depth fuel fuel' : nat) (url : string) (max_attempts wait : Z) (limit : Q)
         (quality : Z) (w w0 : World) (self0 : Self)
         (ts : list Q) (res : Res (list Frame)) (m1 : Machine),
    trace w = [] ->
    __init__ E depth fuel url max_attempts wait limit quality w = (Return self0, w0) ->
    frame_requests E fuel' ts (self0, w0) = (res, m1) ->
    forall before after : list event,
      trace (snd m1) = before ++ after ->
      (List.length (fst (holdings before)) <= 1)%nat
      /\ (List.length (snd (holdings before)) <= 1)%nat
      /\ (forall f g, In f (fst (holdings before)) -> In g (snd (holdings before)) -> f = g)
      /\ (forall url' kw rest, after = EvGet url' kw :: rest -> holdings before = ([], [])).
Proof.
  intros depth fuel fuel' url m wt limit q w w0 self0 ts res m1 Hw Hinit Hrun before after Hsplit.
  pose proof (init_residency _ _ _ _ _ _ _ _ _ _ Hw Hinit) as Hres.
  pose proof (frame_requests_residency _ _ _ _ _ _ Hres Hrun) as Hfinal.
  destruct (Hfinal before after Hsplit) as [(H1 & H2 & H3) H4].
  repeat split; assumption.
Qed.

End Residency.

(** The sample stream, stitched until the request at 8 seconds runs past
    the last fragment. *)
Lemma one_resident_fragment_witness :
  exists (self0 : Self) (w0 : World) (m1 : Machine),
    __init__ Stream.externals 3 3 Stream.landing_url 3 10 0 3200000 world0
    = (Return self0, w0)
    /\ frame_requests Stream.externals 3 [0; 2.5; 6; 8]%Q (self0, w0) = (Raise IndexError, m1)
    /\ forall before after : list event,
         trace (snd m1) = before ++ after ->
         (List.length (fst (holdings before)) <= 1)%nat
         /\ (List.length (snd (holdings before)) <= 1)%nat
         /\ (forall f g, In f (fst (holdings before)) -> In g (snd (holdings before)) -> f = g)
         /\ (forall url' kw rest, after = EvGet url' kw :: rest -> holdings before = ([], [])).
Proof.
  do 3 eexists. split; [vm_compute; reflexivity|].
  split; [vm_compute; reflexivity|].
  eapply (one_resident_fragment Stream.externals 3 3 3 Stream.landing_url 3 10 0 3200000
            world0) with (ts := [0; 2.5; 6; 8]%Q).
  - reflexivity.
  - vm_compute; reflexivity.
  - vm_compute; reflexivity.
Defined.

(** ** The retry policy of the resolver *)

Section ResolverPolicy.

Variable E : Externals.

Lemma trying_get_refused fuel url kw m wt w (errs : nat -> exception) :
  1 <= m -> 0 <= wt -> (Z.to_nat m <= fuel)%nat ->
  (forall i, (i < Z.to_nat m)%nat ->
             network E (gets w + i) url kw = Fails (errs i) /\ retryable (errs i) = true) ->
  trying_get E fuel url m wt kw w
  = (Raise (errs (Z.to_nat m - 1)%nat),
     mkWorld (gets w + Z.to_nat m) (temps w) (audio_params w)
             (trace w ++ failed_attempts url kw m wt (Z.to_nat m) 0 (Z.to_nat m))).
Proof.
  intros Hm Hwt Hfuel Hnet. set (n := Z.to_nat m) in *.
  assert (Hmn : m = Z.of_nat n) by (unfold n; lia).
  unfold trying_get. rewrite Hmn at 2.
  rewrite (trying_get_loop_exhaust E url kw m wt n (fun g => errs (g - gets w)%nat));
    try assumption; try lia.
  - rewrite Nat.sub_diag.
    replace (gets w + n - 1 - gets w)%nat with (n - 1)%nat by lia. reflexivity.
  - intros i Hi. replace (gets w + i - gets w)%nat with i by lia. apply Hnet. exact Hi.
Qed.

Lemma trying_get_answered fuel url kw m wt w (errs : nat -> exception) k r :
  1 <= m -> Z.of_nat k < m -> 0 <= wt -> (k < fuel)%nat ->
  (forall i, (i < k)%nat ->
             network E (gets w + i) url kw = Fails (errs i) /\ retryable (errs i) = true) ->
  network E (gets w + k) url kw = Responds r ->
  trying_get E fuel url m wt kw w
  = (Return (Some r),
     mkWorld (gets w + k + 1) (temps w) (audio_params w)
             (trace w ++ failed_attempts url kw m wt (Z.to_nat m) 0 k ++ [EvGet url kw])).
Proof.
  intros Hm Hk Hwt Hfuel Hnet Hok. set (n := Z.to_nat m).
  assert (Hmn : m = Z.of_nat n) by (unfold n; lia).
  unfold trying_get. rewrite Hmn at 2.
  rewrite (trying_get_loop_recover E url kw m wt n (fun g => errs (g - gets w)%nat) r
             Hmn Hwt k n); try lia.
  - rewrite Nat.sub_diag. reflexivity.
  - intros i Hi. replace (gets w + i - gets w)%nat with i by lia. apply Hnet. exact Hi.
  - exact Hok.
Qed.

Lemma get_manifest_landing depth fuel sm sw url q m wt w (errs : nat -> exception)
      k r cookie id :
  contains "/Manifest" url = false ->
  contains "/manifest" url = false ->
  (k < 10)%nat -> (k < fuel)%nat ->
  refuses E url NoKwargs (gets w) k errs ->
  network E (gets w + k) url NoKwargs = Responds r ->
  session_cookie r = Some cookie ->
  get_video_id E r = Return id ->
  get_manifest E (S depth) fuel sm sw url q m wt w
  = (r2 <- trying_get E fuel (api_url id) m wt (api_kwargs cookie r) ;;
     content <- attr r2 resp_content ;;
     url' <- lift_res (master_playlist_url E content) ;;
     get_manifest E depth fuel sm sw url' q m wt)
      (answered url NoKwargs MAX_ATTEMPTS WAIT k w).
Proof.
  intros HM Hm Hk Hfuel Hnet Hok Hcookie Hid.
  cbn [get_manifest]. rewrite HM, Hm.
  unfold bind at 1.
  rewrite (trying_get_answered fuel url NoKwargs MAX_ATTEMPTS WAIT w errs k r);
    try assumption; unfold MAX_ATTEMPTS, WAIT; try lia.
  unfold bind at 1, subscript at 1. unfold session_cookie in Hcookie. rewrite Hcookie.
  unfold ret at 1. unfold bind at 1, lift_res at 1. rewrite Hid.
  reflexivity.
Qed.

(** C8: resolving a landing page (a URL without [/Manifest] and without
    [/manifest]).  (1) When every request for the page is refused, the
    resolver gives up after exactly 10 requests with pauses of 10
    seconds, whatever [max_attempts] and [wait] the caller passed.
    (2) When the page is answered after [k < 10] refusals (each followed
    by a pause of 10 seconds) and every API request is refused, the
    resolver gives up on the API after exactly [max_attempts] requests
    with pauses of [wait] seconds.  (3) When page and API are answered at
    once and the API points to a quality-listing manifest whose requests
    are all refused, the constructor gives up on the manifest after
    exactly [max_attempts] requests with pauses of [wait] seconds. *)
Theorem landing_page_policy :
  forall (depth fuel : nat) (url : string) (quality max_attempts wait : Z) (w : World),
    contains "/Manifest" url = false ->
    contains "/manifest" url = false ->
    (MAX_ATTEMPTS = 10 /\ WAIT = 10)
    /\ (forall (sm sw : Z) (errs : nat -> exception),
           (10 <= fuel)%nat ->
           refuses E url NoKwargs (gets w) 10 errs ->
           get_manifest E (S depth) fuel sm sw url quality max_attempts wait w
           = (Raise (errs 9%nat), gave_up url NoKwargs MAX_ATTEMPTS WAIT w))
    /\ (forall (sm sw : Z) (errs errs' : nat -> exception) (k : nat) (r : Response)
               (cookie : Cookie) (id : string),
           (k < 10)%nat -> (k < fuel)%nat ->
           refuses E url NoKwargs (gets w) k errs ->
           network E (gets w + k) url NoKwargs = Responds r ->
           session_cookie r = Some cookie ->
           get_video_id E r = Return id ->
           1 <= max_attempts -> 0 <= wait -> (Z.to_nat max_attempts <= fuel)%nat ->
           refuses E (api_url id) (api_kwargs cookie r) (gets w + k + 1)
                   (Z.to_nat max_attempts) errs' ->
           get_manifest E (S depth) fuel sm sw url quality max_attempts wait w
           = (Raise (errs' (Z.to_nat max_attempts - 1)%nat),
              gave_up (api_url id) (api_kwargs cookie r) max_attempts wait
                      (answered url NoKwargs MAX_ATTEMPTS WAIT k w)))
    /\ (forall (limit : Q) (errs : nat -> exception) (r r2 : Response)
               (cookie : Cookie) (id master : string),
           network E (gets w) url NoKwargs = Responds r ->
           session_cookie r = Some cookie ->
           get_video_id E r = Return id ->
           network E (gets w + 1) (api_url id) (api_kwargs cookie r) = Responds r2 ->
           master_playlist_url E (resp_content r2) = Return master ->
           contains "/Manifest" master = false ->
           contains "/manifest" master = true ->
           1 <= max_attempts -> 0 <= wait -> (Z.to_nat max_attempts <= fuel)%nat ->
           refuses E master NoKwargs (gets w + 2) (Z.to_nat max_attempts) errs ->
           __init__ E (S (S depth)) fuel url max_attempts wait limit quality w
           = (Raise (errs (Z.to_nat max_attempts - 1)%nat),
              gave_up master NoKwargs max_attempts wait
                      (answered (api_url id) (api_kwargs cookie r) max_attempts wait 0
                                (answered url NoKwargs MAX_ATTEMPTS WAIT 0 w)))).
Proof.
  intros depth fuel url q m wt w HM Hm. split; [split; reflexivity|]. split; [|split].
  - intros sm sw errs Hfuel Hnet.
    cbn [get_manifest]. rewrite HM, Hm. unfold bind at 1.
    rewrite (trying_get_refused fuel url NoKwargs MAX_ATTEMPTS WAIT w errs);
      [reflexivity | unfold MAX_ATTEMPTS; lia | unfold WAIT; lia
       | unfold MAX_ATTEMPTS; simpl; lia | exact Hnet].
  - intros sm sw errs errs' k r cookie id Hk Hkf Hnet Hok Hcookie Hid Hm1 Hwt Hfuel Hapi.
    rewrite (get_manifest_landing depth fuel sm sw url q m wt w errs k r cookie id)
      by assumption.
    unfold bind at 1.
    rewrite (trying_get_refused fuel (api_url id) (api_kwargs cookie r) m wt
               (answered url NoKwargs MAX_ATTEMPTS WAIT k w) errs');
      try assumption.
    reflexivity.
  - intros limit errs r r2 cookie id master Hok Hcookie Hid Hok2 Hmaster HM' Hm' Hm1 Hwt
           Hfuel Hnet.
    assert (Hfuel0 : (0 < fuel)%nat) by lia.
    assert (Hnone : refuses E url NoKwargs (gets w) 0 (fun _ => IndexError))
      by (intros i Hi; lia).
    assert (Hok' : network E (gets w + 0) url NoKwargs = Responds r)
      by (rewrite Nat.add_0_r; exact Hok).
    unfold __init__. unfold bind at 1.
    rewrite (get_manifest_landing (S depth) fuel m wt url q m wt w (fun _ => IndexError)
               0 r cookie id HM Hm ltac:(lia) Hfuel0 Hnone Hok' Hcookie Hid).
    unfold bind at 1.
    assert (Hnone2 : forall i, (i < 0)%nat ->
               network E (gets (answered url NoKwargs MAX_ATTEMPTS WAIT 0 w) + i)
                       (api_url id) (api_kwargs cookie r)
               = Fails IndexError /\ retryable IndexError = true)
      by (intros i Hi; lia).
    assert (Hok2' : network E (gets (answered url NoKwargs MAX_ATTEMPTS WAIT 0 w) + 0)
                            (api_url id) (api_kwargs cookie r) = Responds r2).
    { cbn [answered gets]. replace (gets w + 0 + 1 + 0)%nat with (gets w + 1)%nat by lia.
      exact Hok2. }
    rewrite (trying_get_answered fuel (api_url id) (api_kwargs cookie r) m wt
               (answered url NoKwargs MAX_ATTEMPTS WAIT 0 w) (fun _ => IndexError) 0 r2
               Hm1 ltac:(lia) Hwt Hfuel0 Hnone2 Hok2').
    cbn [attr]. unfold bind at 1, ret at 1. unfold bind at 1, lift_res at 1.
    rewrite Hmaster. cbn [get_manifest]. rewrite HM', Hm'.
    unfold get_quality. unfold bind at 1.
    fold (answered (api_url id) (api_kwargs cookie r) m wt 0
                   (answered url NoKwargs MAX_ATTEMPTS WAIT 0 w)).
    assert (Hnet' : forall i, (i < Z.to_nat m)%nat ->
               network E (gets (answered (api_url id) (api_kwargs cookie r) m wt 0
                                         (answered url NoKwargs MAX_ATTEMPTS WAIT 0 w)) + i)
                       master NoKwargs
               = Fails (errs i) /\ retryable (errs i) = true).
    { intros i Hi. cbn [answered gets].
      replace (gets w + 0 + 1 + 0 + 1 + i)%nat with (gets w + 2 + i)%nat by lia.
      apply Hnet. exact Hi. }
    rewrite (trying_get_refused fuel master NoKwargs m wt _ errs Hm1 Hwt Hfuel Hnet').
    reflexivity.
Qed.

End ResolverPolicy.

(** The landing page of the sample stream with a caller's policy of 3
    attempts and 5 seconds: a dead network; a network that answers the
    third request only; a network that answers the first two requests
    only. *)
Lemma landing_page_policy_witness :
  get_manifest (Sample.externals (Sample.outage [])) 1 10 3 5 Stream.landing_url
               3200000 3 5 world0
  = (Raise (Sample.refusal 9), gave_up Stream.landing_url NoKwargs 10 10 world0)
  /\ get_manifest (Sample.externals (Sample.outage [(2%nat, Stream.landing)])) 1 10 3 5
                  Stream.landing_url 3200000 3 5 world0
     = (Raise (Sample.refusal 5),
        gave_up (api_url "7000000000000000000")
                (api_kwargs (mkCookie "JSESSIONID" "ajax:0123456789") Stream.landing) 3 5
                (answered Stream.landing_url NoKwargs 10 10 2 world0))
  /\ __init__ (Sample.externals (Sample.outage [(0%nat, Stream.landing); (1%nat, Stream.api)]))
              2 10 Stream.landing_url 3 5 0 3200000 world0
     = (Raise (Sample.refusal 4),
        gave_up Stream.master_url NoKwargs 3 5
                (answered (api_url "7000000000000000000")
                          (api_kwargs (mkCookie "JSESSIONID" "ajax:0123456789") Stream.landing)
                          3 5 0
                          (answered Stream.landing_url NoKwargs 10 10 0 world0))).
Proof.
  split; [|split].
  - apply (proj1 (proj2 (landing_page_policy (Sample.externals (Sample.outage [])) 0 10
                           Stream.landing_url 3200000 3 5 world0 eq_refl eq_refl))
                 3 5 Sample.refusal).
    + lia.
    + intros i Hi. split; reflexivity.
  - apply (proj1 (proj2 (proj2 (landing_page_policy
                           (Sample.externals (Sample.outage [(2%nat, Stream.landing)])) 0 10
                           Stream.landing_url 3200000 3 5 world0 eq_refl eq_refl)))
                 3 5 Sample.refusal (fun i => Sample.refusal (3 + i)) 2%nat Stream.landing
                 (mkCookie "JSESSIONID" "ajax:0123456789") "7000000000000000000").
    + lia.
    + lia.
    + intros i Hi. destruct i as [|[|i]]; [split; reflexivity | split; reflexivity | lia].
    + reflexivity.
    + reflexivity.
    + reflexivity.
    + lia.
    + lia.
    + simpl; lia.
    + intros i Hi. destruct i as [|[|[|i]]]; [split; reflexivity .. | simpl in Hi; lia].
  - apply (proj2 (proj2 (proj2 (landing_page_policy
                           (Sample.externals
                              (Sample.outage [(0%nat, Stream.landing); (1%nat, Stream.api)]))
                           0 10 Stream.landing_url 3200000 3 5 world0 eq_refl eq_refl)))
                 0%Q (fun i => Sample.refusal (2 + i)) Stream.landing Stream.api
                 (mkCookie "JSESSIONID" "ajax:0123456789") "7000000000000000000"
                 Stream.master_url).
    + reflexivity.
    + reflexivity.
    + reflexivity.
    + reflexivity.
    + reflexivity.
    + reflexivity.
    + reflexivity.
    + lia.
    + lia.
    + simpl; lia.
    + intros i Hi. destruct i as [|[|[|i]]]; [split; reflexivity .. | simpl in Hi; lia].
Defined.

(** ** The quality selector *)

Section NumberText.

Lemma is_digit_cases (c : ascii) :
  is_digit c = true ->
  is_space c = false
  /\ Ascii.eqb c "-" = false /\ Ascii.eqb c "+" = false /\ Ascii.eqb c "_" = false
  /\ Ascii.eqb c ")" = false /\ Ascii.eqb c "Q" = false /\ Ascii.eqb c backslash = false.
Proof.
  destruct c as [[] [] [] [] [] [] [] []]; vm_compute; intros H;
    try discriminate H; repeat split.
Qed.

Lemma numeral_char_cases (c : ascii) :
  numeral_char c = true ->
  is_space c = false
  /\ Ascii.eqb c ")" = false /\ Ascii.eqb c "Q" = false /\ Ascii.eqb c backslash = false.
Proof.
  destruct c as [[] [] [] [] [] [] [] []]; vm_compute; intros H;
    try discriminate H; repeat split.
Qed.

Lemma digits_string_of_uint (d : Decimal.uint) :
  all_chars is_digit (NilEmpty.string_of_uint d) = true.
Proof. induction d; cbn [NilEmpty.string_of_uint all_chars]; try rewrite IHd; reflexivity. Qed.

Lemma digits_numeral (s : string) :
  all_chars is_digit s = true -> all_chars numeral_char s = true.
Proof.
  induction s as [|c s IH]; cbn [all_chars]; [reflexivity|].
  intros H. apply andb_true_iff in H. destruct H as [Hc Hs].
  unfold numeral_char at 1. rewrite Hc, (IH Hs). reflexivity.
Qed.

Lemma literal_digits_digits (s : string) (b : bool) :
  all_chars is_digit s = true -> s <> EmptyString -> literal_digits b s = Some s.
Proof.
  revert b. induction s as [|c s IH]; intros b Hall Hne; [contradiction|].
  cbn [all_chars] in Hall. apply andb_true_iff in Hall. destruct Hall as [Hc Hs].
  cbn [literal_digits]. rewrite Hc.
  destruct s as [|c' s'].
  - reflexivity.
  - rewrite (IH true Hs) by discriminate. reflexivity.
Qed.

Lemma lstrip_no_space (s : string) :
  all_chars (fun c => negb (is_space c)) s = true -> lstrip s = s.
Proof.
  destruct s as [|c s]; [reflexivity|]. cbn [all_chars lstrip].
  intros H. apply andb_true_iff in H. destruct H as [Hc _].
  apply negb_true_iff in Hc. rewrite Hc. reflexivity.
Qed.

Lemma rstrip_no_space (s : string) :
  all_chars (fun c => negb (is_space c)) s = true -> rstrip s = s.
Proof.
  induction s as [|c s IH]; [reflexivity|]. cbn [all_chars rstrip].
  intros H. apply andb_true_iff in H. destruct H as [Hc Hs].
  apply negb_true_iff in Hc. rewrite (IH Hs), Hc. destruct s; reflexivity.
Qed.

Lemma all_chars_impl (p q : ascii -> bool) (s : string) :
  (forall c, p c = true -> q c = true) -> all_chars p s = true -> all_chars q s = true.
Proof.
  intros Hpq. induction s as [|c s IH]; cbn [all_chars]; [reflexivity|].
  intros H. apply andb_true_iff in H. destruct H as [Hc Hs].
  rewrite (Hpq c Hc), (IH Hs). reflexivity.
Qed.

Lemma numeral_no_space (s : string) :
  all_chars numeral_char s = true -> strip s = s.
Proof.
  intros H.
  assert (Hs : all_chars (fun c => negb (is_space c)) s = true).
  { revert H. apply all_chars_impl. intros c Hc.
    destruct (numeral_char_cases c Hc) as [-> _]. reflexivity. }
  unfold strip. rewrite (lstrip_no_space s Hs). apply rstrip_no_space. exact Hs.
Qed.

Lemma string_of_uint_nonempty (d : Decimal.uint) :
  d <> Decimal.Nil -> NilEmpty.string_of_uint d <> EmptyString.
Proof. destruct d; intros H; try discriminate; contradiction. Qed.

Lemma unsigned_literal_uint (p : positive) :
  unsigned_literal (NilEmpty.string_of_uint (Pos.to_uint p)) = Some (Z.pos p).
Proof.
  unfold unsigned_literal.
  rewrite literal_digits_digits.
  - rewrite NilEmpty.usu. cbn [option_map]. f_equal.
    unfold Z.of_uint. rewrite DecimalPos.Unsigned.of_to. reflexivity.
  - apply digits_string_of_uint.
  - apply string_of_uint_nonempty. apply DecimalPos.Unsigned.to_uint_nonnil.
Qed.

Lemma py_str_chars (n : Z) : all_chars numeral_char (py_str n) = true.
Proof.
  unfold py_str. destruct n as [|p|p]; [reflexivity| |].
  - cbn [Z.to_int NilZero.string_of_int]. unfold NilZero.string_of_uint.
    destruct (Pos.to_uint p) eqn:Hp; try reflexivity;
      rewrite <- Hp; apply digits_numeral, digits_string_of_uint.
  - cbn [Z.to_int NilZero.string_of_int]. cbn [all_chars]. unfold NilZero.string_of_uint.
    destruct (Pos.to_uint p) eqn:Hp; try reflexivity;
      rewrite <- Hp; apply digits_numeral, digits_string_of_uint.
Qed.

Lemma string_of_uint_pos (p : positive) :
  NilZero.string_of_uint (Pos.to_uint p) = NilEmpty.string_of_uint (Pos.to_uint p).
Proof.
  unfold NilZero.string_of_uint.
  destruct (Pos.to_uint p) eqn:Hp; try reflexivity.
  exfalso. exact (DecimalPos.Unsigned.to_uint_nonnil p Hp).
Qed.

(** [int(str(n)) == n] *)
Lemma py_int_str (n : Z) : py_int (py_str n) = Some n.
Proof.
  unfold py_int. rewrite (numeral_no_space _ (py_str_chars n)).
  unfold py_str. destruct n as [|p|p]; [reflexivity| |].
  - cbn [Z.to_int NilZero.string_of_int]. rewrite string_of_uint_pos.
    pose proof (digits_string_of_uint (Pos.to_uint p)) as Hd.
    pose proof (unsigned_literal_uint p) as Hu.
    destruct (NilEmpty.string_of_uint (Pos.to_uint p)) as [|c s] eqn:Hs.
    + exfalso. revert Hs. apply string_of_uint_nonempty.
      apply DecimalPos.Unsigned.to_uint_nonnil.
    + cbn [all_chars] in Hd. apply andb_true_iff in Hd. destruct Hd as [Hc _].
      destruct (is_digit_cases c Hc) as (_ & -> & -> & _). exact Hu.
  - cbn [Z.to_int NilZero.string_of_int]. rewrite string_of_uint_pos.
    change (Ascii.eqb "-" "-") with true. cbn iota.
    rewrite unsigned_literal_uint. reflexivity.
Qed.

Lemma py_str_inj (a b : Z) : py_str a = py_str b -> a = b.
Proof.
  intros H. pose proof (py_int_str a) as Ha. rewrite H, py_int_str in Ha.
  injection Ha as ->. reflexivity.
Qed.

End NumberText.

Section QualitySelector.

Variable E : Externals.

Lemma prefix_app_same (a b c : string) :
  String.prefix (a ++ b) (a ++ c) = String.prefix b c.
Proof.
  induction a as [|x a IH]; [reflexivity|].
  cbn [String.append String.prefix]. destruct (ascii_dec x x) as [_|Hne];
    [exact IH | contradiction].
Qed.

Lemma has_char_app (c : ascii) (a b : string) :
  has_char c (a ++ b) = has_char c a || has_char c b.
Proof.
  induction a as [|x a IH]; [reflexivity|].
  cbn [String.append has_char]. rewrite IH. apply orb_assoc.
Qed.

Lemma numeral_no_backslash (s : string) :
  all_chars numeral_char s = true -> has_char backslash s = false.
Proof.
  induction s as [|c s IH]; [reflexivity|]. cbn [all_chars has_char].
  intros H. apply andb_true_iff in H. destruct H as [Hc Hs].
  destruct (numeral_char_cases c Hc) as (_ & _ & _ & ->). exact (IH Hs).
Qed.

Lemma re_sub_quality_numeral (s tail : string) :
  all_chars numeral_char s = true ->
  re_sub_quality_from 0 (s ++ ")" ++ tail) = s.
Proof.
  induction s as [|c s IH]; intros H.
  - reflexivity.
  - cbn [all_chars] in H. apply andb_true_iff in H. destruct H as [Hc Hs].
    destruct (numeral_char_cases c Hc) as (_ & Hparen & HQ & _).
    cbn [String.append re_sub_quality_from String.prefix].
    destruct (ascii_dec "Q" c) as [<-|_]; [discriminate HQ|].
    rewrite Hparen. change (String ")" tail) with (")" ++ tail)%string. rewrite (IH Hs).
    reflexivity.
Qed.

Lemma prefix_app (a tail : string) : String.prefix a (a ++ tail) = true.
Proof.
  induction a as [|x a IH]; [destruct tail; reflexivity|].
  cbn [String.append String.prefix]. destruct (ascii_dec x x) as [_|Hne];
    [exact IH | contradiction].
Qed.

Lemma re_sub_quality_entry (n : Z) (rest : string) :
  re_sub_quality (quality_entry n rest) = py_str n.
Proof.
  unfold re_sub_quality, quality_entry.
  pose proof (prefix_app "QualityLevels(" (py_str n ++ ")/Manifest" ++ rest)) as Hp.
  set (tail := (py_str n ++ ")/Manifest" ++ rest)%string) in *.
  change ("QualityLevels(" ++ tail)%string
    with (String "Q" (String "u" (String "a" (String "l" (String "i" (String "t"
           (String "y" (String "L" (String "e" (String "v" (String "e" (String "l"
           (String "s" (String "(" tail)))))))))))))) in *.
  unfold re_sub_quality_from at 1. rewrite Hp. fold re_sub_quality_from.
  cbn [re_sub_quality_from].
  unfold tail. change (")/Manifest" ++ rest)%string with (")" ++ ("/Manifest" ++ rest))%string.
  apply re_sub_quality_numeral. apply py_str_chars.
Qed.

Lemma startswith_entry (n : Z) (rest : string) :
  startswith (quality_entry n rest) "QualityLevels" = true.
Proof.
  unfold startswith, quality_entry.
  change ("QualityLevels(" ++ py_str n ++ ")/Manifest" ++ rest)%string
    with ("QualityLevels" ++ ("(" ++ py_str n ++ ")/Manifest" ++ rest))%string.
  apply prefix_app.
Qed.

Lemma numeral_prefix (a b x y : string) :
  all_chars numeral_char a = true ->
  all_chars numeral_char b = true ->
  String.prefix (a ++ String ")" x) (b ++ String ")" y) = true ->
  a = b.
Proof.
  revert b. induction a as [|c a IH]; intros [|d b] Ha Hb H.
  - reflexivity.
  - exfalso. cbn [String.append String.prefix] in H.
    cbn [all_chars] in Hb. apply andb_true_iff in Hb. destruct Hb as [Hd _].
    destruct (numeral_char_cases d Hd) as (_ & Hparen & _).
    destruct (ascii_dec ")" d) as [<-|_]; discriminate.
  - exfalso. cbn [String.append String.prefix] in H.
    cbn [all_chars] in Ha. apply andb_true_iff in Ha. destruct Ha as [Hc _].
    destruct (numeral_char_cases c Hc) as (_ & Hparen & _).
    destruct (ascii_dec c ")") as [->|_]; discriminate.
  - cbn [String.append String.prefix] in H.
    cbn [all_chars] in Ha, Hb.
    apply andb_true_iff in Ha. destruct Ha as [_ Ha].
    apply andb_true_iff in Hb. destruct Hb as [_ Hb].
    destruct (ascii_dec c d) as [->|_]; [|discriminate].
    f_equal. exact (IH b Ha Hb H).
Qed.

Lemma startswith_entry_quality (n q : Z) (rest : string) :
  startswith (quality_entry n rest) ("QualityLevels(" ++ py_str q ++ ")/Manifest")
  = (n =? q).
Proof.
  unfold startswith, quality_entry.
  rewrite prefix_app_same.
  destruct (Z.eqb_spec n q) as [->|Hne].
  - rewrite prefix_app_same. apply (prefix_app ")/Manifest" rest).
  - destruct (String.prefix (py_str q ++ ")/Manifest") (py_str n ++ ")/Manifest" ++ rest))
      eqn:Hp; [exfalso | reflexivity].
    apply Hne. apply py_str_inj. symmetry.
    exact (numeral_prefix _ _ _ _ (py_str_chars q) (py_str_chars n) Hp).
Qed.

Lemma re_sub_last_segment_entry (url : string) (n : Z) (rest : string) :
  has_char backslash rest = false ->
  re_sub_last_segment E ("/" ++ quality_entry n rest) url
  = Return (with_last_segment url (quality_entry n rest)).
Proof.
  intros Hrest. unfold re_sub_last_segment, compile_repl, with_last_segment.
  assert (Hb : has_char backslash ("/" ++ quality_entry n rest) = false).
  { unfold quality_entry. rewrite !has_char_app, Hrest.
    rewrite (numeral_no_backslash _ (py_str_chars n)). reflexivity. }
  rewrite Hb. destruct (last_segment url) as [[base seg]|]; reflexivity.
Qed.







Lemma find_entry_In (q : Z) (items : list manifest_line) (rest : string) :
  find_entry q items = Some rest -> In (Entry q rest) items.
Proof.
  induction items as [|item items IH]; cbn [find_entry In]; [discriminate|].
  destruct item as [n rest0|line].
  - destruct (Z.eqb_spec n q) as [->|Hne].
    + intros [= ->]. left. reflexivity.
    + intros H. right. exact (IH H).
  - intros H. right. exact (IH H).
Qed.








End QualitySelector.



Example quality_message_sample :
  quality_message [1200000; 5000000; 3200000]
  = ("Incorrect quality level. The available quality levels are:"
       ++ String newline "  1200000"
       ++ String newline "  3200000"
       ++ String newline "  5000000")%string.
Proof. vm_compute. reflexivity. Qed.

(** * More properties of the code *)

(** ** The retrying transport, whatever the network does *)

Section TransportEdges.

Variable E : Externals.



(** X2: a negative [wait] turns the first refused connection into a
    [ValueError].  After the first failed attempt and its warning,
    [time.sleep] refuses the negative length: exactly one request has
    gone out, and the connection error is lost.  Only with
    [max_attempts = 1], where no pause is due, the connection error
    itself is raised. *)
Theorem trying_get_negative_wait :
  forall (fuel : nat) (url : string) (kw : kwargs) (max_attempts wait : Z)
         (w : World) (e : exception),
    wait < 0 ->
    max_attempts <> 0 ->
    (1 <= fuel)%nat ->
    network E (gets w) url kw = Fails e ->
    retryable e = true ->
    trying_get E fuel url max_attempts wait kw w
    = (Raise (if max_attempts =? 1 then e else ValueError),
       mkWorld (S (gets w)) (temps w) (audio_params w)
               (trace w ++ [EvGet url kw; EvWarning url 1 max_attempts wait])).
Proof.
  intros fuel url kw m wt w e Hwt Hm Hfuel Hnet Hretry.
  destruct fuel as [|fuel]; [lia|].
  unfold trying_get. cbn [trying_get_loop].
  destruct (Z.eqb_spec m 0) as [Hz|_]; [contradiction|].
  unfold bind at 1, requests_get at 1. rewrite Hnet, Hretry.
  unfold bind at 1, emit at 1. cbn [gets temps audio_params trace].
  replace (m - (m - 1)) with 1 by lia.
  rewrite <- app_assoc. cbn [app].
  destruct (Z.eqb_spec (m - 1) 0) as [H1|H1].
  - destruct (Z.eqb_spec m 1) as [_|Hne]; [reflexivity | lia].
  - destruct (Z.eqb_spec m 1) as [Heq|_]; [lia|].
    unfold bind at 1, sleep at 1.
    destruct (Z.ltb_spec wt 0) as [_|Hge]; [reflexivity | lia].
Qed.

Lemma trying_get_loop_forever url kw m wt :
  0 <= wt ->
  (forall g, exists e, network E g url kw = Fails e /\ retryable e = true) ->
  forall fuel a w res w', a < 0 ->
    trying_get_loop E fuel url m wt kw a w = (res, w') ->
    res = Unfinished
    /\ gets w' = (gets w + fuel)%nat
    /\ count_sleeps (trace w') = (count_sleeps (trace w) + fuel)%nat.
Proof.
  intros Hwt Hnet. induction fuel as [|fuel IH]; intros a w res w' Ha H.
  - cbn [trying_get_loop] in H. destruct (Z.eqb_spec a 0); [lia|].
    unfold unfinished in H. injection H as <- <-. repeat split; lia.
  - cbn [trying_get_loop] in H. destruct (Z.eqb_spec a 0); [lia|].
    unfold bind at 1, requests_get at 1 in H.
    destruct (Hnet (gets w)) as [e [Hrep Hretry]]. rewrite Hrep, Hretry in H.
    unfold bind at 1, emit at 1 in H.
    destruct (Z.eqb_spec (a - 1) 0); [lia|].
    unfold bind at 1 in H. rewrite sleep_nonneg in H by assumption.
    cbn [gets temps audio_params trace] in H.
    apply IH in H; [|lia]. cbn [gets trace] in H.
    destruct H as (H1 & H2 & H3). split; [exact H1|]. split; [lia|].
    rewrite H3. unfold count_sleeps. rewrite !filter_app, !length_app. cbn. lia.
Qed.

(** X3: with a negative [max_attempts] the counter of attempts never
    reaches zero.  As long as every connection is refused, [trying_get]
    neither returns nor raises: whatever bound is put on the number of
    iterations, it is still running after that many requests and that
    many pauses. *)
Theorem trying_get_never_gives_up :
  forall (url : string) (kw : kwargs) (max_attempts wait : Z) (w : World),
    max_attempts < 0 ->
    0 <= wait ->
    (forall g, exists e, network E g url kw = Fails e /\ retryable e = true) ->
    forall fuel : nat,
      fst (trying_get E fuel url max_attempts wait kw w) = Unfinished
      /\ gets (snd (trying_get E fuel url max_attempts wait kw w)) = (gets w + fuel)%nat
      /\ count_sleeps (trace (snd (trying_get E fuel url max_attempts wait kw w)))
         = (count_sleeps (trace w) + fuel)%nat.
Proof.
  intros url kw m wt w Hm Hwt Hnet fuel. unfold trying_get.
  destruct (trying_get_loop E fuel url m wt kw m w) as [res w'] eqn:H.
  cbn [fst snd]. exact (trying_get_loop_forever url kw m wt Hwt Hnet fuel m w res w' Hm H).
Qed.

Lemma trying_get_loop_bounded url m wt kw :
  forall fuel a w res w',
    0 <= a -> (Z.to_nat a <= fuel)%nat ->
    trying_get_loop E fuel url m wt kw a w = (res, w') ->
    res <> Unfinished
    /\ (res = Return None <-> a = 0)
    /\ exists effects,
         trace w' = trace w ++ effects
         /\ gets w' = (gets w + count_gets effects)%nat
         /\ (count_gets effects <= Z.to_nat a)%nat
         /\ (a <> 0 -> (1 <= count_gets effects)%nat)
         /\ (count_sleeps effects <= count_gets effects - 1)%nat
         /\ Forall (fun e => is_get e = true -> e = EvGet url kw) effects.
Proof.
  induction fuel as [|fuel IH]; intros a w res w' Ha Hfuel H; cbn [trying_get_loop] in H.
  - destruct (Z.eqb_spec a 0) as [Hz|Hz]; [|lia].
    unfold ret in H. injection H as <- <-.
    split; [discriminate|]. split; [tauto|].
    exists []. rewrite app_nil_r. cbn. repeat split; try lia. constructor.
  - destruct (Z.eqb_spec a 0) as [Hz|Hz].
    + unfold ret in H. injection H as <- <-.
      split; [discriminate|]. split; [tauto|].
      exists []. rewrite app_nil_r. cbn. repeat split; try lia. constructor.
    + unfold bind at 1, requests_get at 1 in H.
      destruct (network E (gets w) url kw) as [resp|e] eqn:Hnet.
      * unfold ret in H. injection H as <- <-. cbn [gets temps audio_params trace].
        split; [discriminate|]. split; [split; [discriminate | contradiction]|].
        exists [EvGet url kw]. cbn. repeat split; try lia. repeat constructor.
      * destruct (retryable e).
        -- unfold bind at 1, emit at 1 in H. cbn [gets temps audio_params trace] in H.
           destruct (Z.eqb_spec (a - 1) 0) as [H1|H1].
           ++ unfold raise in H. injection H as <- <-. cbn [gets temps audio_params trace].
              split; [discriminate|]. split; [split; [discriminate | contradiction]|].
              exists [EvGet url kw; EvWarning url (m - (a - 1)) m wt].
              rewrite <- app_assoc. cbn. repeat split; try lia.
              repeat constructor; discriminate.
           ++ unfold bind at 1, sleep at 1 in H.
              destruct (wt <? 0).
              ** unfold raise in H. injection H as <- <-. cbn [gets temps audio_params trace].
                 split; [discriminate|]. split; [split; [discriminate | contradiction]|].
                 exists [EvGet url kw; EvWarning url (m - (a - 1)) m wt].
                 rewrite <- app_assoc. cbn. repeat split; try lia.
                 repeat constructor; discriminate.
              ** unfold emit at 1 in H. cbn [gets temps audio_params trace] in H.
                 apply IH in H; [|lia|lia]. cbn [gets temps audio_params trace] in H.
                 destruct H as (Hu & Hnone & effects & Htr & Hg & Hle & Hpos & Hsl & Hall).
                 specialize (Hpos H1).
                 split; [exact Hu|].
                 split; [split; [intros Hr; apply Hnone in Hr; lia | contradiction]|].
                 exists ([EvGet url kw; EvWarning url (m - (a - 1)) m wt; EvSleep wt] ++ effects).
                 split; [rewrite Htr, <- !app_assoc; reflexivity|].
                 unfold count_gets, count_sleeps in *.
                 rewrite !filter_app, !length_app. cbn [filter is_get is_sleep List.length].
                 repeat split; try lia.
                 repeat constructor; try discriminate. exact Hall.
        -- unfold raise in H. injection H as <- <-. cbn [gets temps audio_params trace].
           split; [discriminate|]. split; [split; [discriminate | contradiction]|].
           exists [EvGet url kw]. cbn. repeat split; try lia. repeat constructor.
Qed.

(** X4: whatever the network does, a call of [trying_get] with
    [max_attempts >= 0] comes to an end, issues no more than
    [max_attempts] requests, all of them for the same URL with the same
    keyword arguments, pauses fewer times than it issues requests, and
    returns [None] exactly when [max_attempts] is 0. *)
Theorem trying_get_bounded :
  forall (fuel : nat) (url : string) (kw : kwargs) (max_attempts wait : Z)
         (w w' : World) (res : Res (option Response)),
    0 <= max_attempts ->
    (Z.to_nat max_attempts <= fuel)%nat ->
    trying_get E fuel url max_attempts wait kw w = (res, w') ->
    res <> Unfinished
    /\ (res = Return None <-> max_attempts = 0)
    /\ exists effects,
         trace w' = trace w ++ effects
         /\ gets w' = (gets w + count_gets effects)%nat
         /\ (count_gets effects <= Z.to_nat max_attempts)%nat
         /\ (count_sleeps effects <= count_gets effects - 1)%nat
         /\ Forall (fun e => is_get e = true -> e = EvGet url kw) effects.
Proof.
  intros fuel url kw m wt w w' res Hm Hfuel H. unfold trying_get in H.
  apply trying_get_loop_bounded in H; try assumption.
  destruct H as (Hu & Hnone & effects & Htr & Hg & Hle & _ & Hsl & Hall).
  split; [exact Hu|]. split; [exact Hnone|].
  exists effects. repeat split; assumption.
Qed.

End TransportEdges.


(** A network that is down and a pause of -1 seconds. *)
Lemma trying_get_negative_wait_witness :
  trying_get (Sample.externals Sample.down) 3 "https://host/a" 3 (-1) NoKwargs world0
  = (Raise ValueError,
     mkWorld 1 0 None [EvGet "https://host/a" NoKwargs; EvWarning "https://host/a" 1 3 (-1)]).
Proof.
  apply (trying_get_negative_wait (Sample.externals Sample.down) 3 "https://host/a" NoKwargs
           3 (-1) world0 (Sample.refusal 0)
           ltac:(lia) ltac:(lia) ltac:(lia) eq_refl eq_refl).
Defined.

(** A network that is down and [max_attempts = -1], followed for five
    iterations. *)
Lemma trying_get_never_gives_up_witness :
  fst (trying_get (Sample.externals Sample.down) 5 "https://host/a" (-1) 10 NoKwargs world0)
  = Unfinished
  /\ gets (snd (trying_get (Sample.externals Sample.down) 5 "https://host/a" (-1) 10
                           NoKwargs world0)) = (0 + 5)%nat
  /\ count_sleeps (trace (snd (trying_get (Sample.externals Sample.down) 5 "https://host/a"
                                          (-1) 10 NoKwargs world0)))
     = (count_sleeps [] + 5)%nat.
Proof.
  apply (trying_get_never_gives_up (Sample.externals Sample.down) "https://host/a" NoKwargs
           (-1) 10 world0 ltac:(lia) ltac:(lia)).
  intros g. exists (Sample.refusal g). split; reflexivity.
Defined.

(** A network that answers the third request, and three attempts. *)
Lemma trying_get_bounded_witness :
  let out := trying_get (Sample.externals (Sample.flaky 2 (Sample.page "https://host/a" "hello")))
                        3 "https://host/a" 3 10 NoKwargs world0 in
  fst out <> Unfinished
  /\ (fst out = Return None <-> 3 = 0)
  /\ exists effects,
       trace (snd out) = trace world0 ++ effects
       /\ gets (snd out) = (gets world0 + count_gets effects)%nat
       /\ (count_gets effects <= Z.to_nat 3)%nat
       /\ (count_sleeps effects <= count_gets effects - 1)%nat
       /\ Forall (fun e => is_get e = true -> e = EvGet "https://host/a" NoKwargs) effects.
Proof.
  intros out.
  apply (trying_get_bounded
           (Sample.externals (Sample.flaky 2 (Sample.page "https://host/a" "hello")))
           3 "https://host/a" NoKwargs 3 10 world0 (snd out) (fst out)
           ltac:(lia) ltac:(simpl; lia)).
  vm_compute. reflexivity.
Defined.

(** ** The identifier of a post *)

Example re_sub_post_url_post :
  re_sub_post_url "https://www.linkedin.com/feed/update/urn:li:ugcPost:7000000000000000000/?x=1"
  = "7000000000000000000".
Proof. reflexivity. Qed.

Example re_sub_post_url_no_marker :
  re_sub_post_url "https://www.linkedin.com/posts/someone" = "https:".
Proof. reflexivity. Qed.

Example re_sub_post_url_lines :
  re_sub_post_url ("a/b" ++ String newline "c/d") = ("a/b" ++ String newline "c")%string
  /\ re_sub_post_url ("x/urn:li:ugcPost:12/y" ++ String newline "")
     = ("12" ++ String newline "")%string.
Proof. split; reflexivity. Qed.

Example re_sub_post_line_card :
  re_sub_post_line
    ("<div data-urn=" ++ String Downloader.dquote "urn:li:ugcPost:7000000000000000000"
       ++ String Downloader.dquote " class=" ++ String Downloader.dquote "x"
       ++ String Downloader.dquote ">")
  = "7000000000000000000".
Proof. reflexivity. Qed.

Section PostIdentifier.

Local Open Scope string_scope.

Lemma append_empty (s : string) : s ++ "" = s.
Proof. induction s as [|c s IH]; [reflexivity | cbn [append]; rewrite IH; reflexivity]. Qed.

Lemma append_assoc (a b c : string) : (a ++ b) ++ c = a ++ b ++ c.
Proof. induction a as [|x a IH]; [reflexivity | cbn [append]; rewrite IH; reflexivity]. Qed.

Lemma skip_app (a b : string) : skip (String.length a) (a ++ b) = b.
Proof. induction a as [|c a IH]; [reflexivity | exact IH]. Qed.

Lemma prefix_head (c0 c : ascii) (m s : string) :
  Ascii.eqb c c0 = false -> String.prefix (String c0 m) (String c s) = false.
Proof.
  intros H. cbn [String.prefix].
  destruct (ascii_dec c0 c) as [->|_]; [|reflexivity].
  rewrite Ascii.eqb_refl in H. discriminate.
Qed.

Lemma contains_app_r (m pre s : string) :
  contains m s = true -> contains m (pre ++ s) = true.
Proof.
  intros H. induction pre as [|c pre IH]; [exact H|].
  cbn [append contains]. rewrite IH. apply orb_true_r.
Qed.

Lemma contains_here (m x : string) : contains m (m ++ x) = true.
Proof.
  destruct (m ++ x)%string as [|c s] eqn:Hs.
  - destruct m; [reflexivity | discriminate].
  - cbn [contains]. rewrite <- Hs, prefix_app. reflexivity.
Qed.

Lemma contains_skip_chars (c0 : ascii) (m a b : string) :
  has_char c0 a = false ->
  contains (String c0 m) (a ++ b) = contains (String c0 m) b.
Proof.
  induction a as [|c a IH]; intros H; [reflexivity|].
  cbn [has_char] in H. apply orb_false_iff in H. destruct H as [Hc Ha].
  cbn [append contains]. rewrite (prefix_head c0 c m (a ++ b) Hc), (IH Ha). reflexivity.
Qed.

Lemma after_last_none (m s : string) : contains m s = false -> after_last m s = None.
Proof.
  induction s as [|c s IH]; intros H; [reflexivity|].
  cbn [contains] in H. apply orb_false_iff in H. destruct H as [Hp Hc].
  cbn [after_last]. rewrite (IH Hc), Hp. destruct (Ascii.eqb c newline); reflexivity.
Qed.

Lemma after_last_here (c0 : ascii) (m x : string) :
  contains (String c0 m) (m ++ x) = false ->
  after_last (String c0 m) (String c0 m ++ x) = Some x.
Proof.
  intros H. cbn [append after_last]. rewrite (after_last_none _ _ H).
  change (String c0 (m ++ x)) with (String c0 m ++ x)%string.
  rewrite prefix_app, skip_app. destruct (Ascii.eqb c0 newline); reflexivity.
Qed.

Lemma after_last_app (m pre s rest : string) :
  has_char newline pre = false ->
  after_last m s = Some rest ->
  after_last m (pre ++ s) = Some rest.
Proof.
  intros Hpre Hs. induction pre as [|c pre IH]; [exact Hs|].
  cbn [has_char] in Hpre. apply orb_false_iff in Hpre. destruct Hpre as [Hc Hpre].
  cbn [append after_last]. rewrite Hc, (IH Hpre). reflexivity.
Qed.

Lemma to_end_line (s : string) : has_char newline s = false -> to_end s = Some EmptyString.
Proof.
  induction s as [|c s IH]; intros H; [reflexivity|].
  cbn [has_char] in H. apply orb_false_iff in H. destruct H as [Hc Hs].
  cbn [to_end]. rewrite Hc. exact (IH Hs).
Qed.

Lemma cut_slash_app (a b : string) :
  has_char "/" a = false -> cut_slash (a ++ b) = a ++ cut_slash b.
Proof.
  induction a as [|c a IH]; intros H; [reflexivity|].
  cbn [has_char] in H. apply orb_false_iff in H. destruct H as [Hc Ha].
  cbn [append cut_slash]. rewrite Hc, (IH Ha). reflexivity.
Qed.

Lemma before_char_app (c : ascii) (a b : string) :
  has_char c a = false -> before_char c (a ++ String c b) = a.
Proof.
  induction a as [|x a IH]; intros H.
  - cbn [append before_char]. rewrite Ascii.eqb_refl. reflexivity.
  - cbn [has_char] in H. apply orb_false_iff in H. destruct H as [Hx Ha].
    cbn [append before_char]. rewrite Hx, (IH Ha). reflexivity.
Qed.

Lemma before_char_split (c : ascii) (s : string) :
  has_char c s = true ->
  exists rest, s = before_char c s ++ String c rest /\ has_char c (before_char c s) = false.
Proof.
  induction s as [|x s IH]; intros H; [discriminate|].
  cbn [has_char] in H. cbn [before_char].
  destruct (Ascii.eqb_spec x c) as [->|Hne].
  - exists s. split; reflexivity.
  - cbn [orb] in H. destruct (IH H) as [rest [Heq Hno]].
    exists rest. cbn [append has_char]. rewrite <- Heq, Hno.
    split; [reflexivity|]. apply orb_false_iff. split; [|reflexivity].
    apply Ascii.eqb_neq. exact Hne.
Qed.

Lemma str_split_no_sep (c : ascii) (s : string) :
  Forall (fun piece => has_char c piece = false) (str_split c s).
Proof.
  induction s as [|x s IH]; [repeat constructor|].
  cbn [str_split]. destruct (Ascii.eqb x c) eqn:Hx.
  - constructor; [reflexivity | exact IH].
  - destruct (str_split c s) as [|h t].
    + repeat constructor. cbn [has_char]. rewrite Hx. reflexivity.
    + inversion IH as [|? ? Hh Ht]; subst. constructor; [|exact Ht].
      cbn [has_char]. rewrite Hx, Hh. reflexivity.
Qed.

(** The rewrite of line 265 on a URL that names a post. *)
Lemma re_sub_post_url_id (pre id tail : string) :
  has_char newline (pre ++ "/urn:li:ugcPost:" ++ id ++ tail) = false ->
  has_char "/" id = false ->
  tail = EmptyString \/ (exists t, tail = String "/" t) ->
  contains "/urn:li:ugcPost:" tail = false ->
  re_sub_post_url (pre ++ "/urn:li:ugcPost:" ++ id ++ tail) = id.
Proof.
  intros Hnl Hid Htail Hlast. unfold re_sub_post_url.
  rewrite !has_char_app in Hnl. apply orb_false_iff in Hnl. destruct Hnl as [Hpre Hnl].
  apply orb_false_iff in Hnl. destruct Hnl as [_ Hnl].
  apply orb_false_iff in Hnl. destruct Hnl as [_ Htl].
  rewrite (after_last_app _ pre _ (id ++ tail)%string Hpre).
  - rewrite cut_slash_app by exact Hid.
    destruct Htail as [->|[t ->]].
    + apply append_empty.
    + cbn [cut_slash]. cbn [has_char] in Htl. apply orb_false_iff in Htl.
      rewrite Ascii.eqb_refl, (to_end_line t (proj2 Htl)). apply append_empty.
  - apply after_last_here.
    rewrite <- append_assoc. rewrite contains_skip_chars; [exact Hlast|].
    rewrite has_char_app, Hid. reflexivity.
Qed.

(** X5: when the URL of the response names a post, as in
    [.../urn:li:ugcPost:<id>] followed by nothing or by a slash and
    whatever else (but no second [/urn:li:ugcPost:]), [get_video_id]
    returns [<id>]: the text between the marker and the next slash. *)
Theorem get_video_id_from_url :
  forall (r : Response) (pre id tail : string),
    resp_url r = pre ++ "/urn:li:ugcPost:" ++ id ++ tail ->
    has_char newline (resp_url r) = false ->
    has_char "/" id = false ->
    tail = EmptyString \/ (exists t, tail = String "/" t) ->
    contains "/urn:li:ugcPost:" tail = false ->
    Page.get_video_id r = Return id.
Proof.
  intros r pre id tail Hurl Hnl Hid Htail Hlast.
  unfold Page.get_video_id. rewrite Hurl in *.
  rewrite contains_app_r by apply contains_here.
  f_equal. apply re_sub_post_url_id; assumption.
Qed.

Lemma prefix_split (m s : string) : String.prefix m s = true -> exists q, s = m ++ q.
Proof.
  revert s. induction m as [|c m IH]; intros s H.
  - exists s. reflexivity.
  - destruct s as [|x s]; [discriminate|]. cbn [String.prefix] in H.
    destruct (ascii_dec c x) as [->|_]; [|discriminate].
    destruct (IH s H) as [q ->]. exists q. reflexivity.
Qed.

Lemma contains_split (m s : string) :
  contains m s = true -> exists p q, s = p ++ m ++ q.
Proof.
  induction s as [|c s IH]; intros H.
  - cbn [contains] in H. destruct (prefix_split _ _ H) as [q Hq]. exists "", q. exact Hq.
  - cbn [contains] in H. apply orb_true_iff in H. destruct H as [H|H].
    + destruct (prefix_split _ _ H) as [q Hq]. exists "", q. exact Hq.
    + destruct (IH H) as (p & q & ->). exists (String c p), q. reflexivity.
Qed.

Lemma filter_none {A} (f : A -> bool) (l : list A) :
  filter f l = [] <-> Forall (fun x => f x = false) l.
Proof.
  induction l as [|x l IH]; [split; constructor|].
  cbn [filter]. destruct (f x) eqn:Hx.
  - split; [discriminate|]. intros H. inversion H; subst. congruence.
  - rewrite IH. split; intros H; [constructor; assumption | inversion H; assumption].
Qed.

Lemma filter_first {A} (f : A -> bool) (before after : list A) (x : A) :
  Forall (fun y => f y = false) before -> f x = true ->
  filter f (before ++ x :: after)%list = x :: filter f after.
Proof.
  intros Hb Hx. rewrite filter_app. apply filter_none in Hb. rewrite Hb.
  cbn [filter app]. rewrite Hx. reflexivity.
Qed.

Lemma contains_post_urn_tail (x : string) :
  contains "urn:li:ugcPost:" x = false ->
  contains "urn:li:ugcPost:" ("rn:li:ugcPost:" ++ x) = false.
Proof.
  intros H. cbn [append contains].
  repeat (rewrite prefix_head by reflexivity; cbn [orb]).
  cbn [String.prefix]. 
  repeat match goal with
         | |- context [ascii_dec ?a ?b] => destruct (ascii_dec a b); try discriminate
         end.
  all: cbn [orb]; exact H.
Qed.

(** X6: when the URL names no post, the identifier is read off the
    page: off the first line that holds the card marker, and there the
    text between the last [urn:li:ugcPost:] and the double quote that
    follows it. *)
Theorem get_video_id_from_page :
  forall (r : Response) (before after : list string) (line a id b : string),
    contains "/urn:li:ugcPost:" (resp_url r) = false ->
    str_split newline (resp_text r) = (before ++ line :: after)%list ->
    Forall (fun l => contains Page.text_to_find l = false) before ->
    contains Page.text_to_find line = true ->
    line = a ++ "urn:li:ugcPost:" ++ id ++ String Downloader.dquote b ->
    has_char Downloader.dquote id = false ->
    contains "urn:li:ugcPost:" (id ++ String Downloader.dquote b) = false ->
    Page.get_video_id r = Return id.
Proof.
  intros r before after line a id b Hurl Hsplit Hbefore Hline Hshape Hid Hlast.
  unfold Page.get_video_id. rewrite Hurl, Hsplit.
  rewrite (filter_first (fun l => contains Page.text_to_find l) before after line Hbefore Hline).
  f_equal. unfold re_sub_post_line.
  assert (Ha : has_char newline a = false).
  { pose proof (str_split_no_sep newline (resp_text r)) as Hall.
    rewrite Hsplit in Hall. apply Forall_app in Hall. destruct Hall as [_ Hall].
    inversion Hall as [|? ? Hl _]; subst.
    rewrite has_char_app in Hl. apply orb_false_iff in Hl. exact (proj1 Hl). }
  subst line.
  rewrite (after_last_app _ a _ (id ++ String Downloader.dquote b) Ha).
  - apply before_char_app. exact Hid.
  - apply after_last_here. apply contains_post_urn_tail. exact Hlast.
Qed.

(** X7: [get_video_id] returns or raises [IndexError], nothing else; and
    it raises exactly when the URL of the response holds no
    [/urn:li:ugcPost:] and no line of the page holds the card marker. *)
Theorem get_video_id_outcome :
  forall r : Response,
    (Page.get_video_id r = Raise IndexError
     <-> contains "/urn:li:ugcPost:" (resp_url r) = false
         /\ Forall (fun line => contains Page.text_to_find line = false)
                   (str_split newline (resp_text r)))
    /\ (forall e, Page.get_video_id r = Raise e -> e = IndexError)
    /\ Page.get_video_id r <> Unfinished.
Proof.
  intros r. unfold Page.get_video_id.
  destruct (contains "/urn:li:ugcPost:" (resp_url r)).
  - split; [split; [discriminate | intros [H _]; discriminate]|].
    split; [intros e H; discriminate | discriminate].
  - destruct (filter (fun line => contains Page.text_to_find line)
                     (str_split newline (resp_text r))) as [|line rest] eqn:Hf.
    + apply filter_none in Hf.
      split; [split; [intros _; split; [reflexivity | exact Hf] | reflexivity]|].
      split; [intros e [= <-]; reflexivity | discriminate].
    + split.
      * split; [discriminate|]. intros [_ H].
        rewrite (proj2 (filter_none (fun line => contains Page.text_to_find line) _) H) in Hf.
        discriminate.
      * split; [intros e H; discriminate | discriminate].
Qed.

(** X8: when the line with the card marker holds no [urn:li:ugcPost:],
    what [get_video_id] returns is the beginning of that line, up to its
    first double quote: the number after [urn:li:activity:], which comes
    after a double quote, is never what is returned. *)
Theorem get_video_id_without_post_urn :
  forall (r : Response) (before after : list string) (line : string),
    contains "/urn:li:ugcPost:" (resp_url r) = false ->
    str_split newline (resp_text r) = (before ++ line :: after)%list ->
    Forall (fun l => contains Page.text_to_find l = false) before ->
    contains Page.text_to_find line = true ->
    contains "urn:li:ugcPost:" line = false ->
    exists head rest,
      Page.get_video_id r = Return head
      /\ line = head ++ String Downloader.dquote rest
      /\ has_char Downloader.dquote head = false.
Proof.
  intros r before after line Hurl Hsplit Hbefore Hline Hnone.
  unfold Page.get_video_id. rewrite Hurl, Hsplit.
  rewrite (filter_first (fun l => contains Page.text_to_find l) before after line Hbefore Hline).
  unfold re_sub_post_line. rewrite (after_last_none _ _ Hnone).
  assert (Hq : has_char Downloader.dquote line = true).
  { destruct (contains_split _ _ Hline) as (p & q & ->).
    rewrite has_char_app. apply orb_true_iff. right. reflexivity. }
  destruct (before_char_split _ _ Hq) as (rest & Heq & Hno).
  exists (before_char Downloader.dquote line), rest.
  split; [reflexivity|]. split; assumption.
Qed.

End PostIdentifier.

(** A response whose URL names the post. *)
Lemma get_video_id_from_url_witness :
  Page.get_video_id PostPage.post = Return "7000000000000000000".
Proof.
  apply (get_video_id_from_url PostPage.post "https://www.linkedin.com/feed/update"
           "7000000000000000000" "/" eq_refl eq_refl eq_refl
           (or_intror (ex_intro _ EmptyString eq_refl)) eq_refl).
Defined.

(** The page of an activity whose card features the post. *)
Lemma get_video_id_from_page_witness :
  Page.get_video_id (PostPage.activity "urn:li:ugcPost:7000000000000000000")
  = Return "7000000000000000000".
Proof.
  apply (get_video_id_from_page
           (PostPage.activity "urn:li:ugcPost:7000000000000000000")
           ["<html>"%string] ["</html>"%string]
           (PostPage.card "urn:li:ugcPost:7000000000000000000")
           ("<article class=" ++ String dquote "main-feed-activity-card-with-comments"
              ++ String dquote " data-activity-urn="
              ++ String dquote "urn:li:activity:7000000000000000001"
              ++ String dquote " data-featured-activity-urn="
              ++ String dquote "")%string
           "7000000000000000000" ">").
  - reflexivity.
  - reflexivity.
  - repeat constructor.
  - reflexivity.
  - reflexivity.
  - reflexivity.
  - reflexivity.
Defined.

(** The page of an activity whose card features a share: what comes out
    is the beginning of the card line. *)
Lemma get_video_id_without_post_urn_witness :
  exists head rest,
    Page.get_video_id (PostPage.activity "urn:li:share:7000000000000000002") = Return head
    /\ PostPage.card "urn:li:share:7000000000000000002"
       = (head ++ String dquote rest)%string
    /\ has_char dquote head = false.
Proof.
  apply (get_video_id_without_post_urn
           (PostPage.activity "urn:li:share:7000000000000000002")
           ["<html>"%string] ["</html>"%string]
           (PostPage.card "urn:li:share:7000000000000000002")).
  - reflexivity.
  - reflexivity.
  - repeat constructor.
  - reflexivity.
  - reflexivity.
Defined.

(** ** The resolver on its way to the API *)

Section ResolverEdges.

Variable E : Externals.

Lemma trying_get_first_event fuel url m wt kw w res w' :
  fuel <> 0%nat -> m <> 0 ->
  trying_get E fuel url m wt kw w = (res, w') ->
  exists evs, trace w' = trace w ++ EvGet url kw :: evs
              /\ Forall (fun e => quiet e = true) evs.
Proof.
  intros Hfuel Hm H. destruct fuel as [|fuel]; [contradiction|].
  unfold trying_get in H. cbn [trying_get_loop] in H.
  destruct (Z.eqb_spec m 0) as [Hz|_]; [contradiction|].
  unfold bind at 1, requests_get at 1 in H.
  destruct (network E (gets w) url kw) as [resp|e].
  - unfold ret in H. injection H as <- <-. exists []. split; [reflexivity | constructor].
  - destruct (retryable e).
    + unfold bind at 1, emit at 1 in H. cbn [gets temps audio_params trace] in H.
      destruct (m - 1 =? 0).
      * unfold raise in H. injection H as <- <-. cbn [trace].
        exists [EvWarning url (m - (m - 1)) m wt]. rewrite <- app_assoc.
        split; [reflexivity | repeat constructor].
      * unfold bind at 1, sleep at 1 in H. destruct (wt <? 0).
        -- unfold raise in H. injection H as <- <-. cbn [trace].
           exists [EvWarning url (m - (m - 1)) m wt]. rewrite <- app_assoc.
           split; [reflexivity | repeat constructor].
        -- unfold emit at 1 in H. cbn [gets temps audio_params trace] in H.
           apply trying_get_loop_effect in H. cbn [trace] in H.
           destruct H as (_ & _ & (evs & Htr & Hq) & _).
           exists ([EvWarning url (m - (m - 1)) m wt; EvSleep wt] ++ evs).
           split; [rewrite Htr, <- !app_assoc; reflexivity | repeat constructor; exact Hq].
    + unfold raise in H. injection H as <- <-. exists []. split; [reflexivity | constructor].
Qed.

(** X9: when the landing page comes without a [JSESSIONID] cookie,
    [get_manifest] raises [IndexError] after that one request: the API is
    not called. *)
Theorem get_manifest_no_session_cookie :
  forall (depth fuel : nat) (sm sw : Z) (url : string) (quality max_attempts wait : Z)
         (w : World) (r : Response),
    contains "/Manifest" url = false ->
    contains "/manifest" url = false ->
    fuel <> 0%nat ->
    network E (gets w) url NoKwargs = Responds r ->
    session_cookie r = None ->
    get_manifest E (S depth) fuel sm sw url quality max_attempts wait w
    = (Raise IndexError,
       mkWorld (S (gets w)) (temps w) (audio_params w) (trace w ++ [EvGet url NoKwargs])).
Proof.
  intros depth fuel sm sw url q m wt w r HM Hm Hfuel Hnet Hcookie.
  cbn [get_manifest]. rewrite HM, Hm.
  unfold bind at 1.
  rewrite (trying_get_first_reply E fuel url MAX_ATTEMPTS WAIT NoKwargs w r Hfuel
             ltac:(discriminate) Hnet).
  unfold bind at 1, subscript at 1.
  unfold session_cookie in Hcookie. rewrite Hcookie. reflexivity.
Qed.

(** X10: with [get_video_id] as the source defines it, a landing page
    whose URL names the post [<id>] makes the API request the second
    request of the resolver: it goes to the live-updates URL of
    [<id>], its [csrf-token] header is the value of the first
    [JSESSIONID] cookie of the landing page, its [Cookie] header names
    and quotes that cookie, and all the cookies of the landing page go
    with it.  Whatever follows is requests, warnings and pauses. *)
Theorem get_manifest_api_request :
  forall (depth fuel : nat) (sm sw : Z) (url : string) (quality max_attempts wait : Z)
         (w w' : World) (res : Res string) (r : Response) (cookie : Cookie)
         (pre id tail : string),
    (forall r, get_video_id E r = Page.get_video_id r) ->
    contains "/Manifest" url = false ->
    contains "/manifest" url = false ->
    fuel <> 0%nat ->
    max_attempts <> 0 ->
    network E (gets w) url NoKwargs = Responds r ->
    session_cookie r = Some cookie ->
    resp_url r = (pre ++ "/urn:li:ugcPost:" ++ id ++ tail)%string ->
    has_char newline (resp_url r) = false ->
    has_char "/" id = false ->
    tail = EmptyString \/ (exists t, tail = String "/" t) ->
    contains "/urn:li:ugcPost:" tail = false ->
    get_manifest E (S depth) fuel sm sw url quality max_attempts wait w = (res, w') ->
    exists effects,
      trace w' = trace w
                 ++ [EvGet url NoKwargs;
                     EvGet (api_url id)
                           (HeadersCookies
                              [("Accept-Encoding", "gzip, deflate, br");
                               ("csrf-token", cookie_value cookie);
                               ("Cookie", (cookie_name cookie ++ "="
                                           ++ String dquote (cookie_value cookie)
                                           ++ String dquote "")%string)]
                              (resp_cookies r))]
                 ++ effects
      /\ Forall (fun e => quiet e = true) effects.
Proof.
  intros depth fuel sm sw url q m wt w w' res r cookie pre id tail
         Hid HM Hm Hfuel Hmax Hnet Hcookie Hurl Hnl Hslash Htail Hlast H.
  assert (Hvid : get_video_id E r = Return id).
  { rewrite Hid. unfold Page.get_video_id. rewrite Hurl in *.
    rewrite contains_app_r by apply contains_here.
    f_equal. apply re_sub_post_url_id; assumption. }
  rewrite (get_manifest_landing E depth fuel sm sw url q m wt w (fun _ => IndexError)
             0 r cookie id HM Hm) in H; try assumption; try lia.
  2: { intros i Hi. lia. }
  2: { rewrite Nat.add_0_r. exact Hnet. }
  unfold bind at 1 in H.
  destruct (trying_get E fuel (api_url id) m wt (api_kwargs cookie r)
                       (answered url NoKwargs MAX_ATTEMPTS WAIT 0 w)) as [r2 w2] eqn:Hapi.
  apply trying_get_first_event in Hapi; try assumption.
  destruct Hapi as (evs & Htr & Hq).
  unfold answered in Htr. cbn [trace] in Htr.
  unfold failed_attempts in Htr. cbn [seq map List.concat app] in Htr.
  assert (Hrest : exists evs', trace w' = trace w2 ++ evs'
                               /\ Forall (fun e => quiet e = true) evs').
  { destruct r2 as [[r2|]|e|].
    - cbn [attr] in H. unfold bind at 1, ret at 1 in H.
      unfold bind at 1, lift_res at 1 in H.
      destruct (master_playlist_url E (resp_content r2)) as [url'|e|].
      + eapply get_manifest_quiet. exact H.
      + injection H as <- <-. exists []. rewrite app_nil_r. split; [reflexivity | constructor].
      + injection H as <- <-. exists []. rewrite app_nil_r. split; [reflexivity | constructor].
    - cbn [attr] in H. unfold bind at 1, raise at 1 in H. injection H as <- <-.
      exists []. rewrite app_nil_r. split; [reflexivity | constructor].
    - injection H as <- <-. exists []. rewrite app_nil_r. split; [reflexivity | constructor].
    - injection H as <- <-. exists []. rewrite app_nil_r. split; [reflexivity | constructor]. }
  destruct Hrest as (evs' & Htr' & Hq').
  exists (evs ++ evs'). split.
  - rewrite Htr', Htr. rewrite <- !app_assoc. reflexivity.
  - apply Forall_app. split; assumption.
Qed.

(** X11: nothing bounds the recursion of [get_manifest] but the stack.
    When the playlist URL that the API answers with is again a page
    (neither [/Manifest] nor [/manifest] in it) that leads to the same
    answer, every level of the recursion issues two requests, and with
    room for [depth] levels the call ends in [RecursionError] after
    [2 * depth] requests. *)
Theorem get_manifest_recursion :
  forall (fuel : nat) (sm sw : Z) (url : string) (quality max_attempts wait : Z)
         (r r2 : Response) (cookie : Cookie) (id : string),
    contains "/Manifest" url = false ->
    contains "/manifest" url = false ->
    fuel <> 0%nat ->
    max_attempts <> 0 ->
    (forall g, network E g url NoKwargs = Responds r) ->
    session_cookie r = Some cookie ->
    get_video_id E r = Return id ->
    (forall g, network E g (api_url id) (api_kwargs cookie r) = Responds r2) ->
    master_playlist_url E (resp_content r2) = Return url ->
    forall (depth : nat) (w : World),
    exists w',
      get_manifest E depth fuel sm sw url quality max_attempts wait w
      = (Raise RecursionError, w')
      /\ gets w' = (gets w + 2 * depth)%nat.
Proof.
  intros fuel sm sw url q m wt r r2 cookie id HM Hm Hfuel Hmax Hnet Hcookie Hvid Hapi Hmaster.
  induction depth as [|depth IH]; intros w.
  - exists w. split; [reflexivity | lia].
  - rewrite (get_manifest_landing E depth fuel sm sw url q m wt w (fun _ => IndexError)
               0 r cookie id HM Hm); try assumption; try lia.
    2: { intros i Hi. lia. }
    2: { apply Hnet. }
    unfold bind at 1.
    rewrite (trying_get_first_reply E fuel (api_url id) m wt (api_kwargs cookie r) _ r2
               Hfuel Hmax (Hapi _)).
    cbn [attr]. unfold bind at 1, ret at 1. unfold bind at 1, lift_res at 1.
    rewrite Hmaster.
    match goal with
    | |- context [get_manifest E depth fuel sm sw url q m wt ?w0] =>
        destruct (IH w0) as (w' & Hrun & Hg)
    end.
    exists w'. split; [exact Hrun|].
    rewrite Hg. unfold answered. cbn [gets]. lia.
Qed.

End ResolverEdges.

(** A landing page without cookies. *)
Lemma get_manifest_no_session_cookie_witness :
  get_manifest (Sample.externals
                  (Sample.site [(PostPage.activity_url, PostPage.activity "")]
                               (Fails (OtherError "HTTPError" "404"))))
               3 3 3 10 PostPage.activity_url 3200000 3 10 world0
  = (Raise IndexError, mkWorld 1 0 None [EvGet PostPage.activity_url NoKwargs]).
Proof.
  apply (get_manifest_no_session_cookie
           (Sample.externals
              (Sample.site [(PostPage.activity_url, PostPage.activity "")]
                           (Fails (OtherError "HTTPError" "404"))))
           2 3 3 10 PostPage.activity_url 3200000 3 10 world0 (PostPage.activity "")).
  - reflexivity.
  - reflexivity.
  - discriminate.
  - reflexivity.
  - reflexivity.
Defined.

(** The post of the sample, on a site that has nothing but its landing
    page: the API request goes out and is answered by an error. *)
Lemma get_manifest_api_request_witness :
  exists effects,
    trace (snd (get_manifest
                  (PostPage.externals
                     (Sample.site [(PostPage.post_url, PostPage.post)]
                                  (Fails (OtherError "HTTPError" "404"))))
                  3 3 3 10 PostPage.post_url 3200000 3 10 world0))
    = trace world0
      ++ [EvGet PostPage.post_url NoKwargs;
          EvGet (api_url "7000000000000000000")
                (HeadersCookies
                   [("Accept-Encoding", "gzip, deflate, br");
                    ("csrf-token", cookie_value (mkCookie "JSESSIONID" "ajax:0123456789"));
                    ("Cookie", (cookie_name (mkCookie "JSESSIONID" "ajax:0123456789") ++ "="
                                ++ String dquote
                                     (cookie_value (mkCookie "JSESSIONID" "ajax:0123456789"))
                                ++ String dquote "")%string)]
                   (resp_cookies PostPage.post))]
      ++ effects
    /\ Forall (fun e => quiet e = true) effects.
Proof.
  eapply (get_manifest_api_request
            (PostPage.externals
               (Sample.site [(PostPage.post_url, PostPage.post)]
                            (Fails (OtherError "HTTPError" "404"))))
            2 3 3 10 PostPage.post_url 3200000 3 10 world0 _ _ PostPage.post
            (mkCookie "JSESSIONID" "ajax:0123456789")
            "https://www.linkedin.com/feed/update" "7000000000000000000" "/").
  - intros r. reflexivity.
  - reflexivity.
  - reflexivity.
  - discriminate.
  - discriminate.
  - reflexivity.
  - reflexivity.
  - reflexivity.
  - reflexivity.
  - reflexivity.
  - right. exists EmptyString. reflexivity.
  - reflexivity.
  - apply surjective_pairing.
Defined.

(** The circular site with room for three levels of recursion. *)
Lemma get_manifest_recursion_witness :
  exists w',
    get_manifest Oddities.circular 3 3 3 10 Stream.landing_url 3200000 3 10 world0
    = (Raise RecursionError, w')
    /\ gets w' = (gets world0 + 2 * 3)%nat.
Proof.
  apply (get_manifest_recursion Oddities.circular 3 3 10 Stream.landing_url 3200000 3 10
           Stream.landing
           (Sample.page (api_url "7000000000000000000") Stream.landing_url)
           (mkCookie "JSESSIONID" "ajax:0123456789") "7000000000000000000").
  - reflexivity.
  - reflexivity.
  - discriminate.
  - discriminate.
  - intros g. reflexivity.
  - reflexivity.
  - reflexivity.
  - intros g. reflexivity.
  - reflexivity.
Defined.

(** ** Quality listings with a line out of the grammar *)

Section QualityEdges.

Variable E : Externals.

(** The loop of [get_quality] on a well-formed listing that is followed
    by more lines. *)
Lemma get_quality_loop_prefix (url : string) (q : Z) (more : list string) :
  forall (items : list manifest_line) (seen : list Z),
    Forall proper items ->
    get_quality_loop E url q (map render items ++ more) seen
    = match find_entry q items with
      | Some rest => Return (with_last_segment url (quality_entry q rest))
      | None => get_quality_loop E url q more (seen ++ bitrates items)
      end.
Proof.
  induction items as [|item items IH]; intros seen Hproper.
  - cbn [map app find_entry bitrates]. rewrite app_nil_r. reflexivity.
  - inversion Hproper as [|? ? Hitem Hitems]; subst.
    destruct item as [n rest|line]; cbn [map app render get_quality_loop find_entry bitrates].
    + rewrite startswith_entry, re_sub_quality_entry, py_int_str, startswith_entry_quality.
      destruct (Z.eqb_spec n q) as [->|Hne].
      * apply re_sub_last_segment_entry. exact Hitem.
      * rewrite (IH _ Hitems). rewrite <- app_assoc. reflexivity.
    + cbn [proper] in Hitem. rewrite Hitem. apply IH. exact Hitems.
Qed.

(** X12: a line that starts with [QualityLevels] and announces no
    integer stops the selector: when it comes before any entry of the
    requested bitrate, [get_quality] raises [ValueError], even though
    an entry of the requested bitrate may follow it, and the list of
    available bitrates is not reported. *)
Theorem get_quality_malformed_entry :
  forall (fuel : nat) (sm sw : Z) (url : string) (quality : Z) (w w1 : World)
         (r : Response) (text : string) (items : list manifest_line)
         (bad : string) (more : list string),
    trying_get E fuel url sm sw NoKwargs w = (Return (Some r), w1) ->
    decode_utf8 E (resp_content r) = Return text ->
    content_lines text = map render items ++ bad :: more ->
    Forall proper items ->
    (forall rest, ~ In (Entry quality rest) items) ->
    startswith bad "QualityLevels" = true ->
    py_int (re_sub_quality bad) = None ->
    get_quality E fuel sm sw url quality w = (Raise ValueError, w1).
Proof.
  intros fuel sm sw url q w w1 r text items bad more Hget Hdec Hlines Hproper Hnot Hbad Hint.
  unfold get_quality. unfold bind at 1. rewrite Hget. cbn [attr].
  unfold bind at 1, ret at 1. unfold bind at 1, lift_res at 1. rewrite Hdec.
  fold (content_lines text). rewrite Hlines.
  rewrite (get_quality_loop_prefix url q (bad :: more) items [] Hproper).
  destruct (find_entry q items) as [rest|] eqn:Hfind.
  - exfalso. exact (Hnot rest (find_entry_In _ _ _ Hfind)).
  - cbn [get_quality_loop]. rewrite Hbad, Hint. reflexivity.
Qed.

End QualityEdges.

(** The listing whose second entry announces [high]: asking for
    3200000, which the third entry offers, ends in [ValueError]. *)
Lemma get_quality_malformed_entry_witness :
  get_quality Oddities.externals 3 3 10 Oddities.listing_url 3200000 world0
  = (Raise ValueError, mkWorld 1 0 None [EvGet Oddities.listing_url NoKwargs]).
Proof.
  apply (get_quality_malformed_entry Oddities.externals 3 3 10 Oddities.listing_url 3200000
           world0 _ Oddities.listing (resp_content Oddities.listing)
           [Other "#EXTM3U"; Entry 1200000 "(video,format=m3u8-aapl)"]
           "QualityLevels(high)/Manifest(video,format=m3u8-aapl)"
           ["QualityLevels(3200000)/Manifest(video,format=m3u8-aapl)"%string]).
  - vm_compute. reflexivity.
  - reflexivity.
  - vm_compute. reflexivity.
  - repeat constructor.
  - intros rest [H|[H|H]]; [discriminate | discriminate | contradiction].
  - reflexivity.
  - reflexivity.
Defined.

(** ** The catalog of a well-formed manifest *)

Section Catalog.

Variable E : Externals.

Local Open Scope string_scope.

Lemma str_split_head (c : ascii) (s : string) :
  nth_error (str_split c s) 0 = Some (before_char c s).
Proof.
  induction s as [|x s IH]; [reflexivity|].
  cbn [str_split before_char]. destruct (Ascii.eqb x c); [reflexivity|].
  destruct (str_split c s) as [|h t]; [discriminate|].
  cbn [nth_error] in *. injection IH as ->. reflexivity.
Qed.

Lemma str_split_app (c : ascii) (a b : string) :
  has_char c a = false ->
  str_split c (a ++ String c b) = (a :: str_split c b)%list.
Proof.
  induction a as [|x a IH]; intros H.
  - cbn [append str_split]. rewrite Ascii.eqb_refl. reflexivity.
  - cbn [has_char] in H. apply orb_false_iff in H. destruct H as [Hx Ha].
    cbn [append str_split]. rewrite Hx, (IH Ha). reflexivity.
Qed.

Lemma before_char_prefix (c : ascii) (a b : string) :
  has_char c a = false -> before_char c (a ++ b) = a ++ before_char c b.
Proof.
  induction a as [|x a IH]; intros H; [reflexivity|].
  cbn [has_char] in H. apply orb_false_iff in H. destruct H as [Hx Ha].
  cbn [append before_char]. rewrite Hx, (IH Ha). reflexivity.
Qed.

(** The field that line 130 reads off an announcement. *)
Lemma extinf_number (number title : string) :
  has_char ":" number = false -> has_char "," number = false ->
  exists field,
    nth_error (str_split ":" ("#EXTINF:" ++ number ++ "," ++ title)) 1 = Some field
    /\ nth 0 (str_split "," field) EmptyString = number.
Proof.
  intros Hcolon Hcomma.
  exists (number ++ "," ++ before_char ":" title). split.
  - change ("#EXTINF:" ++ number ++ "," ++ title)
      with ("#EXTINF" ++ String ":" (number ++ "," ++ title)).
    rewrite str_split_app by reflexivity.
    change (nth_error ("#EXTINF" :: str_split ":" (number ++ "," ++ title))%list 1)
      with (nth_error (str_split ":" (number ++ "," ++ title)) 0).
    rewrite str_split_head. f_equal.
    rewrite before_char_prefix by exact Hcolon. reflexivity.
  - change (number ++ "," ++ before_char ":" title)
      with (number ++ String "," (before_char ":" title)).
    rewrite str_split_app by exact Hcomma. reflexivity.
Qed.

Lemma extinf_durations_playlist :
  forall (items : list playlist_line) (ds : list Q),
    Forall playlist_proper items ->
    Forall2 (fun number d => py_float E number = Some d) (numbers items) ds ->
    extinf_durations E (map render_playlist items) = Return ds.
Proof.
  induction items as [|item items IH]; intros ds Hproper Hds.
  - inversion Hds. reflexivity.
  - inversion Hproper as [|? ? Hitem Hitems]; subst.
    destruct item as [number title|reference|line];
      cbn [map render_playlist numbers extinf_durations] in *.
    + inversion Hds as [|? d ? ds' Hd Hds']; subst.
      destruct Hitem as [Hcolon Hcomma].
      destruct (extinf_number number title Hcolon Hcomma) as (field & Hfield & Hnum).
      change (startswith ("#EXTINF:" ++ number ++ "," ++ title) "#EXTINF:")
        with (String.prefix "#EXTINF:" ("#EXTINF:" ++ (number ++ "," ++ title))).
      rewrite prefix_app, Hfield, Hnum, Hd, (IH ds' Hitems Hds'). reflexivity.
    + change (startswith ("Fragments" ++ reference) "#EXTINF:") with false.
      cbv iota. apply IH; assumption.
    + destruct Hitem as [_ Hline]. rewrite Hline. apply IH; assumption.
Qed.

Lemma fragment_paths_playlist (base : string) :
  forall items : list playlist_line,
    Forall playlist_proper items ->
    fragment_paths base (map render_playlist items)
    = map (fun reference => base ++ "Fragments" ++ reference) (references items).
Proof.
  unfold fragment_paths.
  induction items as [|item items IH]; intros Hproper; [reflexivity|].
  inversion Hproper as [|? ? Hitem Hitems]; subst.
  destruct item as [number title|reference|line];
    cbn [map render_playlist references filter].
  - change (startswith ("#EXTINF:" ++ number ++ "," ++ title) "Fragments") with false.
    cbv iota. apply IH. exact Hitems.
  - unfold startswith at 1. rewrite prefix_app. cbn [map]. rewrite (IH Hitems). reflexivity.
  - destruct Hitem as [Hline _]. rewrite Hline. apply IH. exact Hitems.
Qed.

Lemma prefix_straddle (pre rest : string) :
  pre <> EmptyString ->
  String.prefix "Manifest" (pre ++ "Manifest" ++ rest) = true ->
  String.prefix "Manifest" pre = true.
Proof.
  intros Hne H.
  do 8 (destruct pre as [|? pre];
        [ try contradiction; cbn [append String.prefix] in H;
          repeat match type of H with
                 | context [ascii_dec ?a ?b] => destruct (ascii_dec a b); try discriminate
                 end
        | ]).
  cbn [append String.prefix] in *.
  repeat match type of H with
         | context [ascii_dec ?a ?b] => destruct (ascii_dec a b); try discriminate
         end.
  destruct pre; reflexivity.
Qed.

Lemma re_sub_manifest_dropping (rest : string) :
  has_char newline rest = false -> re_sub_manifest_from true rest = EmptyString.
Proof.
  induction rest as [|c rest IH]; intros H; [reflexivity|].
  cbn [has_char] in H. apply orb_false_iff in H. destruct H as [Hc Hrest].
  cbn [re_sub_manifest_from]. rewrite Hc. exact (IH Hrest).
Qed.

(** Line 128: the manifest URL is cut where its first [Manifest] begins. *)
Lemma re_sub_manifest_cut (pre rest : string) :
  contains "Manifest" pre = false ->
  has_char newline rest = false ->
  re_sub_manifest (pre ++ "Manifest" ++ rest) = pre.
Proof.
  intros Hpre Hrest. unfold re_sub_manifest.
  induction pre as [|c pre IH].
  - pose proof (prefix_app "Manifest" rest) as Hp.
    change ("" ++ "Manifest" ++ rest) with (String "M" ("anifest" ++ rest)).
    change ("Manifest" ++ rest) with (String "M" ("anifest" ++ rest)) in Hp.
    unfold re_sub_manifest_from at 1. rewrite Hp. fold re_sub_manifest_from.
    apply re_sub_manifest_dropping.
    rewrite has_char_app, Hrest. reflexivity.
  - cbn [contains] in Hpre. apply orb_false_iff in Hpre. destruct Hpre as [Hp Hc].
    assert (Hs : String.prefix "Manifest" (String c (pre ++ "Manifest" ++ rest)) = false).
    { destruct (String.prefix "Manifest" (String c (pre ++ "Manifest" ++ rest))) eqn:Hs;
        [exfalso | reflexivity].
      change (String c (pre ++ "Manifest" ++ rest))
        with (String c pre ++ "Manifest" ++ rest) in Hs.
      apply prefix_straddle in Hs; [congruence | discriminate]. }
    set (tail := "Manifest" ++ rest) in *.
    cbn [append re_sub_manifest_from]. rewrite Hs, (IH Hc). reflexivity.
Qed.

(** X13: on a manifest whose announcements read
    [#EXTINF:<number>,<title>] and whose references read
    [Fragments<reference>], fetched from a URL [<pre>Manifest<rest>]
    with no [Manifest] in [<pre>], the constructor builds the paths
    [<pre>Fragments<reference>], in the order of the manifest, and the
    times 0 followed by the announced numbers, in the order of the
    manifest; the title may hold colons and commas. *)
Theorem init_catalog :
  forall (depth fuel : nat) (url : string) (max_attempts wait : Z) (limit : Q)
         (quality : Z) (w w1 w2 w' : World) (pre rest : string) (manifest : Response)
         (items : list playlist_line) (ds : list Q) (self : Self),
    get_manifest E depth fuel max_attempts wait url quality max_attempts wait w
    = (Return (pre ++ "Manifest" ++ rest), w1) ->
    contains "Manifest" pre = false ->
    has_char newline rest = false ->
    trying_get E fuel (pre ++ "Manifest" ++ rest) max_attempts wait NoKwargs w1
    = (Return (Some manifest), w2) ->
    manifest_lines manifest = map render_playlist items ->
    Forall playlist_proper items ->
    Forall2 (fun number d => py_float E number = Some d) (numbers items) ds ->
    __init__ E depth fuel url max_attempts wait limit quality w = (Return self, w') ->
    paths self = map (fun reference => pre ++ "Fragments" ++ reference) (references items)
    /\ times self = (0%Q :: ds)%list.
Proof.
  intros depth fuel url m wt limit q w w1 w2 w' pre rest manifest items ds self
         Hres Hpre Hrest Hget Hlines Hproper Hds Hinit.
  apply init_inv in Hinit.
  destruct Hinit as (mu & w1' & mf & w2' & ds' & first & c & H1 & H2 & H3 & H4 & H5 & Hself).
  assert (Hmu : mu = pre ++ "Manifest" ++ rest /\ w1' = w1)
    by (rewrite Hres in H1; split; congruence).
  destruct Hmu as [-> ->].
  rewrite Hget in H2. injection H2 as <- <-.
  rewrite Hlines in *.
  rewrite (extinf_durations_playlist items ds Hproper Hds) in H3. injection H3 as <-.
  subst self. cbn [paths times].
  rewrite re_sub_manifest_cut by assumption.
  split; [apply fragment_paths_playlist; exact Hproper | reflexivity].
Qed.

(** X14: on a manifest without a [Fragments] line the constructor
    raises [IndexError] at [self.paths[self.clip]]: by then it has taken
    a temporary name and opened the wave file under it, and it has
    requested no fragment. *)
Theorem init_empty_catalog :
  forall (depth fuel : nat) (url : string) (max_attempts wait : Z) (limit : Q)
         (quality : Z) (w w1 w2 : World) (manifest_url : string) (manifest : Response)
         (ds : list Q),
    get_manifest E depth fuel max_attempts wait url quality max_attempts wait w
    = (Return manifest_url, w1) ->
    trying_get E fuel manifest_url max_attempts wait NoKwargs w1
    = (Return (Some manifest), w2) ->
    extinf_durations E (manifest_lines manifest) = Return ds ->
    Forall (fun line => startswith line "Fragments" = false) (manifest_lines manifest) ->
    __init__ E depth fuel url max_attempts wait limit quality w
    = (Raise IndexError,
       mkWorld (gets w2) (S (temps w2)) (audio_params w2)
               (trace w2 ++ [EvOpenWave (temps w2, ".wav")])).
Proof.
  intros depth fuel url m wt limit q w w1 w2 mu mf ds Hres Hget Hds Hnone.
  unfold __init__. unfold bind at 1. rewrite Hres.
  unfold bind at 1. rewrite Hget. cbn [attr]. unfold bind at 1, ret at 1.
  fold (manifest_lines mf). unfold bind at 1, lift_res at 1. rewrite Hds.
  unfold bind at 1, mktemp at 1. unfold bind at 1, emit at 1.
  cbn [gets temps audio_params trace].
  unfold fragment_paths.
  rewrite (proj2 (filter_none (fun line => startswith line "Fragments") _) Hnone).
  reflexivity.
Qed.

End Catalog.

Lemma sample_playlist_proper : Forall playlist_proper sample_playlist.
Proof. repeat constructor. Qed.

(** The manifest of the sample stream, reached by its own URL. *)
Lemma init_catalog_witness :
  exists (self : Self) (w' : World),
    __init__ Stream.externals 3 3 Stream.manifest_url 3 10 0 3200000 world0
    = (Return self, w')
    /\ paths self
       = map (fun reference =>
                ("https://streams.example/video/QualityLevels(3200000)/"
                   ++ "Fragments" ++ reference)%string)
             (references sample_playlist)
    /\ times self = [0; 2.0; 3.5; 1.5]%Q.
Proof.
  do 2 eexists. split; [vm_compute; reflexivity|].
  eapply (init_catalog Stream.externals 3 3 Stream.manifest_url 3 10 0 3200000 world0
            _ _ _ "https://streams.example/video/QualityLevels(3200000)/"
            "(video,format=m3u8-aapl)" Stream.manifest sample_playlist).
  - reflexivity.
  - reflexivity.
  - reflexivity.
  - vm_compute. reflexivity.
  - vm_compute. reflexivity.
  - exact sample_playlist_proper.
  - repeat constructor.
  - vm_compute. reflexivity.
Defined.

(** A manifest with an announcement and no fragment. *)
Lemma init_empty_catalog_witness :
  __init__ Oddities.externals 3 3 Oddities.empty_url 3 10 0 3200000 world0
  = (Raise IndexError,
     mkWorld 1 1 None [EvGet Oddities.empty_url NoKwargs; EvOpenWave (0%nat, ".wav")]).
Proof.
  apply (init_empty_catalog Oddities.externals 3 3 Oddities.empty_url 3 10 0 3200000 world0
           world0 (mkWorld 1 0 None [EvGet Oddities.empty_url NoKwargs])
           Oddities.empty_url Oddities.empty [2.0%Q]).
  - reflexivity.
  - vm_compute. reflexivity.
  - vm_compute. reflexivity.
  - vm_compute. repeat constructor.
Defined.

Section NegativeLimit.

Variable E : Externals.

Lemma total_nonneg (ds : list Q) : Forall (fun d => (0 <= d)%Q) ds -> (0 <= total ds)%Q.
Proof.
  induction 1 as [|d ds Hd _ IH]; cbn [total fold_right]; [lra|].
  fold (total ds). lra.
Qed.

(** X15: a negative limit is not refused: the duration becomes the
    smaller of the announced total and the limit, and with announced
    durations that are not negative it is the negative limit itself. *)
Theorem init_negative_limit :
  forall (depth fuel : nat) (url : string) (max_attempts wait : Z) (limit : Q)
         (quality : Z) (w w' : World) (self : Self),
    __init__ E depth fuel url max_attempts wait limit quality w = (Return self, w') ->
    (limit < 0)%Q ->
    exists ds : list Q,
      times self = 0%Q :: ds
      /\ (duration self == Qmin (total ds) limit)%Q
      /\ (Forall (fun d => (0 <= d)%Q) ds -> (duration self == limit)%Q).
Proof.
  intros depth fuel url m wt limit q w w' self Hinit Hneg.
  destruct (init_inv E _ _ _ _ _ _ _ _ _ _ Hinit)
    as (manifest_url & w1 & manifest & w2 & ds & first & c & _ & _ & _ & _ & _ & ->).
  exists ds. cbn [times duration].
  assert (Hd : (total_duration (0 :: ds) limit == Qmin (total ds) limit)%Q).
  { unfold total_duration. destruct (Qeq_bool limit 0) eqn:Hz.
    - apply Qeq_bool_iff in Hz. lra.
    - cbn [negb]. rewrite py_min_Qmin, py_sum_times. reflexivity. }
  split; [reflexivity|]. split; [exact Hd|].
  intros Hds. rewrite Hd. pose proof (total_nonneg ds Hds). apply Q.min_r. lra.
Qed.

End NegativeLimit.

(** The sample stream with a limit of -5 seconds. *)
Lemma init_negative_limit_witness :
  exists (self : Self) (w' : World),
    __init__ Stream.externals 3 3 Stream.landing_url 3 10 (-5) 3200000 world0
    = (Return self, w')
    /\ times self = [0; 2.0; 3.5; 1.5]%Q
    /\ (duration self == -5)%Q.
Proof.
  assert (H : exists self w',
             __init__ Stream.externals 3 3 Stream.landing_url 3 10 (-5) 3200000 world0
             = (Return self, w')) by (vm_compute; eauto).
  destruct H as (self & w' & H). exists self, w'. split; [exact H|].
  destruct (init_negative_limit Stream.externals _ _ _ _ _ _ _ _ _ _ H ltac:(reflexivity))
    as (ds & Htimes & _ & Hlimit).
  assert (Hds : ds = [2.0; 3.5; 1.5]%Q).
  { destruct (init_inv Stream.externals _ _ _ _ _ _ _ _ _ _ H)
      as (mu & w1 & mf & w2 & ds' & first & c & Hman & Hget & Hds' & _ & _ & ->).
    cbn [times] in Htimes. injection Htimes as <-.
    vm_compute in Hman. injection Hman as <- <-.
    vm_compute in Hget. injection Hget as <- <-.
    vm_compute in Hds'. injection Hds' as <-. reflexivity. }
  subst ds. split; [exact Htimes|]. apply Hlimit. repeat constructor; discriminate.
Defined.

(** ** The accumulated sound track *)

Section SoundTrack.

Variable E : Externals.

Lemma get_next_clip_store fuel m wt url w res w' :
  _get_next_clip E fuel m wt url w = (res, w') ->
  (forall c, res = Return c ->
             exists params frames,
               media_audio (media c) = Some (params, frames)
               /\ audio_params w'
                  = Some (match audio_params w with Some p0 => p0 | None => params end))
  /\ ((forall c, res <> Return c) -> audio_params w' = audio_params w).
Proof.
  unfold _get_next_clip. intros H.
  unfold bind at 1, mktemp at 1 in H.
  unfold bind at 1 in H. unfold trying_get in H.
  match type of H with
  | context [trying_get_loop E fuel url m wt NoKwargs m ?w0] =>
      destruct (trying_get_loop E fuel url m wt NoKwargs m w0) as [r0 w1] eqn:Hget
  end.
  apply trying_get_loop_effect in Hget. cbn [gets temps audio_params trace] in Hget.
  destruct Hget as (_ & Ha & _ & _).
  destruct r0 as [r0|e|].
  2,3: injection H as <- <-; split; [intros c Hc; discriminate | intros _; exact Ha].
  unfold bind at 1, emit at 1 in H. cbn [gets temps audio_params trace] in H.
  destruct r0 as [r|].
  - cbn [attr] in H. unfold bind at 1, ret at 1 in H.
    unfold bind at 1, emit at 1 in H.
    unfold bind at 1, lift_res at 1 in H.
    destruct (decode E (resp_content r)) as [md|e|] eqn:Hdec.
    + unfold bind at 1, emit at 1 in H. cbn [gets temps audio_params trace] in H.
      unfold bind at 1, mktemp at 1 in H. cbn [gets temps audio_params trace] in H.
      destruct (media_audio md) as [[params frames]|] eqn:Haudio.
      * unfold bind at 1, emit at 1 in H. cbn [gets temps audio_params trace] in H.
        unfold bind at 1, set_audio_params at 1 in H.
        cbn [gets temps audio_params trace] in H.
        unfold bind at 1, emit at 1 in H. cbn [gets temps audio_params trace] in H.
        unfold bind at 1, emit at 1 in H. cbn [gets temps audio_params trace] in H.
        unfold ret in H. injection H as <- <-. cbn [audio_params].
        split.
        -- intros c [= <-]. exists params, frames. cbn [media]. rewrite Ha.
           split; [exact Haudio|]. destruct (audio_params w); reflexivity.
        -- intros Hno. exfalso. eapply Hno. reflexivity.
      * unfold raise in H. injection H as <- <-. cbn [audio_params].
        split; [intros c Hc; discriminate | intros _; exact Ha].
    + injection H as <- <-. cbn [audio_params].
      split; [intros c Hc; discriminate | intros _; exact Ha].
    + injection H as <- <-. cbn [audio_params].
      split; [intros c Hc; discriminate | intros _; exact Ha].
  - cbn [attr] in H. unfold bind at 1, raise at 1 in H. injection H as <- <-.
    cbn [audio_params]. split; [intros c Hc; discriminate | intros _; exact Ha].
Qed.

Lemma get_next_clip_header fuel m wt url w res w' p :
  _get_next_clip E fuel m wt url w = (res, w') ->
  audio_params w = Some p -> audio_params w' = Some p.
Proof.
  intros H Hp. destruct (get_next_clip_store _ _ _ _ _ _ _ H) as [Hret Hno].
  destruct res as [c|e|].
  - destruct (Hret c eq_refl) as (params & frames & _ & Hw'). rewrite Hw', Hp. reflexivity.
  - rewrite Hno, Hp; [reflexivity | intros c Hc; discriminate].
  - rewrite Hno, Hp; [reflexivity | intros c Hc; discriminate].
Qed.

Lemma make_frame_header fuel t self w res self' w' p :
  _make_frame E fuel t (self, w) = (res, (self', w')) ->
  audio_params w = Some p -> audio_params w' = Some p.
Proof.
  intros H Hp.
  destruct (Qlt_bool (clip_duration (current_clip self)) (t - pos self)) eqn:Hcmp.
  - rewrite (make_frame_advance E) in H by exact Hcmp.
    destruct (nth_error (paths self) (clip self + 1)) as [url|].
    + destruct (_get_next_clip E fuel (_max_attempts self) (_wait self) url (released self w))
        as [r w2] eqn:Hclip.
      apply (get_next_clip_header _ _ _ _ _ _ _ p) in Hclip; [|exact Hp].
      destruct r as [c|e|]; injection H as _ _ <-; exact Hclip.
    + injection H as _ _ <-. exact Hp.
  - rewrite (make_frame_stay E) in H by exact Hcmp. injection H as _ _ <-. exact Hp.
Qed.

Lemma frame_requests_header fuel p :
  forall ts self w res m1,
    frame_requests E fuel ts (self, w) = (res, m1) ->
    audio_params w = Some p -> audio_params (snd m1) = Some p.
Proof.
  induction ts as [|t ts IH]; intros self w res m1 H Hp; cbn [frame_requests] in H.
  - unfold ret in H. injection H as _ <-. exact Hp.
  - unfold bind at 1 in H.
    destruct (_make_frame E fuel t (self, w)) as [r [self' w']] eqn:Hstep.
    pose proof (make_frame_header _ _ _ _ _ _ _ _ Hstep Hp) as Hp'.
    destruct r as [f|e|].
    + unfold bind at 1 in H.
      destruct (frame_requests E fuel ts (self', w')) as [r' m'] eqn:Hrest.
      pose proof (IH _ _ _ _ Hrest Hp') as Hfinal.
      destruct r' as [fs|e|]; unfold ret in H; injection H as _ <-; exact Hfinal.
    + injection H as _ <-. exact Hp'.
    + injection H as _ <-. exact Hp'.
Qed.

Lemma trying_get_store fuel url m wt kw w res w' :
  trying_get E fuel url m wt kw w = (res, w') ->
  temps w' = temps w /\ audio_params w' = audio_params w.
Proof.
  unfold trying_get. intros H. apply (trying_get_loop_effect E) in H.
  destruct H as (Ht & Ha & _). split; assumption.
Qed.

Lemma get_quality_store fuel sm sw url q w res w' :
  get_quality E fuel sm sw url q w = (res, w') ->
  temps w' = temps w /\ audio_params w' = audio_params w.
Proof.
  unfold get_quality. intros H. unfold bind at 1 in H.
  destruct (trying_get E fuel url sm sw NoKwargs w) as [r w1] eqn:Hget.
  apply trying_get_store in Hget.
  destruct r as [[r|]|e|].
  - cbn [attr] in H. unfold bind at 1, ret at 1 in H.
    unfold bind at 1, lift_res at 1 in H.
    destruct (decode_utf8 E (resp_content r)) as [text|e|];
      unfold lift_res in H; injection H as _ <-; exact Hget.
  - cbn [attr] in H. unfold bind at 1, raise at 1 in H. injection H as _ <-. exact Hget.
  - injection H as _ <-. exact Hget.
  - injection H as _ <-. exact Hget.
Qed.

Lemma store_trans (w w1 w2 : World) :
  temps w1 = temps w /\ audio_params w1 = audio_params w ->
  temps w2 = temps w1 /\ audio_params w2 = audio_params w1 ->
  temps w2 = temps w /\ audio_params w2 = audio_params w.
Proof. intros [H1 H2] [H3 H4]. split; congruence. Qed.

Lemma get_manifest_store sm sw q m wt fuel :
  forall depth url w res w',
    get_manifest E depth fuel sm sw url q m wt w = (res, w') ->
    temps w' = temps w /\ audio_params w' = audio_params w.
Proof.
  induction depth as [|depth IH]; intros url w res w' H; cbn [get_manifest] in H.
  - unfold raise in H. injection H as _ <-. split; reflexivity.
  - destruct (contains "/Manifest" url).
    { unfold ret in H. injection H as _ <-. split; reflexivity. }
    destruct (contains "/manifest" url).
    { apply get_quality_store in H. exact H. }
    unfold bind at 1 in H.
    destruct (trying_get E fuel url MAX_ATTEMPTS WAIT NoKwargs w) as [r w1] eqn:Hget.
    apply trying_get_store in Hget.
    destruct r as [[r|]|e|]; try (unfold raise in H; injection H as _ <-; exact Hget).
    unfold bind at 1, subscript at 1 in H.
    destruct (nth_error _ 0) as [cookie|];
      [|unfold raise in H; injection H as _ <-; exact Hget].
    unfold ret at 1 in H. unfold bind at 1, lift_res at 1 in H.
    destruct (get_video_id E r) as [id|e|]; try (injection H as _ <-; exact Hget).
    unfold bind at 1 in H.
    match type of H with
    | context [trying_get E fuel ?u m wt ?kw w1] =>
        destruct (trying_get E fuel u m wt kw w1) as [r2 w2] eqn:Hget2
    end.
    apply trying_get_store in Hget2.
    pose proof (store_trans _ _ _ Hget Hget2) as Hboth.
    destruct r2 as [[r2|]|e|]; try (injection H as _ <-; exact Hboth).
    cbn [attr] in H. unfold bind at 1, ret at 1 in H.
    unfold bind at 1, lift_res at 1 in H.
    destruct (master_playlist_url E (resp_content r2)) as [url'|e|];
      try (injection H as _ <-; exact Hboth).
    apply IH in H. exact (store_trans _ _ _ Hboth H).
Qed.

(** X16: the header of the accumulated wave file is set once, from the
    sound track of the first fragment, and no frame request changes it
    afterwards, whichever fragments it fetches and however it ends. *)
Theorem audio_header_first_fragment :
  forall (depth fuel fuel' : nat) (url : string) (max_attempts wait : Z) (limit : Q)
         (quality : Z) (w w0 : World) (self0 : Self)
         (ts : list Q) (res : Res (list Frame)) (m1 : Machine),
    audio_params w = None ->
    __init__ E depth fuel url max_attempts wait limit quality w = (Return self0, w0) ->
    frame_requests E fuel' ts (self0, w0) = (res, m1) ->
    exists (params : wave_params) (frames : string),
      media_audio (media (current_clip self0)) = Some (params, frames)
      /\ audio_params w0 = Some params
      /\ audio_params (snd m1) = Some params.
Proof.
  intros depth fuel fuel' url m wt limit q w w0 self0 ts res m1 Hw Hinit Hrun.
  destruct (init_inv E _ _ _ _ _ _ _ _ _ _ Hinit)
    as (manifest_url & w1 & manifest & w2 & ds & first & c
        & Hman & Hget & _ & _ & Hclip & ->).
  apply get_manifest_store in Hman. apply trying_get_store in Hget.
  destruct (store_trans _ _ _ Hman Hget) as [_ Ha].
  destruct (get_next_clip_store _ _ _ _ _ _ _ Hclip) as [Hret _].
  destruct (Hret c eq_refl) as (params & frames & Haudio & Hw0).
  unfold wave_opened in Hw0. cbn [audio_params] in Hw0. rewrite Ha, Hw in Hw0.
  exists params, frames. cbn [current_clip].
  split; [exact Haudio|]. split; [exact Hw0|].
  exact (frame_requests_header _ _ _ _ _ _ _ Hrun Hw0).
Qed.

Lemma audio_track_app (a b : list event) :
  audio_track (a ++ b) = audio_track a ++ audio_track b.
Proof. unfold audio_track. apply flat_map_app. Qed.

Lemma audio_track_quiet (evs : list event) :
  Forall (fun e => quiet e = true) evs -> audio_track evs = [].
Proof.
  induction 1 as [|e evs He _ IH]; [reflexivity|].
  cbn [audio_track flat_map]. fold (audio_track evs). rewrite IH.
  destruct e; try discriminate; reflexivity.
Qed.

(** What a fetched fragment adds to the sound track. *)
Lemma get_next_clip_track fuel m wt url w c w' ps tracks i :
  fragment_audio E ps tracks ->
  nth_error ps i = Some url ->
  _get_next_clip E fuel m wt url w = (Return c, w') ->
  audio_track (trace w') = audio_track (trace w) ++ [nth i tracks EmptyString].
Proof.
  intros [_ Hfa] Hurl H.
  destruct (get_next_clip_inv E _ _ _ _ _ _ _ H) as (evs & Hq & Hcases).
  destruct Hcases as [(c' & content & params & frames & Hc & _ & Hf & Haudio & Htr) | [Hno _]].
  - injection Hc as <-. destruct Hf as (g & r & Hnet & Hdec).
    rewrite (Hfa g i url r (media c) params frames Hurl Hnet Hdec Haudio) in Htr.
    rewrite Htr, !audio_track_app, (audio_track_quiet _ Hq). reflexivity.
  - exfalso. apply (Hno c). reflexivity.
Qed.

Lemma make_frame_track ps tracks fuel t self w f self' w' :
  fragment_audio E ps tracks ->
  track_ok ps tracks (self, w) ->
  _make_frame E fuel t (self, w) = (Return f, (self', w')) ->
  track_ok ps tracks (self', w').
Proof.
  intros Hfa (Hps & Hlt & Htrack) H. cbn [fst snd] in *.
  destruct (Qlt_bool (clip_duration (current_clip self)) (t - pos self)) eqn:Hcmp.
  - rewrite (make_frame_advance E) in H by exact Hcmp.
    destruct (nth_error (paths self) (clip self + 1)) as [url|] eqn:Hurl; [|discriminate].
    destruct (_get_next_clip E fuel (_max_attempts self) (_wait self) url (released self w))
      as [[c|e|] w2] eqn:Hclip; try discriminate.
    injection H as _ <- <-.
    rewrite Hps in Hurl.
    pose proof (get_next_clip_track _ _ _ _ _ _ _ _ _ _ Hfa Hurl Hclip) as Htr.
    unfold released in Htr. cbn [trace] in Htr.
    rewrite audio_track_app in Htr. cbn [audio_track flat_map app] in Htr.
    rewrite app_nil_r in Htr. fold (audio_track (trace w)) in Htr.
    unfold track_ok. cbn [fst snd paths clip set_current_clip advanced set_clip set_pos].
    assert (Hlt' : (clip self + 1 < List.length ps)%nat)
      by (apply nth_error_Some; congruence).
    split; [exact Hps|]. split; [exact Hlt'|].
    rewrite Htr, Htrack.
    replace (clip self + 1)%nat with (S (clip self)) in * by lia.
    symmetry. apply firstn_S_nth. destruct Hfa as [Hlen _]. lia.
  - rewrite (make_frame_stay E) in H by exact Hcmp. injection H as _ <- <-.
    split; [exact Hps|]. split; assumption.
Qed.

Lemma frame_requests_track ps tracks fuel :
  fragment_audio E ps tracks ->
  forall ts self w fs m1,
    track_ok ps tracks (self, w) ->
    frame_requests E fuel ts (self, w) = (Return fs, m1) ->
    track_ok ps tracks m1.
Proof.
  intros Hfa. induction ts as [|t ts IH]; intros self w fs m1 Hok H.
  - cbn [frame_requests] in H. unfold ret in H. injection H as _ <-. exact Hok.
  - cbn [frame_requests] in H. unfold bind at 1 in H.
    destruct (_make_frame E fuel t (self, w)) as [[f|e|] [self' w']] eqn:Hstep;
      try discriminate.
    pose proof (make_frame_track _ _ _ _ _ _ _ _ _ Hfa Hok Hstep) as Hok'.
    unfold bind at 1 in H.
    destruct (frame_requests E fuel ts (self', w')) as [[fs'|e|] m'] eqn:Hrest;
      try discriminate.
    unfold ret in H. injection H as _ <-.
    exact (IH _ _ _ _ Hok' Hrest).
Qed.

(** X17: the accumulated wave file holds the sound of the fragments
    fetched so far, each once and in the order of the catalog: after the
    constructor that of the first fragment, and after any list of
    answered frame requests those of the fragments 0 to [clip]. *)
Theorem audio_track_in_order :
  forall (depth fuel fuel' : nat) (url : string) (max_attempts wait : Z) (limit : Q)
         (quality : Z) (w w0 : World) (self0 : Self) (tracks : list string)
         (ts : list Q) (fs : list Frame) (m1 : Machine),
    audio_track (trace w) = [] ->
    __init__ E depth fuel url max_attempts wait limit quality w = (Return self0, w0) ->
    fragment_audio E (paths self0) tracks ->
    frame_requests E fuel' ts (self0, w0) = (Return fs, m1) ->
    audio_track (trace w0) = firstn 1 tracks
    /\ audio_track (trace (snd m1)) = firstn (S (clip (fst m1))) tracks
    /\ (clip (fst m1) < List.length tracks)%nat.
Proof.
  intros depth fuel fuel' url m wt limit q w w0 self0 tracks ts fs m1 Hw Hinit Hfa Hrun.
  assert (Hok : track_ok (paths self0) tracks (self0, w0)).
  { destruct (init_inv E _ _ _ _ _ _ _ _ _ _ Hinit)
      as (manifest_url & w1 & manifest & w2 & ds & first & c
          & Hman & Hget & _ & Hfirst & Hclip & ->).
    cbn [paths] in Hfa.
    apply get_manifest_quiet in Hman. apply trying_get_quiet in Hget.
    destruct (quiet_trans _ _ _ Hman Hget) as (evs & Htr & Hq).
    pose proof (get_next_clip_track _ _ _ _ _ _ _ _ _ _ Hfa Hfirst Hclip) as Htrack.
    unfold wave_opened in Htrack. cbn [trace] in Htrack.
    rewrite Htr, !audio_track_app, Hw, (audio_track_quiet _ Hq) in Htrack.
    cbn [audio_track flat_map app] in Htrack.
    assert (Hlen : (0 < List.length tracks)%nat).
    { destruct Hfa as [Hlen _]. rewrite Hlen. apply nth_error_Some. congruence. }
    unfold track_ok. cbn [fst snd paths clip].
    split; [reflexivity|]. split; [apply nth_error_Some; congruence|].
    rewrite Htrack. destruct tracks; [cbn in Hlen; lia | reflexivity]. }
  pose proof (frame_requests_track _ _ _ Hfa _ _ _ _ _ Hok Hrun) as (Hps & Hlt & Htrack).
  split; [|split].
  - destruct Hok as (_ & _ & H0). cbn [fst snd] in H0.
    rewrite H0. destruct (init_stitching E _ _ _ _ _ _ _ _ _ _ [] Hinit) as (_ & -> & _).
    reflexivity.
  - exact Htrack.
  - destruct Hfa as [Hlen _]. rewrite Hlen. exact Hlt.
Qed.

End SoundTrack.

Lemma stream_fragment_audio :
  fragment_audio Stream.externals StreamState.paths ["AAAA"; "BBBBBBB"; "CCC"]%string.
Proof.
  split; [reflexivity|].
  intros g i url r m params frames Hurl Hnet Hdec Haudio.
  destruct i as [|[|[|i]]]; cbn in Hurl.
  4: destruct i; discriminate.
  all: injection Hurl as <-; vm_compute in Hnet; injection Hnet as <-;
    vm_compute in Hdec; injection Hdec as <-; cbn in Haudio; injection Haudio as _ <-;
    reflexivity.
Qed.

(** The sample stream: the header of the wave file is that of the first
    fragment, before and after the frames at 0, 2.5 and 6 seconds. *)
Lemma audio_header_first_fragment_witness :
  exists (self0 : Self) (w0 : World) (m1 : Machine) (params : wave_params) (frames : string),
    __init__ Stream.externals 3 3 Stream.landing_url 3 10 0 3200000 world0
    = (Return self0, w0)
    /\ frame_requests Stream.externals 3 [0; 2.5; 6; 8]%Q (self0, w0) = (Raise IndexError, m1)
    /\ media_audio (media (current_clip self0)) = Some (params, frames)
    /\ audio_params w0 = Some params
    /\ audio_params (snd m1) = Some params.
Proof.
  assert (H : exists self0 w0 m1,
             __init__ Stream.externals 3 3 Stream.landing_url 3 10 0 3200000 world0
             = (Return self0, w0)
             /\ frame_requests Stream.externals 3 [0; 2.5; 6; 8]%Q (self0, w0)
                = (Raise IndexError, m1))
    by (do 3 eexists; split; vm_compute; reflexivity).
  destruct H as (self0 & w0 & m1 & Hinit & Hrun).
  destruct (audio_header_first_fragment Stream.externals 3 3 3 Stream.landing_url 3 10 0
              3200000 world0 w0 self0 _ _ m1 eq_refl Hinit Hrun)
    as (params & frames & H1 & H2 & H3).
  exists self0, w0, m1, params, frames. repeat split; assumption.
Defined.

(** The sample stream after the frames at 0, 2.5 and 6 seconds: the
    sound of the three fragments, in their order. *)
Lemma audio_track_in_order_witness :
  exists (self0 : Self) (w0 : World) (fs : list Frame) (m1 : Machine),
    __init__ Stream.externals 3 3 Stream.landing_url 3 10 0 3200000 world0
    = (Return self0, w0)
    /\ frame_requests Stream.externals 3 [0; 2.5; 6]%Q (self0, w0) = (Return fs, m1)
    /\ audio_track (trace w0) = firstn 1 ["AAAA"; "BBBBBBB"; "CCC"]%string
    /\ audio_track (trace (snd m1))
       = firstn (S (clip (fst m1))) ["AAAA"; "BBBBBBB"; "CCC"]%string
    /\ (clip (fst m1) < List.length ["AAAA"; "BBBBBBB"; "CCC"]%string)%nat.
Proof.
  do 4 eexists. split; [vm_compute; reflexivity|].
  split; [vm_compute; reflexivity|].
  eapply (audio_track_in_order Stream.externals 3 3 3 Stream.landing_url 3 10 0 3200000
            world0) with (ts := [0; 2.5; 6]%Q).
  - reflexivity.
  - vm_compute; reflexivity.
  - exact stream_fragment_audio.
  - vm_compute; reflexivity.
Defined.

(** ** How far the stitcher reaches *)

Section StitcherReach.

Variable E : Externals.









End StitcherReach.



(** ** What the constructor does first *)

Section ConstructorFailure.

Variable E : Externals.

Lemma get_next_clip_extends fuel m wt url w res w' :
  _get_next_clip E fuel m wt url w = (res, w') ->
  exists rest, trace w' = trace w ++ rest.
Proof.
  intros H. destruct (get_next_clip_inv E _ _ _ _ _ _ _ H) as (evs & _ & Hcases).
  destruct Hcases as [(c & content & params & frames & _ & _ & _ & _ & Htr)
                     | [_ [Htr | [Htr | [[content Htr] | [content Htr]]]]]];
    rewrite Htr; eexists; reflexivity.
Qed.

(** X20: the constructor touches no file before the manifest is
    resolved, fetched and read.  Whatever its outcome, its effects are
    requests, warnings and pauses, and then either nothing more (in
    which case it has not returned, no temporary name was taken and the
    header of the wave file is as before) or the opening of the wave
    file under the first temporary name. *)
Theorem init_first_effect :
  forall (depth fuel : nat) (url : string) (max_attempts wait : Z) (limit : Q)
         (quality : Z) (w w' : World) (res : Res Self),
    __init__ E depth fuel url max_attempts wait limit quality w = (res, w') ->
    exists transport,
      Forall (fun e => quiet e = true) transport
      /\ ((trace w' = trace w ++ transport
           /\ temps w' = temps w
           /\ audio_params w' = audio_params w
           /\ forall self, res <> Return self)
          \/ exists rest,
               trace w' = trace w ++ transport ++ EvOpenWave (temps w, ".wav") :: rest).
Proof.
  intros depth fuel url m wt limit q w w' res H.
  unfold __init__ in H. unfold bind at 1 in H.
  destruct (get_manifest E depth fuel m wt url q m wt w) as [r1 w1] eqn:Hman.
  pose proof (get_manifest_quiet E _ _ _ _ _ _ _ _ _ _ _ Hman) as Hq1.
  pose proof (get_manifest_store E _ _ _ _ _ _ _ _ _ _ _ Hman) as Hs1.
  assert (Hfail1 : forall (e : Res Self), (forall self, e <> Return self) ->
                     (e, w1) = (res, w') ->
                     exists transport,
      Forall (fun e => quiet e = true) transport
      /\ ((trace w' = trace w ++ transport
           /\ temps w' = temps w
           /\ audio_params w' = audio_params w
           /\ forall self, res <> Return self)
          \/ exists rest,
               trace w' = trace w ++ transport ++ EvOpenWave (temps w, ".wav") :: rest)).
  { intros e He [= <- <-]. destruct Hq1 as (evs & Htr & Hq). destruct Hs1 as [Ht Ha].
    exists evs. split; [exact Hq|]. left. repeat split; assumption. }
  destruct r1 as [manifest_url|e|];
    [| apply (Hfail1 (Raise e)); [intros self Hs; discriminate | exact H]
     | apply (Hfail1 Unfinished); [intros self Hs; discriminate | exact H]].
  clear Hfail1.
  unfold bind at 1 in H.
  destruct (trying_get E fuel manifest_url m wt NoKwargs w1) as [r2 w2] eqn:Hget.
  pose proof (quiet_trans _ _ _ Hq1 (trying_get_quiet E _ _ _ _ _ _ _ _ Hget)) as Hq2.
  pose proof (store_trans _ _ _ Hs1 (trying_get_store E _ _ _ _ _ _ _ _ Hget)) as Hs2.
  destruct Hq2 as (evs & Htr & Hq). destruct Hs2 as [Ht Ha].
  exists evs. split; [exact Hq|].
  destruct r2 as [[manifest|]|e|].
  - cbn [attr] in H. unfold bind at 1, ret at 1 in H.
    unfold bind at 1, lift_res at 1 in H.
    destruct (extinf_durations E _) as [ds|e|].
    + unfold bind at 1, mktemp at 1 in H. unfold bind at 1, emit at 1 in H.
      cbn [gets temps audio_params trace] in H.
      unfold bind at 1, subscript at 1 in H.
      destruct (nth_error _ 0) as [first|].
      * unfold ret at 1 in H. unfold bind at 1 in H.
        match type of H with
        | context [_get_next_clip E fuel m wt first ?w3] =>
            destruct (_get_next_clip E fuel m wt first w3) as [r3 w4] eqn:Hclip
        end.
        apply get_next_clip_extends in Hclip. destruct Hclip as [rest Hrest].
        cbn [trace] in Hrest.
        right. exists rest.
        assert (Hw' : w' = w4) by (destruct r3; injection H as _ <-; reflexivity).
        rewrite Hw', Hrest, Htr, Ht. rewrite <- !app_assoc. reflexivity.
      * unfold raise in H. injection H as _ <-. cbn [trace].
        right. exists []. rewrite Htr, Ht. rewrite <- !app_assoc. reflexivity.
    + injection H as <- <-. left. repeat split; try assumption. intros self Hs; discriminate.
    + injection H as <- <-. left. repeat split; try assumption. intros self Hs; discriminate.
  - cbn [attr] in H. unfold bind at 1, raise at 1 in H. injection H as <- <-.
    left. repeat split; try assumption. intros self Hs; discriminate.
  - injection H as <- <-. left. repeat split; try assumption. intros self Hs; discriminate.
  - injection H as <- <-. left. repeat split; try assumption. intros self Hs; discriminate.
Qed.

End ConstructorFailure.

(** The sample stream asked for a bitrate that is not on offer. *)
Lemma init_first_effect_witness :
  exists transport,
    Forall (fun e => quiet e = true) transport
    /\ ((trace (snd (__init__ Stream.externals 3 3 Stream.master_url 3 10 0 9999999 world0))
         = trace world0 ++ transport
         /\ temps (snd (__init__ Stream.externals 3 3 Stream.master_url 3 10 0 9999999 world0))
            = temps world0
         /\ audio_params (snd (__init__ Stream.externals 3 3 Stream.master_url 3 10 0 9999999
                                        world0))
            = audio_params world0
         /\ forall self,
              fst (__init__ Stream.externals 3 3 Stream.master_url 3 10 0 9999999 world0)
              <> Return self)
        \/ exists rest,
             trace (snd (__init__ Stream.externals 3 3 Stream.master_url 3 10 0 9999999 world0))
             = trace world0 ++ transport ++ EvOpenWave (temps world0, ".wav") :: rest).
Proof.
  apply (init_first_effect Stream.externals 3 3 Stream.master_url 3 10 0 9999999 world0).
  apply surjective_pairing.
Defined.

(** ** From the command line to the output file *)

Section Lifecycle.

Variable E : Externals.

(** What [download] comes to: the frame requests of the library, one
    list after the other, and then the steps that finish the output. *)
Lemma download_run fuel file probe ts self w steps :
  Job.download E fuel file probe ts ((self, w), steps)
  = let tmp := (temps w, ".mp4") in
    let w1 := mkWorld (gets w) (S (temps w)) (audio_params w) (trace w) in
    match frame_requests E fuel probe (self, w1) with
    | (Return _, m0) =>
        match frame_requests E fuel ts m0 with
        | (Return frames, m1) =>
            let wav := wav_file (fst m1) in
            (Return tt,
             ((fst m1,
               mkWorld (gets (snd m1)) (temps (snd m1)) (audio_params (snd m1))
                       (trace (snd m1)
                        ++ [EvCreateFile tmp; EvOpenClip tmp; EvCloseClip tmp;
                            EvRemove tmp; EvRemove wav])),
              steps ++ [Job.Encoded tmp (Job.fps (fst m0)) frames; Job.WaveClosed wav;
                        Job.AudioOpened wav; Job.Written file tmp wav;
                        Job.AudioClosed wav]))
        | (Raise e, m1) => (Raise e, (m1, steps))
        | (Unfinished, m1) => (Unfinished, (m1, steps))
        end
    | (Raise e, m0) => (Raise e, (m0, steps))
    | (Unfinished, m0) => (Unfinished, (m0, steps))
    end.
Proof.
  unfold Job.download. cbv zeta.
  unfold bind at 1, Job.in_machine at 1, in_world at 1, mktemp at 1. cbn [fst snd].
  unfold bind at 1, Job.in_machine at 1. cbn [fst snd].
  destruct (frame_requests E fuel probe (self, _)) as [[shown|e|] m0]; try reflexivity.
  unfold bind at 1, Job.in_machine at 1, get_self at 1. cbn [fst snd].
  unfold bind at 1, Job.in_machine at 1. cbn [fst snd].
  destruct (frame_requests E fuel ts m0) as [[frames|e|] [self1 w1]]; try reflexivity.
  cbn. rewrite <- !app_assoc. reflexivity.
Qed.

Lemma get_next_clip_temps fuel m wt url w c w' :
  _get_next_clip E fuel m wt url w = (Return c, w') ->
  filename c = (temps w, ".mp4") /\ temps w' = S (S (temps w)).
Proof.
  intros H. split.
  - destruct (get_next_clip_inv E _ _ _ _ _ _ _ H) as (evs & _ & Hcases).
    destruct Hcases as [(c' & content & params & frames & Hc & Hname & _) | [Hno _]].
    + injection Hc as <-. exact Hname.
    + exfalso. apply (Hno c). reflexivity.
  - unfold _get_next_clip in H.
    unfold bind at 1, mktemp at 1 in H.
    unfold bind at 1 in H. unfold trying_get in H.
    match type of H with
    | context [trying_get_loop E fuel url m wt NoKwargs m ?w0] =>
        destruct (trying_get_loop E fuel url m wt NoKwargs m w0) as [r0 w1] eqn:Hget
    end.
    apply trying_get_loop_effect in Hget. cbn [gets temps audio_params trace] in Hget.
    destruct Hget as (Ht & _).
    destruct r0 as [[r|]|e|]; try discriminate.
    { unfold bind at 1, emit at 1 in H. cbn [gets temps audio_params trace] in H.
      cbn [attr] in H. unfold bind at 1, ret at 1 in H.
      unfold bind at 1, emit at 1 in H.
      unfold bind at 1, lift_res at 1 in H.
      destruct (decode E (resp_content r)) as [md|e|]; try discriminate.
      unfold bind at 1, emit at 1 in H. cbn [gets temps audio_params trace] in H.
      unfold bind at 1, mktemp at 1 in H. cbn [gets temps audio_params trace] in H.
      destruct (media_audio md) as [[params frames]|]; [|discriminate].
      unfold bind at 1, emit at 1 in H. cbn [gets temps audio_params trace] in H.
      unfold bind at 1, set_audio_params at 1 in H.
      cbn [gets temps audio_params trace] in H.
      unfold bind at 1, emit at 1 in H. cbn [gets temps audio_params trace] in H.
      unfold bind at 1, emit at 1 in H. cbn [gets temps audio_params trace] in H.
      unfold ret in H. injection H as _ <-. cbn [temps]. rewrite Ht. reflexivity. }
Qed.

Lemma make_frame_tidy serial fuel t self w f self' w' :
  tidy serial (self, w) ->
  _make_frame E fuel t (self, w) = (Return f, (self', w')) ->
  tidy serial (self', w') /\ wav_file self' = wav_file self.
Proof.
  intros (Hne & Hmp4 & Hwav & Hlt) H. cbn [fst snd] in *.
  destruct (Qlt_bool (clip_duration (current_clip self)) (t - pos self)) eqn:Hcmp.
  - rewrite (make_frame_advance E) in H by exact Hcmp.
    destruct (nth_error (paths self) (clip self + 1)) as [url|]; [|discriminate].
    destruct (_get_next_clip E fuel (_max_attempts self) (_wait self) url (released self w))
      as [[c|e|] w2] eqn:Hclip; try discriminate.
    injection H as _ <- <-.
    destruct (get_next_clip_temps _ _ _ _ _ _ _ Hclip) as [Hname Htemps].
    unfold released in Hname, Htemps. cbn [temps] in Hname, Htemps.
    unfold tidy. cbn [fst snd current_clip wav_file set_current_clip advanced set_clip set_pos].
    rewrite Hname, Htemps. cbn [fst snd].
    split; [|reflexivity]. repeat split; try assumption; lia.
  - rewrite (make_frame_stay E) in H by exact Hcmp. injection H as _ <- <-.
    split; [|reflexivity]. repeat split; assumption.
Qed.

(** A list of frame requests that are all answered leaves the resident
    clip as the only thing held. *)
Lemma frame_requests_settled serial fuel :
  forall ts self w fs m1,
    resident_only (self, w) ->
    tidy serial (self, w) ->
    frame_requests E fuel ts (self, w) = (Return fs, m1) ->
    resident_only m1 /\ tidy serial m1 /\ wav_file (fst m1) = wav_file self.
Proof.
  induction ts as [|t ts IH]; intros self w fs m1 Hres Htidy H; cbn [frame_requests] in H.
  - unfold ret in H. injection H as _ <-.
    split; [exact Hres | split; [exact Htidy | reflexivity]].
  - unfold bind at 1 in H.
    destruct (_make_frame E fuel t (self, w)) as [[f|e|] [self' w']] eqn:Hstep;
      try discriminate.
    destruct (make_frame_residency E _ _ _ _ _ _ _ Hres Hstep) as [_ Hnext].
    destruct (make_frame_tidy _ _ _ _ _ _ _ _ Htidy Hstep) as [Htidy' Hwav].
    unfold bind at 1 in H.
    destruct (frame_requests E fuel ts (self', w')) as [[fs'|e|] m'] eqn:Hrest;
      try discriminate.
    unfold ret in H. injection H as _ <-.
    destruct (IH _ _ _ _ (Hnext f eq_refl) Htidy' Hrest) as (H1 & H2 & H3).
    split; [exact H1 | split; [exact H2 | congruence]].
Qed.

Lemma init_tidy depth fuel url m wt limit q w self w' :
  __init__ E depth fuel url m wt limit q w = (Return self, w') ->
  tidy (temps w') (self, mkWorld (gets w') (S (temps w')) (audio_params w') (trace w')).
Proof.
  intros H.
  destruct (init_inv E _ _ _ _ _ _ _ _ _ _ H)
    as (manifest_url & w1 & manifest & w2 & ds & first & c & _ & _ & _ & _ & Hclip & ->).
  destruct (get_next_clip_temps _ _ _ _ _ _ _ Hclip) as [Hname Htemps].
  unfold wave_opened in Hname, Htemps. cbn [temps] in Hname, Htemps.
  unfold tidy. cbn [fst snd current_clip wav_file temps].
  rewrite Hname, Htemps. cbn [fst snd]. repeat split; lia.
Qed.

Lemma close_run self w steps :
  Job.close ((self, w), steps)
  = (Return tt,
     ((self, mkWorld (gets w) (temps w) (audio_params w)
                     (trace w ++ [EvCloseClip (filename (current_clip self))])),
      steps ++ [Job.WaveClosed (wav_file self)])).
Proof. reflexivity. Qed.

Lemma name_eqb_serial (f g : Filename) : fst f <> fst g -> name_eqb f g = false.
Proof.
  intros H. unfold name_eqb. destruct (Nat.eqb_spec (fst f) (fst g)); [contradiction|].
  reflexivity.
Qed.

Lemma name_eqb_suffix (f g : Filename) : snd f <> snd g -> name_eqb f g = false.
Proof.
  intros H. unfold name_eqb. destruct (String.eqb_spec (snd f) (snd g)); [contradiction|].
  apply andb_false_r.
Qed.

(** X21: a run of [main] that ends without an error message has
    written the output, removed the temporary video and the wave file
    and closed every clip, but the file of the fragment that was
    resident at the end is still there: nothing removes it. *)
Theorem main_leaves_last_fragment :
  forall (depth fuel : nat) (args : Job.Args) (probe ts : list Q) (w w0 w' : World)
         (self0 : Self) (steps : list Job.step),
    trace w = [] ->
    __init__ E depth fuel (Job.url args) (Job.max_attempts args) (Job.wait args)
             (Job.limit args) (Job.quality args) w = (Return self0, w0) ->
    Job.main E depth fuel args probe ts (w, []) = (Return tt, (w', steps)) ->
    (forall text, ~ In (Job.Printed text) steps) ->
    exists (f tmp : Filename) (before : list event),
      trace w' = before ++ [EvCreateFile tmp; EvOpenClip tmp; EvCloseClip tmp;
                            EvRemove tmp; EvRemove (wav_file self0); EvCloseClip f]
      /\ holdings (trace w') = ([], [f])
      /\ In (Job.Written (Job.file args) tmp (wav_file self0)) steps.
Proof.
  intros depth fuel args probe ts w w0 w' self0 steps Hw Hinit Hmain Hquiet.
  pose proof (init_residency E _ _ _ _ _ _ _ _ _ _ Hw Hinit) as Hres0.
  pose proof (init_tidy _ _ _ _ _ _ _ _ _ _ Hinit) as Htidy0.
  unfold Job.main in Hmain. cbn [fst snd] in Hmain. rewrite Hinit in Hmain.
  unfold Job.__enter__, Job.__exit__ in Hmain. rewrite download_run in Hmain.
  cbv zeta in Hmain.
  set (w1 := mkWorld (gets w0) (S (temps w0)) (audio_params w0) (trace w0)) in *.
  assert (Hres1 : resident_only (self0, w1)) by exact Hres0.
  destruct (frame_requests E fuel probe (self0, w1)) as [[shown|e|] [selfa wa]] eqn:Hprobe.
  - destruct (frame_requests_settled _ _ _ _ _ _ _ Hres1 Htidy0 Hprobe) as (Hra & Hta & Hwa).
    destruct (frame_requests E fuel ts (selfa, wa)) as [[frames|e|] [self1 wb]] eqn:Hts.
    + destruct (frame_requests_settled _ _ _ _ _ _ _ Hra Hta Hts) as (Hrb & Htb & Hwb).
      cbn [fst snd] in *. rewrite close_run in Hmain. cbn [Job.handled fst snd] in Hmain.
      injection Hmain as <- <-. cbn [trace].
      set (f := filename (current_clip self1)) in *.
      set (tmp := (temps w0, ".mp4")) in *.
      assert (Hwav : wav_file self1 = wav_file self0) by congruence.
      rewrite Hwav.
      exists f, tmp, (trace wb).
      split; [rewrite <- app_assoc; reflexivity|].
      split.
      * destruct Hrb as [_ Hh]. cbn [fst snd] in Hh. fold f in Hh.
        destruct Htb as (Hne & Hmp4 & Hwavs & _). cbn [fst snd] in Hne, Hmp4, Hwavs.
        fold f in Hne, Hmp4.
        assert (H1 : name_eqb tmp f = false)
          by (apply name_eqb_serial; cbn [fst tmp]; congruence).
        assert (H2 : name_eqb (wav_file self0) f = false).
        { apply name_eqb_suffix. rewrite <- Hwav, Hwavs, Hmp4. discriminate. }
        rewrite <- app_assoc, holdings_app, Hh.
        cbn [app fold_left hold fst snd]. unfold with_name, without.
        cbn [existsb orb]. rewrite H1. cbn [orb filter].
        rewrite !name_eqb_refl, H1. cbn [negb filter].
        rewrite name_eqb_refl, H2. reflexivity.
      * cbn [app In]. auto.
    + exfalso. cbn [fst snd] in Hmain. rewrite close_run in Hmain.
      destruct e; cbn [Job.handled fst snd] in Hmain; try discriminate.
      injection Hmain as _ <-. apply (Hquiet ("Argument -q QUALITY error: " ++ msg)%string).
      cbn [app In]. auto.
    + discriminate.
  - exfalso. cbn [fst snd] in Hmain. rewrite close_run in Hmain.
    destruct e; cbn [Job.handled fst snd] in Hmain; try discriminate.
    injection Hmain as _ <-. apply (Hquiet ("Argument -q QUALITY error: " ++ msg)%string).
    cbn [app In]. auto.
  - discriminate.
Qed.


End Lifecycle.

(** The sample stream, downloaded to [talk.mp4]: the three fragments are
    fetched, and the file of the third one stays behind. *)
Lemma main_leaves_last_fragment_witness :
  exists (w' : World) (steps : list Job.step) (f tmp : Filename) (before : list event),
    Job.main Stream.externals 3 3
             (Job.mkArgs Stream.landing_url "talk.mp4" 3 10 0 3200000)
             [0%Q] [0; 2.5; 6]%Q (world0, [])
    = (Return tt, (w', steps))
    /\ trace w' = before ++ [EvCreateFile tmp; EvOpenClip tmp; EvCloseClip tmp;
                             EvRemove tmp; EvRemove (0%nat, ".wav"); EvCloseClip f]
    /\ holdings (trace w') = ([], [f])
    /\ In (Job.Written "talk.mp4" tmp (0%nat, ".wav")) steps.
Proof.
  assert (H : exists self0 w0 w' steps,
             __init__ Stream.externals 3 3 Stream.landing_url 3 10 0 3200000 world0
             = (Return self0, w0)
             /\ wav_file self0 = (0%nat, ".wav")
             /\ Job.main Stream.externals 3 3
                         (Job.mkArgs Stream.landing_url "talk.mp4" 3 10 0 3200000)
                         [0%Q] [0; 2.5; 6]%Q (world0, [])
                = (Return tt, (w', steps))
             /\ forall text, ~ In (Job.Printed text) steps).
  { do 4 eexists. split; [vm_compute; reflexivity|].
    split; [reflexivity|]. split; [vm_compute; reflexivity|].
    intros text Hin. cbn in Hin.
    repeat (destruct Hin as [Hin|Hin]; [discriminate|]). contradiction. }
  destruct H as (self0 & w0 & w' & steps & Hinit & Hwav & Hmain & Hquiet).
  destruct (main_leaves_last_fragment Stream.externals 3 3
              (Job.mkArgs Stream.landing_url "talk.mp4" 3 10 0 3200000)
              [0%Q] [0; 2.5; 6]%Q world0 w0 w' self0 steps eq_refl Hinit Hmain Hquiet)
    as (f & tmp & before & Htr & Hh & Hin).
  rewrite Hwav in Htr, Hin.
  exists w', steps, f, tmp, before. repeat split; assumption.
Defined.

